(** * Cyber Sentinel: behavioural detection engine, fusion, rule matcher,
      protocol server and alert deduplication

    A shallow embedding of the Python sources

      - [port_scan_detector.py]  (class [PortScanDetector])
      - [cyber_sentinel_mod.py]  (class [CyberSentinelMod])
      - [attack_categories.py]   (classes [AttackSubcategory], [AutomaticDetector])
      - [model_server.py]        (class [ModelServer])
      - [app.py]                 (functions [add_threat_detection],
                                  [api_rate_limit])
      - [packet_capture.py]      (class [PacketCapture])

    Conventions of the embedding.

    - Python [float]s are rationals ([Q]); every decimal literal of the
      source is read as the decimal fraction it denotes.  All comparisons
      the theorems rely on have margins far above one unit in the last
      place, so they agree with IEEE binary64.
    - A [datetime] is an integer number of microseconds ([Z]); a
      [timedelta(seconds=n)] is [n * 1000000]; [total_seconds()] divides by
      [1000000] in [Q].  Timestamps are assumed parsed and mutually
      comparable.
    - A [dict] with string keys is a [gmap string _]; a [set] of ports is a
      [gset Z]; a [deque] is a [list] (append at the back, pop at the
      front).
    - A Python object with mutable attributes is a record that is passed
      in and returned.
    - [str.upper()] on the classifier's label is Unicode-aware in Python
      and stays outside the embedding: the fusion layer takes it as a
      parameter, and its theorems hold for every such function.
      [Py.upper] and [Py.lower] are the ASCII case mappings, which agree
      with Python on ASCII text. *)

From Stdlib Require Import ZArith QArith Qminmax String Ascii List Lia.
From Stdlib Require Import DecimalString Lqa.
From stdpp Require Import gmap strings list sorting.

Open Scope string_scope.
Open Scope list_scope.
Open Scope Z_scope.

(** ** Python built-ins used by the sources *)

Module Py.

(** [str.lower()] and [str.upper()] on ASCII text. *)
Definition lower_ascii (c : ascii) : ascii :=
  let n := nat_of_ascii c in
  if ((65 <=? n) && (n <=? 90))%nat then ascii_of_nat (n + 32) else c.

Definition upper_ascii (c : ascii) : ascii :=
  let n := nat_of_ascii c in
  if ((97 <=? n) && (n <=? 122))%nat then ascii_of_nat (n - 32) else c.

Fixpoint lower (s : string) : string :=
  match s with
  | EmptyString => EmptyString
  | String c r => String (lower_ascii c) (lower r)
  end.

Fixpoint upper (s : string) : string :=
  match s with
  | EmptyString => EmptyString
  | String c r => String (upper_ascii c) (upper r)
  end.

(** [needle in hay] for two strings. *)
Fixpoint contains (needle hay : string) : bool :=
  match hay with
  | EmptyString => String.prefix needle EmptyString
  | String _ r => String.prefix needle hay || contains needle r
  end.

(** [s.endswith(suffix)]. *)
Definition endswith (s suffix : string) : bool :=
  let n := String.length s in
  let k := String.length suffix in
  (k <=? n)%nat && String.eqb (String.substring (n - k) k s) suffix.

(** [x in l] for a list of strings. *)
Definition in_list (x : string) (l : list string) : bool :=
  existsb (String.eqb x) l.

(** [str(n)] for an [int]. *)
Definition str_of_int (n : Z) : string :=
  NilZero.string_of_int (Z.to_int n).

(** Truthiness of a string. *)
Definition truthy (s : string) : bool :=
  negb (String.eqb s "").

(** Rational comparisons as booleans. *)
Definition Qltb (a b : Q) : bool :=
  match (a ?= b)%Q with Lt => true | _ => false end.

Definition Qleb (a b : Q) : bool := Qle_bool a b.

(** [float(n)] for a natural count such as [len(...)]. *)
Definition Qnat (n : nat) : Q := inject_Z (Z.of_nat n).

(** [sorted(l)] on integers. *)
Definition sorted (l : list Z) : list Z := merge_sort Z.le l.

(** [d.get(k)] on the items of a dictionary literal. *)
Fixpoint dict_get {A : Type} (k : string) (l : list (string * A)) : option A :=
  match l with
  | [] => None
  | (k', v) :: r => if String.eqb k k' then Some v else dict_get k r
  end.

End Py.

(** Severity labels, ordered NONE < LOW < MEDIUM < HIGH < CRITICAL. *)
Inductive Severity : Set := NONE | LOW | MEDIUM | HIGH | CRITICAL.

(** ** port_scan_detector.py *)

Module PortScan.
Import Py.

(** The value of a packet's ["flags"] entry: already a label, or a bit
    mask. *)
Inductive PyFlags : Set :=
| FlagsStr (s : string)
| FlagsInt (n : Z).

(** The packet dictionary; [None] is an absent key. *)
Record Packet : Type := {
  srcip : option string;
  dstip : option string;
  src_port : option Z;
  dst_port : option Z;
  protocol : option string;
  flags : option PyFlags;
  timestamp : option Z;
  packet_size : option Z
}.

(** One entry of [ip_tracking]. *)
Record IpData : Type := {
  ports : gset Z;
  timestamps : list Z;
  connection_attempts : list Z;
  flag_labels : list string;
  protocols : list string
}.

(** The [defaultdict] factory. *)
Definition new_ip_data : IpData :=
  {| ports := ∅; timestamps := []; connection_attempts := [];
     flag_labels := []; protocols := [] |}.

(** The detector object. *)
Record PortScanDetector : Type := {
  window_size : Z;
  threshold_ports : Z;
  threshold_connections : Z;
  ip_tracking : gmap string IpData
}.

(** [PortScanDetector(window_size=60, threshold_ports=10,
    threshold_connections=20)]. *)
Definition init (window threshold_p threshold_c : Z) : PortScanDetector :=
  {| window_size := window; threshold_ports := threshold_p;
     threshold_connections := threshold_c; ip_tracking := ∅ |}.

Definition default_detector : PortScanDetector := init 60 10 20.

(** [self.ip_tracking[srcip]]. *)
Definition tracked (self : PortScanDetector) (ip : string) : IpData :=
  default new_ip_data (ip_tracking self !! ip).

Definition flag_map : list (Z * string) :=
  [(1, "FIN"); (2, "SYN"); (4, "RST"); (8, "PSH"); (16, "ACK"); (32, "URG")].

Definition _parse_tcp_flags (f : PyFlags) : string :=
  match f with
  | FlagsStr s => s
  | FlagsInt n =>
    if n =? 0 then "NULL" else
    let flag_str :=
      map snd (List.filter (fun e => negb (Z.land n (fst e) =? 0)) flag_map) in
    let result :=
      match flag_str with [] => "NULL" | _ => String.concat "-" flag_str end in
    if contains "FIN" result && contains "PSH" result && contains "URG" result
    then "XMAS"
    else if String.eqb result "SYN" then "S"
    else if String.eqb result "FIN" then "F"
    else result
  end.

(** The entries of the feature dictionary that are read afterwards or
    computed from the packet; the remaining entries of the source are
    constants. *)
Record Features : Type := {
  f_srcip : string;
  f_dstip : string;
  f_src_port : Z;
  f_dst_port : Z;
  f_protocol : string;
  f_flags : string;
  f_timestamp : Z;
  f_packet_size : Z;
  f_is_syn_only : bool;
  f_is_stealth_scan : bool;
  f_is_well_known_port : bool;
  f_has_payload : bool
}.

(** [now] stands for [datetime.now()]. *)
Definition extract_port_scan_features (now : Z) (packet : Packet) : Features :=
  let proto := lower (default "tcp" (protocol packet)) in
  let fl := _parse_tcp_flags (default (FlagsInt 0) (flags packet)) in
  let dport := default 0 (dst_port packet) in
  let is_tcp := String.eqb proto "tcp" in
  {| f_srcip := default "0.0.0.0" (srcip packet);
     f_dstip := default "0.0.0.0" (dstip packet);
     f_src_port := default 0 (src_port packet);
     f_dst_port := dport;
     f_protocol := proto;
     f_flags := fl;
     f_timestamp := default now (timestamp packet);
     f_packet_size := default 0 (packet_size packet);
     f_is_syn_only := is_tcp && (String.eqb fl "S" || String.eqb fl "SYN");
     f_is_stealth_scan :=
       is_tcp && in_list fl ["F"; "FIN"; "NULL"; "FPU"; "XMAS"];
     f_is_well_known_port := dport <=? 1023;
     f_has_payload := 64 <? default 0 (packet_size packet) |}.

(** The [while] loop of [_clean_old_entries]: pop the front of the three
    deques while the oldest timestamp is before the cutoff. *)
Fixpoint pop_old (cutoff : Z) (ts : list Z) (fl pr : list string)
  : list Z * list string * list string :=
  match ts with
  | t :: ts' =>
    if t <? cutoff then pop_old cutoff ts' (tail fl) (tail pr)
    else (ts, fl, pr)
  | [] => (ts, fl, pr)
  end.

Definition clean_ip_data (window : Z) (current_time : Z) (d : IpData) : IpData :=
  let cutoff_time := current_time - window * 1000000 in
  let '(ts, fl, pr) :=
    pop_old cutoff_time (timestamps d) (flag_labels d) (protocols d) in
  {| ports := ports d; timestamps := ts;
     connection_attempts := connection_attempts d;
     flag_labels := fl; protocols := pr |}.

Definition _clean_old_entries (self : PortScanDetector) (ip : string)
    (current_time : Z) : PortScanDetector :=
  {| window_size := window_size self;
     threshold_ports := threshold_ports self;
     threshold_connections := threshold_connections self;
     ip_tracking :=
       <[ip := clean_ip_data (window_size self) current_time (tracked self ip)]>
         (ip_tracking self) |}.

(** The counting loop of [_detect_sequential_ports]:
    [for i in range(len(sorted_ports) - 1)]. *)
Definition sequential_count (sorted_ports : list Z) : nat :=
  fold_left
    (fun count i =>
       if nth (S i) sorted_ports 0 - nth i sorted_ports 0 <=? 2
       then S count else count)
    (seq 0 (length sorted_ports - 1)) 0%nat.

Definition _detect_sequential_ports (port_list : list Z) : bool :=
  if (length port_list <? 5)%nat then false
  else
    let sorted_ports := sorted port_list in
    Qltb 0.6 (Qnat (sequential_count sorted_ports) / Qnat (length sorted_ports)).

Definition _identify_stealth_scan_type (fl : list string) : string :=
  if in_list "F" fl || in_list "FIN" fl then "FIN_SCAN"
  else if in_list "NULL" fl then "NULL_SCAN"
  else if existsb (fun f => contains "XMAS" f || contains "FPU" f) fl
  then "XMAS_SCAN"
  else "STEALTH_SCAN".

Definition mitigation_actions : list (string * string) :=
  [("SYN_SCAN", "Block source IP immediately. Enable SYN cookies. Review firewall rules.");
   ("VERTICAL_SCAN", "Block source IP. Enable port knocking. Implement rate limiting.");
   ("HORIZONTAL_SCAN", "CRITICAL: Network-wide attack. Block source network. Alert SOC team.");
   ("STEALTH_SCAN", "Advanced attacker detected. Block IP. Enable IPS. Forensic analysis required.");
   ("UDP_SCAN", "Block UDP traffic from source. Enable stateful firewall inspection.");
   ("FIN_SCAN", "Stealth attack detected. Block source IP. Review all recent connections.");
   ("NULL_SCAN", "Advanced reconnaissance. Block IP. Enable deep packet inspection.");
   ("XMAS_SCAN", "Sophisticated attack. Immediate IP block. Increase monitoring.");
   ("SEQUENTIAL_SCAN", "Systematic reconnaissance. Block IP. Review access logs.");
   ("RAPID_SCAN", "Automated scanning tool detected. Block IP range. Implement CAPTCHA.")].

Definition _get_mitigation_action (scan_type : option string) (sev : Severity)
  : string :=
  default "Block source IP and investigate further."
          (s ← scan_type; dict_get s mitigation_actions).

(** The [description] entries of [scan_signatures]. *)
Definition scan_signatures : list (string * string) :=
  [("SYN_SCAN", "TCP SYN Stealth Scan");
   ("CONNECT_SCAN", "TCP Connect Scan");
   ("XMAS_SCAN", "XMAS Tree Scan");
   ("FIN_SCAN", "FIN Stealth Scan");
   ("NULL_SCAN", "NULL Scan");
   ("UDP_SCAN", "UDP Port Scan");
   ("VERTICAL_SCAN", "Vertical Port Scan (many ports, one target)");
   ("HORIZONTAL_SCAN", "Horizontal Scan (one port, many targets)")].

(** The arguments of the human-readable lines appended to [details]. *)
Inductive Detail : Type :=
| DUniquePorts (unique_ports : nat) (time_window_seconds : Q)
| DHighRate (connection_rate : Q)
| DSequential
| DSynScan (syn_only_count : nat)
| DStealth (scan_type : string)
| DUdpScan (udp_count : nat)
| DWellKnown (well_known_scans : nat).

(** The local variables updated by the seven pattern checks. *)
Record Verdict : Type := {
  scan_detected : bool;
  scan_type : option string;
  confidence : Q;
  severity : Severity;
  details : list Detail
}.

Definition verdict0 : Verdict :=
  {| scan_detected := false; scan_type := None; confidence := 0.0;
     severity := LOW; details := [] |}.

Definition count_in (labels : list string) (l : list string) : nat :=
  length (List.filter (fun f => in_list f labels) l).

Definition stealth_flags : list string := ["F"; "FIN"; "NULL"; "FPU"; "XMAS"].

Definition well_known (ps : gset Z) : nat :=
  length (List.filter (fun p => p <=? 1023) (elements ps)).

(** Behavioural metrics computed after the cleanup. *)
Definition time_window_of (d : IpData) : Q :=
  if (1 <? length (timestamps d))%nat
  then inject_Z (List.last (timestamps d) 0 - hd 0 (timestamps d)) / 1000000
  else 1.

Definition rate_of (d : IpData) : Q :=
  Qnat (length (timestamps d)) / Qmax (time_window_of d) 1.

(** Pattern 1; [None] is the [ZeroDivisionError] of
    [unique_ports / self.threshold_ports]. *)
Definition pattern1 (threshold : Z) (d : IpData) (v : Verdict) : option Verdict :=
  let unique_ports := size (ports d) in
  if threshold <=? Z.of_nat unique_ports then
    if threshold =? 0 then None
    else Some
      {| scan_detected := true;
         scan_type := Some "VERTICAL_SCAN";
         confidence :=
           Qmin 0.95 (0.5 + (Qnat unique_ports / inject_Z threshold) * 0.45);
         severity := HIGH;
         details := details v ++ [DUniquePorts unique_ports (time_window_of d)] |}
  else Some v.

Definition pattern2 (d : IpData) (v : Verdict) : Verdict :=
  let connection_rate := rate_of d in
  if Qltb 5.0 connection_rate then
    {| scan_detected := true;
       scan_type :=
         match scan_type v with
         | Some s => if truthy s then Some s else Some "RAPID_SCAN"
         | None => Some "RAPID_SCAN"
         end;
       confidence :=
         Qmax (confidence v) (Qmin 0.98 (0.6 + (connection_rate / 10) * 0.38));
       severity := HIGH;
       details := details v ++ [DHighRate connection_rate] |}
  else v.

Definition pattern3 (d : IpData) (v : Verdict) : Verdict :=
  if _detect_sequential_ports (elements (ports d)) then
    {| scan_detected := true;
       scan_type := Some "SEQUENTIAL_SCAN";
       confidence := Qmax (confidence v) 0.92;
       severity := HIGH;
       details := details v ++ [DSequential] |}
  else v.

Definition pattern4 (d : IpData) (v : Verdict) : Verdict :=
  let syn_only_count := count_in ["S"; "SYN"] (flag_labels d) in
  if (5 <? syn_only_count)%nat && (0 <? length (flag_labels d))%nat
     && Qltb 0.7 (Qnat syn_only_count / Qnat (length (flag_labels d)))
  then
    {| scan_detected := true;
       scan_type := Some "SYN_SCAN";
       confidence := Qmax (confidence v) 0.96;
       severity := HIGH;
       details := details v ++ [DSynScan syn_only_count] |}
  else v.

Definition pattern5 (d : IpData) (v : Verdict) : Verdict :=
  let stealth_count := count_in stealth_flags (flag_labels d) in
  if (3 <? stealth_count)%nat then
    let st := _identify_stealth_scan_type (flag_labels d) in
    {| scan_detected := true;
       scan_type := Some st;
       confidence := Qmax (confidence v) 0.98;
       severity := CRITICAL;
       details := details v ++ [DStealth st] |}
  else v.

Definition udp_count (d : IpData) : nat :=
  length (List.filter (fun p => String.eqb p "udp") (protocols d)).

Definition pattern6 (d : IpData) (v : Verdict) : Verdict :=
  if (10 <? udp_count d)%nat && (8 <? size (ports d))%nat then
    {| scan_detected := true;
       scan_type := Some "UDP_SCAN";
       confidence := Qmax (confidence v) 0.89;
       severity := MEDIUM;
       details := details v ++ [DUdpScan (udp_count d)] |}
  else v.

Definition pattern7 (d : IpData) (v : Verdict) : Verdict :=
  let well_known_scans := well_known (ports d) in
  if (15 <? well_known_scans)%nat then
    {| scan_detected := scan_detected v;
       scan_type := scan_type v;
       confidence := confidence v;
       severity := CRITICAL;
       details := details v ++ [DWellKnown well_known_scans] |}
  else v.

(** Patterns 2 to 7 in source order. *)
Definition patterns_2_7 (d : IpData) (v : Verdict) : Verdict :=
  pattern7 d (pattern6 d (pattern5 d (pattern4 d (pattern3 d (pattern2 d v))))).

(** The returned dictionary (reporting-only entries [dominant_protocol]
    and [flag_distribution] are left out). *)
Record ScanResult : Type := {
  threat_detected : bool;
  attack_type : option string;
  r_confidence : Q;
  r_severity : Severity;
  source_ip : string;
  destination_ip : string;
  unique_ports_accessed : nat;
  connection_rate : Q;
  time_window : Q;
  scan_signature : string;
  r_details : list Detail;
  recommended_action : option string;
  r_timestamp : Z;
  total_connections : nat
}.

Definition build_result (feat : Features) (d : IpData) (v : Verdict) : ScanResult :=
  {| threat_detected := scan_detected v;
     attack_type := if scan_detected v then scan_type v else Some "Normal";
     r_confidence := confidence v;
     r_severity := if scan_detected v then severity v else NONE;
     source_ip := f_srcip feat;
     destination_ip := f_dstip feat;
     unique_ports_accessed := size (ports d);
     connection_rate := rate_of d;
     time_window := time_window_of d;
     scan_signature :=
       default "Unknown" (s ← scan_type v; dict_get s scan_signatures);
     r_details := details v;
     recommended_action :=
       if scan_detected v
       then Some (_get_mitigation_action (scan_type v) (severity v))
       else None;
     r_timestamp := f_timestamp feat;
     total_connections := length (timestamps d) |}.

(** The tracking update at the head of [detect_port_scan]. *)
Definition record_observation (feat : Features) (d : IpData) : IpData :=
  {| ports := ports d ∪ {[f_dst_port feat]};
     timestamps := timestamps d ++ [f_timestamp feat];
     connection_attempts := connection_attempts d;
     flag_labels := flag_labels d ++ [f_flags feat];
     protocols := protocols d ++ [f_protocol feat] |}.

Definition with_tracking (self : PortScanDetector) (m : gmap string IpData)
  : PortScanDetector :=
  {| window_size := window_size self;
     threshold_ports := threshold_ports self;
     threshold_connections := threshold_connections self;
     ip_tracking := m |}.

(** [detect_port_scan]; the second component is [None] when the call
    raises. *)
Definition detect_port_scan (self : PortScanDetector) (now : Z) (packet : Packet)
  : PortScanDetector * option ScanResult :=
  let feat := extract_port_scan_features now packet in
  let ip := f_srcip feat in
  let self1 :=
    with_tracking self
      (<[ip := record_observation feat (tracked self ip)]> (ip_tracking self)) in
  let self2 := _clean_old_entries self1 ip (f_timestamp feat) in
  let ip_data := tracked self2 ip in
  (self2,
   v ← pattern1 (threshold_ports self2) ip_data verdict0;
   Some (build_result feat ip_data (patterns_2_7 ip_data v))).

(** The dictionaries returned by [get_statistics]. *)
Inductive Statistics : Type :=
| StatsError (error : string)
| IpStats (ip : string) (unique_ports total_connections : nat)
    (active_window : Q) (ports_accessed : list Z)
| GlobalStats (total_tracked_ips active_scanners
               total_unique_ports_scanned : nat).

Definition get_statistics (self : PortScanDetector) (srcip : option string)
  : Statistics :=
  let entries := map snd (map_to_list (ip_tracking self)) in
  let global :=
    GlobalStats (size (ip_tracking self))
      (length (List.filter
                 (fun d => threshold_ports self <=? Z.of_nat (size (ports d)))
                 entries))
      (foldr (fun d n => (size (ports d) + n)%nat) 0%nat entries) in
  match srcip with
  | Some ip =>
    if truthy ip then
      match ip_tracking self !! ip with
      | None => StatsError "IP not found in tracking"
      | Some ip_data =>
        IpStats ip (size (ports ip_data)) (length (timestamps ip_data))
          (if (1 <? length (timestamps ip_data))%nat
           then inject_Z (List.last (timestamps ip_data) 0
                          - hd 0 (timestamps ip_data)) / 1000000
           else 0.0)
          (take 20 (sorted (elements (ports ip_data))))
      end
    else global
  | None => global
  end.

End PortScan.

(** ** cyber_sentinel_mod.py *)

Module Sentinel.
Import Py.

(** The dictionary returned by [predict_ml]: either
    [{'ml_available': False, 'error': ...}] or a prediction. *)
Inductive MlResult : Type :=
| MlUnavailable
| MlPrediction (pred_class_idx : Z) (pred_class : option string) (conf : Q).

Definition ml_available (m : MlResult) : bool :=
  match m with MlUnavailable => false | MlPrediction _ _ _ => true end.

(** The dictionary returned by [CyberSentinelMod.detect_port_scan]:
    [{'port_scan_available': False, ...}] or the detector's report. *)
Inductive ScanRes : Type :=
| ScanUnavailable (error : bool)
| ScanReport (r : PortScan.ScanResult).

Record Heuristic : Type := {
  heuristic : string;
  h_confidence : Q;
  h_severity : Severity
}.

(** The engine object; the classifier itself stays outside and its
    answer is passed to [analyze_packet]. *)
Record CyberSentinelMod : Type := {
  model_path : string;
  port_scan_detector : option PortScan.PortScanDetector
}.

(** [os.path.basename] for ['/']-separated paths. *)
Fixpoint basename (p : string) : string :=
  match p with
  | EmptyString => EmptyString
  | String _ r => if contains "/" p then basename r else p
  end.

Definition model_name (self : CyberSentinelMod) : string :=
  if truthy (model_path self) then
    let base_name := basename (model_path self) in
    if endswith base_name ".h5"
    then String.substring 0 (String.length base_name - 3) base_name
    else base_name
  else "CICIDS2017_5class_model".

Definition detect_port_scan (self : CyberSentinelMod) (now : Z)
    (packet : PortScan.Packet) : CyberSentinelMod * ScanRes :=
  match port_scan_detector self with
  | None => (self, ScanUnavailable false)
  | Some det =>
    let '(det', r) := PortScan.detect_port_scan det now packet in
    ({| model_path := model_path self; port_scan_detector := Some det' |},
     match r with
     | Some r => ScanReport r
     | None => ScanUnavailable true
     end)
  end.

Definition heuristic_classify (self : CyberSentinelMod)
    (packet : PortScan.Packet) : option Heuristic :=
  det ← port_scan_detector self;
  ip ← PortScan.srcip packet;
  if negb (truthy ip) then None else
  ip_state ← PortScan.ip_tracking det !! ip;
  let total_conns := length (PortScan.timestamps ip_state) in
  let unique_ports := size (PortScan.ports ip_state) in
  let time_window := PortScan.time_window_of ip_state in
  let conn_rate := (Qnat total_conns / Qmax time_window 1)%Q in
  if Qltb 50 conn_rate then
    Some {| heuristic := "DOS_ATTACK";
            h_confidence := Qmin 0.99 (conn_rate / 100);
            h_severity := CRITICAL |}
  else if (20 <? total_conns)%nat && (unique_ports <? 5)%nat then
    Some {| heuristic := "BRUTE_FORCE";
            h_confidence := Qmin 0.95 (Qnat total_conns / 100);
            h_severity := HIGH |}
  else if (10 <? PortScan.well_known (PortScan.ports ip_state))%nat then
    Some {| heuristic := "SERVICE_SCAN"; h_confidence := 0.8;
            h_severity := HIGH |}
  else None.

Definition severity_map : list (string * Severity) :=
  [("BENIGN", NONE); ("NORMAL", NONE); ("DOS", HIGH); ("DDOS", HIGH);
   ("PORTSCAN", MEDIUM); ("PORT_SCAN", MEDIUM); ("BOT", HIGH);
   ("INFILTRATION", CRITICAL); ("WEBATTACK", HIGH); ("WEB_ATTACK", HIGH);
   ("FTP-PATATOR", MEDIUM); ("SSH-PATATOR", MEDIUM); ("BRUTEFORCE", HIGH);
   ("BRUTE_FORCE", HIGH); ("HEARTBLEED", CRITICAL); ("EXPLOITS", HIGH);
   ("BACKDOOR", CRITICAL); ("SHELLCODE", CRITICAL); ("WORMS", CRITICAL);
   ("ANALYSIS", MEDIUM); ("FUZZERS", MEDIUM); ("RECONNAISSANCE", MEDIUM);
   ("GENERIC", MEDIUM)].

Section Labels.
(** [str.upper()], which is Unicode-aware in Python, stays outside:
    the two functions that upper-case the classifier's label, and
    [analyze_packet] with them, take it as [upper]. *)
Variable upper : string -> string.

Definition _get_severity_from_attack_type (attack_type : string) : Severity :=
  if negb (truthy attack_type) then LOW
  else default MEDIUM (Py.dict_get (upper attack_type) severity_map).

Definition benign_aliases : list string := ["BENIGN"; "NORMAL"; "0"; "NONE"].

(** [ml_res.get('pred_class') or str(ml_res.get('pred_class_idx'))]. *)
Definition pred_of (idx : Z) (pred_class : option string) : string :=
  match pred_class with
  | Some s => if truthy s then s else str_of_int idx
  | None => str_of_int idx
  end.

Definition is_benign (pred : string) : bool :=
  if truthy pred then in_list (upper pred) benign_aliases else false.

(** [x or 0.0] for a float. *)
Definition or_zero (x : Q) : Q := if Qeq_bool x 0 then 0.0%Q else x.

(** The result dictionary. *)
Record Final : Type := {
  timestamp : Z;
  source_ip : string;
  destination_ip : string;
  protocol : string;
  ml_result : MlResult;
  port_scan_result : ScanRes;
  heuristic_result : option Heuristic;
  threat_detected : bool;
  attack_type : option string;
  attack_label : option string;
  confidence : Q;
  severity : Severity;
  recommendation : option string;
  model_used : option string;
  status : option string
}.

(** Assignment to the entries that the priority rules overwrite. *)
Definition assign (f : Final) (threat : bool) (atype alabel : option string)
    (conf : Q) (sev : Severity) (rec used st : option string) : Final :=
  {| timestamp := timestamp f; source_ip := source_ip f;
     destination_ip := destination_ip f; protocol := protocol f;
     ml_result := ml_result f; port_scan_result := port_scan_result f;
     heuristic_result := heuristic_result f;
     threat_detected := threat; attack_type := atype; attack_label := alabel;
     confidence := conf; severity := sev; recommendation := rec;
     model_used := used; status := st |}.

Definition scan_threat (s : ScanRes) : option PortScan.ScanResult :=
  match s with
  | ScanReport r => if PortScan.threat_detected r then Some r else None
  | ScanUnavailable _ => None
  end.

(** Priority rules 2 and 3 and the fall-through of [analyze_packet],
    applied to the dictionary [final] left by rule 1. *)
Definition backup_rules (ml_res : MlResult) (scan_res : ScanRes)
    (heuristic_res : option Heuristic) (final : Final) : Final :=
  match scan_threat scan_res with
  | Some r =>
    assign final true (PortScan.attack_type r) (PortScan.attack_type r)
      (or_zero (PortScan.r_confidence r)) (PortScan.r_severity r)
      (PortScan.recommended_action r) (Some "PortScanDetector (backup)")
      (status final)
  | None =>
    match heuristic_res with
    | Some h =>
      if Qltb 0.5 (h_confidence h) then
        assign final true (Some (heuristic h)) (Some (heuristic h))
          (h_confidence h) (h_severity h)
          (Some ("Heuristic detected " +:+ heuristic h))
          (Some "Heuristic (backup)") (status final)
      else if ml_available ml_res then final
      else assign final (threat_detected final) (Some "BENIGN")
             (attack_label final) (confidence final) NONE
             (recommendation final) (model_used final) (Some "Normal")
    | None =>
      if ml_available ml_res then final
      else assign final (threat_detected final) (Some "BENIGN")
             (attack_label final) (confidence final) NONE
             (recommendation final) (model_used final) (Some "Normal")
    end
  end.

(** [packet['timestamp'] = ts]. *)
Definition stamp (ts : Z) (packet : PortScan.Packet) : PortScan.Packet :=
  {| PortScan.srcip := PortScan.srcip packet;
     PortScan.dstip := PortScan.dstip packet;
     PortScan.src_port := PortScan.src_port packet;
     PortScan.dst_port := PortScan.dst_port packet;
     PortScan.protocol := PortScan.protocol packet;
     PortScan.flags := PortScan.flags packet;
     PortScan.timestamp := Some ts;
     PortScan.packet_size := PortScan.packet_size packet |}.

(** [analyze_packet]; [now] stands for [datetime.utcnow()] and [ml_res]
    for the value of [self.predict_ml(packet)]. *)
Definition analyze_packet (self : CyberSentinelMod) (now : Z)
    (ml_res : MlResult) (packet : PortScan.Packet) : CyberSentinelMod * Final :=
  let ts := default now (PortScan.timestamp packet) in
  let packet := stamp ts packet in
  let '(self', scan_res) := detect_port_scan self now packet in
  let heuristic_res := heuristic_classify self' packet in
  let final :=
    {| timestamp := ts;
       source_ip := default "unknown" (PortScan.srcip packet);
       destination_ip := default "unknown" (PortScan.dstip packet);
       protocol := default "unknown" (PortScan.protocol packet);
       ml_result := ml_res;
       port_scan_result := scan_res;
       heuristic_result := heuristic_res;
       threat_detected := false;
       attack_type := Some "BENIGN";
       attack_label := Some "BENIGN";
       confidence := 0.0;
       severity := NONE;
       recommendation := None;
       model_used := None;
       status := None |} in
  match ml_res with
  | MlPrediction idx pred_class conf =>
    let pred := pred_of idx pred_class in
    let conf := or_zero conf in
    let name := model_name self in
    if negb (is_benign pred) && Qleb 0.3 conf then
      (self',
       assign final true (Some pred) (Some pred) conf
         (_get_severity_from_attack_type pred)
         (Some (name +:+ " detected " +:+ pred
                +:+ ". Investigate and apply IDS policy based on attack type."))
         (Some name) None)
    else
      (self',
       backup_rules ml_res scan_res heuristic_res
         (assign final false (Some "BENIGN") (Some "BENIGN") conf NONE
            None (Some name) (Some "Normal")))
  | MlUnavailable =>
    (self', backup_rules ml_res scan_res heuristic_res final)
  end.

End Labels.

End Sentinel.

(** ** attack_categories.py *)

Module AttackCategories.
Import Py.

Inductive AttackCategory : Set :=
| PORT_SCAN | DOS_ATTACK | BRUTE_FORCE | MALWARE | DATA_EXFILTRATION
| COMMAND_INJECTION | SQL_INJECTION | CROSS_SITE_SCRIPTING | MAN_IN_MIDDLE
| RECONNAISSANCE | UNKNOWN.

(** [AttackCategory.value]. *)
Definition value (c : AttackCategory) : string :=
  match c with
  | PORT_SCAN => "Port Scan"
  | DOS_ATTACK => "Denial of Service"
  | BRUTE_FORCE => "Brute Force"
  | MALWARE => "Malware Communication"
  | DATA_EXFILTRATION => "Data Exfiltration"
  | COMMAND_INJECTION => "Command Injection"
  | SQL_INJECTION => "SQL Injection"
  | CROSS_SITE_SCRIPTING => "Cross-Site Scripting"
  | MAN_IN_MIDDLE => "Man-in-the-Middle"
  | RECONNAISSANCE => "Reconnaissance"
  | UNKNOWN => "Unknown Attack"
  end.

(** The value of a ["dst_port"] rule: one port or a list of ports. *)
Inductive PortRule : Type :=
| OnePort (p : Z)
| PortList (l : list Z).

(** A ["detection_rules"] dictionary.  The five keys that the matcher
    reads and the threshold are fields; [other_keys] lists the keys it
    never reads. *)
Record DetectionRules : Type := {
  tcp_flags : option (list string);
  connection_rate : option string;
  protocol : option string;
  dst_port : option PortRule;
  unique_ports : option string;
  confidence_threshold : option Q;
  other_keys : list string
}.

Record Subcategory : Type := {
  name : string;
  description : string;
  detection_rules : DetectionRules;
  severity : Severity;
  auto_response : string
}.

Definition rules (fl : option (list string)) (rate proto : option string)
    (port : option PortRule) (uniq : option string) (threshold : Q)
    (others : list string) : DetectionRules :=
  {| tcp_flags := fl; connection_rate := rate; protocol := proto;
     dst_port := port; unique_ports := uniq;
     confidence_threshold := Some threshold; other_keys := others |}.

Definition subcat (n d : string) (r : DetectionRules) (s : Severity)
    (a : string) : Subcategory :=
  {| name := n; description := d; detection_rules := r; severity := s;
     auto_response := a |}.

(** [AttackSubcategory.CATEGORIES], in source order. *)
Definition CATEGORIES : list (AttackCategory * list (string * Subcategory)) :=
  [(PORT_SCAN,
    [("SYN_SCAN",
      subcat "TCP SYN Scan" "Stealth port scan using SYN packets"
        (rules (Some ["SYN"]) (Some "> 10/second") None None (Some "> 5") 0.8 [])
        HIGH "block_ip_temporarily");
     ("NULL_SCAN",
      subcat "TCP NULL Scan" "Port scan with no TCP flags set"
        (rules (Some ["NULL"]) (Some "> 5/second") None None None 0.9 [])
        HIGH "block_ip_immediately");
     ("XMAS_SCAN",
      subcat "TCP XMAS Scan" "Port scan with FIN, PSH, URG flags"
        (rules (Some ["FIN"; "PSH"; "URG"]) (Some "> 5/second") None None None
           0.85 [])
        HIGH "block_ip_temporarily");
     ("FIN_SCAN",
      subcat "TCP FIN Scan" "Stealth port scan using FIN packets"
        (rules (Some ["FIN"]) (Some "> 5/second") None None None 0.8 [])
        HIGH "block_ip_temporarily");
     ("UDP_SCAN",
      subcat "UDP Port Scan" "Scanning UDP ports for open services"
        (rules None (Some "> 10/second") (Some "UDP") None (Some "> 10") 0.7 [])
        MEDIUM "monitor_and_alert");
     ("VERTICAL_SCAN",
      subcat "Vertical Port Scan" "Scanning multiple ports on single target"
        (rules None None None None (Some "> 20") 0.75
           ["single_target"; "time_window"])
        HIGH "block_ip_temporarily");
     ("HORIZONTAL_SCAN",
      subcat "Horizontal Port Scan"
        "Scanning single port across multiple targets"
        (rules None None None None None 0.8
           ["single_port"; "unique_targets"; "time_window"])
        CRITICAL "block_ip_immediately")]);
   (DOS_ATTACK,
    [("SYN_FLOOD",
      subcat "SYN Flood Attack" "Overwhelming target with SYN packets"
        (rules (Some ["SYN"]) (Some "> 100/second") None None None 0.9
           ["no_ack_response"])
        CRITICAL "block_ip_immediately");
     ("UDP_FLOOD",
      subcat "UDP Flood Attack" "Overwhelming target with UDP packets"
        (rules None None (Some "UDP") None None 0.85 ["packet_rate"])
        CRITICAL "block_ip_immediately");
     ("ICMP_FLOOD",
      subcat "ICMP Flood Attack" "Ping flood or ICMP packet storm"
        (rules None None (Some "ICMP") None None 0.8 ["packet_rate"])
        HIGH "block_ip_temporarily");
     ("HTTP_FLOOD",
      subcat "HTTP Flood Attack" "Overwhelming web server with HTTP requests"
        (rules None None (Some "TCP") (Some (PortList [80; 443; 8080])) None 0.8
           ["request_rate"])
        HIGH "rate_limit_requests")]);
   (BRUTE_FORCE,
    [("SSH_BRUTE_FORCE",
      subcat "SSH Brute Force" "Attempting to guess SSH credentials"
        (rules None (Some "> 5/second") (Some "TCP") (Some (OnePort 22)) None
           0.85 ["failed_attempts"])
        HIGH "block_ip_after_threshold");
     ("FTP_BRUTE_FORCE",
      subcat "FTP Brute Force" "Attempting to guess FTP credentials"
        (rules None (Some "> 10/second") (Some "TCP") (Some (OnePort 21)) None
           0.8 ["failed_attempts"])
        HIGH "block_ip_after_threshold");
     ("RDP_BRUTE_FORCE",
      subcat "RDP Brute Force" "Attempting to guess RDP credentials"
        (rules None (Some "> 3/second") (Some "TCP") (Some (OnePort 3389)) None
           0.9 ["failed_attempts"])
        CRITICAL "block_ip_immediately");
     ("WEB_BRUTE_FORCE",
      subcat "Web Application Brute Force"
        "Attempting to guess web credentials"
        (rules None None (Some "TCP") (Some (PortList [80; 443; 8080])) None
           0.75 ["http_methods"; "login_attempts"])
        MEDIUM "rate_limit_and_alert")]);
   (MALWARE,
    [("C2_COMMUNICATION",
      subcat "Command & Control Communication"
        "Malware communicating with C2 server"
        (rules None None None None None 0.8
           ["suspicious_domains"; "periodic_connections"; "encrypted_traffic"])
        CRITICAL "block_domain_and_ip");
     ("BOTNET_ACTIVITY",
      subcat "Botnet Activity" "Infected system participating in botnet"
        (rules None None None None None 0.85
           ["multiple_outbound_connections"; "similar_patterns";
            "high_connection_rate"])
        CRITICAL "quarantine_system");
     ("RANSOMWARE",
      subcat "Ransomware Activity"
        "Ransomware encrypting files and communicating"
        (rules None None None None None 0.95
           ["file_encryption_patterns"; "ransom_notes"; "payment_requests"])
        CRITICAL "isolate_system_immediately")]);
   (RECONNAISSANCE,
    [("DNS_ENUMERATION",
      subcat "DNS Enumeration" "Gathering information through DNS queries"
        (rules None None None None None 0.7
           ["dns_queries"; "subdomain_bruteforce"; "zone_transfers"])
        MEDIUM "monitor_and_log");
     ("NETWORK_DISCOVERY",
      subcat "Network Discovery"
        "Scanning network to discover hosts and services"
        (rules None None None None None 0.6
           ["arp_scanning"; "ping_sweeps"; "service_fingerprinting"])
        LOW "monitor_and_log");
     ("OS_FINGERPRINTING",
      subcat "OS Fingerprinting" "Attempting to identify operating systems"
        (rules None None None None None 0.65
           ["ttl_analysis"; "window_size_analysis"; "tcp_options_analysis"])
        LOW "monitor_and_log")])].

(** The dictionary returned by [get_subcategory_info]: the subcategory
    with its ["category"] and ["id"] entries. *)
Record Info : Type := {
  info : Subcategory;
  category : string;
  id : string
}.

Fixpoint find_subcategory (subcategory_id : string)
    (cats : list (AttackCategory * list (string * Subcategory)))
  : option (AttackCategory * Subcategory) :=
  match cats with
  | [] => None
  | (c, subs) :: rest =>
    match Py.dict_get subcategory_id subs with
    | Some s => Some (c, s)
    | None => find_subcategory subcategory_id rest
    end
  end.

Definition get_subcategory_info (subcategory_id : string) : option Info :=
  (fun cs => {| info := snd cs; category := value (fst cs);
                id := subcategory_id |})
    <$> find_subcategory subcategory_id CATEGORIES.

Definition get_detection_rules (subcategory_id : string)
  : option DetectionRules :=
  (fun cs => detection_rules (snd cs))
    <$> find_subcategory subcategory_id CATEGORIES.

(** The detector object. *)
Record AutomaticDetector : Type := {
  enabled_attacks : gset string;
  rule_table : gmap string DetectionRules;
  response_actions : gmap string string
}.

Definition new_detector : AutomaticDetector :=
  {| enabled_attacks := ∅; rule_table := ∅; response_actions := ∅ |}.

Definition enable_one (self : AutomaticDetector) (subcat_id : string)
  : AutomaticDetector :=
  match get_detection_rules subcat_id, get_subcategory_info subcat_id with
  | Some r, Some i =>
    {| enabled_attacks := enabled_attacks self ∪ {[subcat_id]};
       rule_table := <[subcat_id := r]> (rule_table self);
       response_actions :=
         <[subcat_id := auto_response (info i)]> (response_actions self) |}
  | _, _ => self
  end.

Definition enable_attack_detection (self : AutomaticDetector)
    (subcategory_ids : list string) : AutomaticDetector :=
  fold_left enable_one subcategory_ids self.

Definition disable_one (self : AutomaticDetector) (subcat_id : string)
  : AutomaticDetector :=
  {| enabled_attacks := enabled_attacks self ∖ {[subcat_id]};
     rule_table := delete subcat_id (rule_table self);
     response_actions := delete subcat_id (response_actions self) |}.

Definition disable_attack_detection (self : AutomaticDetector)
    (subcategory_ids : list string) : AutomaticDetector :=
  fold_left disable_one subcategory_ids self.

(** The entries of [packet_data] that the matcher reads; [flags] is an
    [int] as in the signature of [_check_tcp_flags]. *)
Record PacketData : Type := {
  pkt_flags : option Z;
  pkt_protocol : option string;
  pkt_dst_port : option Z
}.

Definition flag_map : list (string * Z) :=
  [("SYN", 2); ("ACK", 16); ("FIN", 1); ("RST", 4); ("PSH", 8); ("URG", 32);
   ("ECE", 64); ("CWR", 128); ("NULL", 0)].

(** The loop over several required flags. *)
Definition all_flags_present (packet_flags : Z) (required_flags : list string)
  : bool :=
  forallb
    (fun flag =>
       match Py.dict_get flag flag_map with
       | Some bit => negb (Z.land packet_flags bit =? 0)
       | None => true
       end)
    required_flags.

Definition _check_tcp_flags (packet_flags : Z) (required_flags : list string)
  : bool :=
  match required_flags with
  | [required_flag] =>
    match Py.dict_get required_flag flag_map with
    | Some bit => packet_flags =? bit
    | None => all_flags_present packet_flags required_flags
    end
  | _ => all_flags_present packet_flags required_flags
  end.

Definition _check_connection_rate (packet_data : PacketData)
    (rate_rule : string) : bool :=
  contains ">" rate_rule || contains "high" (lower rate_rule).

Record Detection : Type := {
  d_attack_type : string;
  d_attack_name : string;
  d_category : string;
  d_confidence : Q;
  d_severity : Severity;
  d_matched_rules : list string;
  d_auto_response : option string;
  d_description : string
}.

(** The running pair [(confidence, matched_rules)] of
    [_check_attack_rules]. *)
Definition Score : Type := (Q * list string)%type.

Definition award (cond : bool) (w : Q) (label : string) (s : Score) : Score :=
  if cond then ((fst s + w)%Q, (snd s ++ [label])%list) else s.

Definition score_rules (packet_data : PacketData) (r : DetectionRules) : Score :=
  let s0 : Score := (0.0%Q, []) in
  let s1 :=
    match tcp_flags r with
    | Some required_flags =>
      award (_check_tcp_flags (default 0 (pkt_flags packet_data)) required_flags)
        0.3 "tcp_flags" s0
    | None => s0
    end in
  let s2 :=
    match connection_rate r with
    | Some rate_rule =>
      award (_check_connection_rate packet_data rate_rule) 0.25
        "connection_rate" s1
    | None => s1
    end in
  let s3 :=
    match protocol r with
    | Some p =>
      award (String.eqb (upper (default "" (pkt_protocol packet_data))) (upper p))
        0.2 "protocol" s2
    | None => s2
    end in
  let s4 :=
    match dst_port r with
    | Some (PortList allowed_ports) =>
      award (existsb (Z.eqb (default 0 (pkt_dst_port packet_data))) allowed_ports)
        0.15 "dst_port" s3
    | Some (OnePort allowed_port) =>
      award (default 0 (pkt_dst_port packet_data) =? allowed_port)
        0.15 "dst_port" s3
    | None => s3
    end in
  match unique_ports r with
  | Some _ => award true 0.1 "unique_ports_pattern" s4
  | None => s4
  end.

(** [_check_attack_rules]; the outer [None] is the [KeyError] of
    [self.detection_rules[attack_type]]. *)
Definition _check_attack_rules (self : AutomaticDetector)
    (packet_data : PacketData) (attack_type : string)
  : option (option Detection) :=
  r ← rule_table self !! attack_type;
  Some
    (match get_subcategory_info attack_type with
     | None => None
     | Some i =>
       let '(conf, matched_rules) := score_rules packet_data r in
       let threshold := default 0.7%Q (confidence_threshold r) in
       if Qleb threshold conf then
         Some {| d_attack_type := attack_type;
                 d_attack_name := name (info i);
                 d_category := category i;
                 d_confidence := conf;
                 d_severity := severity (info i);
                 d_matched_rules := matched_rules;
                 d_auto_response := response_actions self !! attack_type;
                 d_description := description (info i) |}
       else None
     end).

(** [analyze_packet]; the iteration order of the set is the order of
    [elements]. *)
Definition analyze_packet (self : AutomaticDetector) (packet_data : PacketData)
  : list Detection :=
  fold_left
    (fun detections attack_type =>
       match _check_attack_rules self packet_data attack_type with
       | Some (Some detection) => (detections ++ [detection])%list
       | _ => detections
       end)
    (elements (enabled_attacks self)) [].

(** One entry of the list returned by [get_enabled_attacks]. *)
Record EnabledAttack : Type := {
  e_id : string;
  e_name : string;
  e_category : string;
  e_severity : Severity;
  e_auto_response : string
}.

(** [get_enabled_attacks]; the iteration order of the set is the order
    of [elements]. *)
Definition get_enabled_attacks (self : AutomaticDetector)
  : list EnabledAttack :=
  omap
    (fun attack_type =>
       (fun i => {| e_id := attack_type; e_name := name (info i);
                    e_category := category i;
                    e_severity := severity (info i);
                    e_auto_response := auto_response (info i) |})
         <$> get_subcategory_info attack_type)
    (elements (enabled_attacks self)).

End AttackCategories.

(** ** model_server.py *)

Module ModelServer.
Import Py.

(** A decoded JSON value ([json.loads]). *)
#[warnings="-register-all"]
Inductive JVal : Type :=
| JNull
| JBool (b : bool)
| JInt (n : Z)
| JFloat (q : Q)
| JStr (s : string)
| JArr (l : list JVal)
| JObj (items : list (string * JVal)).

(** Python truthiness of a decoded value. *)
Definition truthy_val (v : JVal) : bool :=
  match v with
  | JNull => false
  | JBool b => b
  | JInt n => negb (n =? 0)
  | JFloat q => negb (Qeq_bool q 0)
  | JStr s => truthy s
  | JArr l => negb (Nat.eqb (length l) 0)
  | JObj items => negb (Nat.eqb (length items) 0)
  end.

(** [d.get(k)] on the items of a dictionary. *)
Definition get (k : string) (items : list (string * JVal)) : option JVal :=
  Py.dict_get k items.

(** The responses built by [_process_request]. *)
Inductive Response (Stats Res : Type) : Type :=
| Statistics (s : Stats)
| Status (status : string) (timestamp : option string)
| Error (msg : string)
| Result (r : Res).

Arguments Statistics {Stats Res} s.
Arguments Status {Stats Res} status timestamp.
Arguments Error {Stats Res} msg.
Arguments Result {Stats Res} r.

(** The server object: the engine and the online-learning buffer. *)
Record ModelServer (Engine : Type) : Type := {
  ids_engine : Engine;
  update_buffer : list JVal;
  retrain_interval : Z;
  retrain_batch : Z
}.

Arguments ids_engine {Engine} m.
Arguments update_buffer {Engine} m.
Arguments retrain_interval {Engine} m.
Arguments retrain_batch {Engine} m.

Section Server.
(** The wrapped engine ([CyberSentinelMod]) seen through the two
    methods the server calls, and [str()] on a decoded value.
    [get_statistics] answers [None] when the call raises, as it does
    for an unhashable [srcip]. *)
Variables Engine Stats Res : Type.
Variable get_statistics : Engine -> option JVal -> option Stats.
Variable analyze_packet : Engine -> JVal -> Engine * (Res + string).
Variable py_str : JVal -> string.

Definition with_engine (self : ModelServer Engine) (e : Engine)
  : ModelServer Engine :=
  {| ids_engine := e; update_buffer := update_buffer self;
     retrain_interval := retrain_interval self;
     retrain_batch := retrain_batch self |}.

Definition with_buffer (self : ModelServer Engine) (b : list JVal)
  : ModelServer Engine :=
  {| ids_engine := ids_engine self; update_buffer := b;
     retrain_interval := retrain_interval self;
     retrain_batch := retrain_batch self |}.

(** [isinstance(payload, dict) and payload.get('command')]. *)
Definition command_of (payload : JVal) : option JVal :=
  match payload with
  | JObj items =>
    match get "command" items with
    | Some cmd => if truthy_val cmd then Some cmd else None
    | None => None
    end
  | _ => None
  end.

(** ['label' in payload]; [None] is the [TypeError] raised for a
    payload that is not a container. *)
Definition has_label (payload : JVal) : option bool :=
  match payload with
  | JObj items => Some (existsb (fun kv => String.eqb (fst kv) "label") items)
  | JArr l =>
    Some (existsb
            (fun v => match v with JStr s => String.eqb s "label" | _ => false end)
            l)
  | JStr s => Some (contains "label" s)
  | _ => None
  end.

(** [_process_request]; [now] stands for
    [datetime.utcnow().isoformat()], and the response is [None] when
    the call raises. *)
Definition _process_request (self : ModelServer Engine) (now : string)
    (payload : JVal) : ModelServer Engine * option (Response Stats Res) :=
  match command_of payload with
  | Some cmd =>
    match cmd with
    | JStr "get_port_scan_stats" =>
      (self,
       Statistics
         <$> get_statistics (ids_engine self)
               (match payload with
                | JObj items => get "srcip" items
                | _ => None
                end))
    | JStr "ping" => (self, Some (Status "ok" (Some now)))
    | _ => (self, Some (Error ("Unknown command: " +:+ py_str cmd)))
    end
  | None =>
    match has_label payload with
    | None => (self, None)
    | Some true =>
      (with_buffer self (update_buffer self ++ [payload]),
       Some (Status "queued" None))
    | Some false =>
      let '(e, r) := analyze_packet (ids_engine self) payload in
      (with_engine self e,
       Some (match r with
             | inl result => Result result
             | inr e => Error e
             end))
    end
  end.

(** One round of [_background_retrainer] after the sleep: the batch
    taken from the front of the buffer. *)
Definition take_batch (self : ModelServer Engine)
  : ModelServer Engine * list JVal :=
  let n := Z.to_nat (retrain_batch self) in
  (with_buffer self (drop n (update_buffer self)),
   take n (update_buffer self)).

End Server.

End ModelServer.

(** ** app.py: [add_threat_detection] *)

Module App.
Import Py.

(** The entries of [result] and [packet_data] that are read; [None] is
    an absent key. *)
Record ResultDict : Type := {
  threat_detected : bool;
  attack_type : option string;
  confidence : option Q;
  severity : option string;
  model_used : option string;
  detection_method : option string;
  recommended_action : option string
}.

Record PacketDict : Type := {
  srcip : option string;
  dstip : option string;
  protocol : option string;
  src_port : option Z;
  dst_port : option Z;
  timestamp : option string
}.

Record Detection : Type := {
  d_timestamp : string;
  d_attack_type : string;
  d_source_ip : string;
  d_destination_ip : string;
  d_confidence : Q;
  d_severity : string;
  d_protocol : string;
  d_src_port : Z;
  d_dst_port : Z;
  d_model_used : string;
  d_recommended_action : string
}.

(** The module-level globals. *)
Record Globals : Type := {
  threat_rate_limiter : gmap string Q;
  THREAT_RATE_LIMIT_SECONDS : Z;
  threat_detections : list Detection
}.

Definition rate_key_of (packet_data : PacketDict) (result : ResultDict)
  : string :=
  default "Unknown" (attack_type result) +:+ "_"
    +:+ default "unknown" (srcip packet_data).

(** The rate-limit test of a key at [current_time]. *)
Definition rate_limited (g : Globals) (rate_key : string) (current_time : Q)
  : bool :=
  match threat_rate_limiter g !! rate_key with
  | Some last =>
    Qltb (current_time - last) (inject_Z (THREAT_RATE_LIMIT_SECONDS g))
  | None => false
  end.

(** Deleting the [keys_to_remove]. *)
Definition purge (limit : Z) (current_time : Q) (m : gmap string Q)
  : gmap string Q :=
  filter
    (fun kv => Qltb (inject_Z (limit * 2)) (current_time - snd kv) = false) m.

(** [threat_detections.append(detection)] keeping the last 500. *)
Definition store (detection : Detection) (l : list Detection)
  : list Detection :=
  let l' := (l ++ [detection])%list in
  if (500 <? length l')%nat then tail l' else l'.

(** [add_threat_detection]; [current_time] stands for [time.time()] and
    [now_iso] for [datetime.now().isoformat()]. *)
Definition add_threat_detection (g : Globals) (current_time : Q)
    (now_iso : string) (packet_data : PacketDict)
    (result : option ResultDict) : Globals * option Detection :=
  match result with
  | None => (g, None)
  | Some result =>
    if threat_detected result then
      let rate_key := rate_key_of packet_data result in
      if rate_limited g rate_key current_time then (g, None)
      else
        let limiter :=
          purge (THREAT_RATE_LIMIT_SECONDS g) current_time
            (<[rate_key := current_time]> (threat_rate_limiter g)) in
        let detection :=
          {| d_timestamp := default now_iso (timestamp packet_data);
             d_attack_type := default "Unknown" (attack_type result);
             d_source_ip := default "unknown" (srcip packet_data);
             d_destination_ip := default "unknown" (dstip packet_data);
             d_confidence := default 0.0%Q (confidence result);
             d_severity := default "UNKNOWN" (severity result);
             d_protocol := default "unknown" (protocol packet_data);
             d_src_port := default 0 (src_port packet_data);
             d_dst_port := default 0 (dst_port packet_data);
             d_model_used :=
               default (default "Unknown" (detection_method result))
                       (model_used result);
             d_recommended_action :=
               default "Investigate further" (recommended_action result) |} in
        ({| threat_rate_limiter := limiter;
            THREAT_RATE_LIMIT_SECONDS := THREAT_RATE_LIMIT_SECONDS g;
            threat_detections := store detection (threat_detections g) |},
         Some detection)
    else (g, None)
  end.

(** [int(x)] on a decoded JSON value: a float is truncated towards
    zero, [None] is the exception raised, and [int_of_str] stands for
    [int] on a string. *)
Definition py_int (int_of_str : string -> option Z) (v : ModelServer.JVal)
  : option Z :=
  match v with
  | ModelServer.JInt n => Some n
  | ModelServer.JBool b => Some (if b then 1 else 0)
  | ModelServer.JFloat q => Some (Z.quot (Qnum q) (Z.pos (Qden q)))
  | ModelServer.JStr s => int_of_str s
  | _ => None
  end.

(** The responses of [api_rate_limit]: the success dictionary, the two
    400 errors, and the answer to GET. *)
Inductive RateLimitResponse : Type :=
| Updated (rate_limit_seconds : Z)
| OutOfRange
| Raised
| Current (rate_limit_seconds : Z) (active_rate_limits : nat).

(** [api_rate_limit]; [post] is [request.method == 'POST'] and [data] is
    [request.json]. *)
Definition api_rate_limit (int_of_str : string -> option Z) (g : Globals)
    (post : bool) (data : ModelServer.JVal) : Globals * RateLimitResponse :=
  if post then
    match data with
    | ModelServer.JObj items =>
      match
        match ModelServer.get "seconds" items with
        | Some v => py_int int_of_str v
        | None => Some (THREAT_RATE_LIMIT_SECONDS g)
        end
      with
      | Some new_limit =>
        if (1 <=? new_limit) && (new_limit <=? 60) then
          ({| threat_rate_limiter := ∅;
              THREAT_RATE_LIMIT_SECONDS := new_limit;
              threat_detections := threat_detections g |},
           Updated new_limit)
        else (g, OutOfRange)
      | None => (g, Raised)
      end
    | _ => (g, Raised)
    end
  else
    (g, Current (THREAT_RATE_LIMIT_SECONDS g) (size (threat_rate_limiter g))).

End App.

(** ** packet_capture.py: the feeder's flag encoding and rate limiter *)

Module PacketCapture.
Import Py.

Definition flag_map : list (string * Z) :=
  [("F", 1); ("S", 2); ("R", 4); ("P", 8); ("A", 16); ("U", 32)].

(** [_tcp_flags_to_int] on [str(flags)]. *)
Definition _tcp_flags_to_int (flags_str : string) : Z :=
  fold_left
    (fun result e =>
       if contains (fst e) flags_str then Z.lor result (snd e) else result)
    flag_map 0.

(** The rate-limiting part of the capture object; [packet_timestamps] is
    a [deque(maxlen=max_packets_per_second)]. *)
Record PacketCapture : Type := {
  max_packets_per_second : nat;
  packet_timestamps : list Z
}.

(** The [while] loop of [_rate_limit]: pop the front while it is more
    than one second old. *)
Fixpoint pop_stale (now : Z) (ts : list Z) : list Z :=
  match ts with
  | t :: ts' => if 1000000 <? now - t then pop_stale now ts' else ts
  | [] => []
  end.

(** [_rate_limit]; [now] stands for [datetime.now()]. *)
Definition _rate_limit (self : PacketCapture) (now : Z) : PacketCapture * bool :=
  let ts := pop_stale now (packet_timestamps self) in
  if (max_packets_per_second self <=? length ts)%nat then
    ({| max_packets_per_second := max_packets_per_second self;
        packet_timestamps := ts |}, false)
  else
    ({| max_packets_per_second := max_packets_per_second self;
        packet_timestamps := ts ++ [now] |}, true).

End PacketCapture.

(** * Vocabulary of the properties *)

Section ScenarioVocabulary.
Import PortScan.

(** Feeding a sequence of packets, oldest first, each with the clock
    reading of its call; the reports are discarded. *)
Definition feed (self : PortScanDetector) (calls : list (Z * Packet))
  : PortScanDetector :=
  fold_left (fun s c => fst (detect_port_scan s (fst c) (snd c))) calls self.

(** A packet from [ip] to port [port] at second [sec]. *)
Definition probe (ip : string) (port : Z) (fl : option PyFlags)
    (proto : option string) (sec : Z) : Packet :=
  {| srcip := Some ip; dstip := Some "10.0.1.10"; src_port := Some 54321;
     dst_port := Some port; protocol := proto; flags := fl;
     timestamp := Some (sec * 1000000); packet_size := Some 120 |}.

End ScenarioVocabulary.

Section WindowVocabulary.
Import PortScan.

(** The three deques of an entry are aligned index for index. *)
Definition aligned (d : IpData) : Prop :=
  length (flag_labels d) = length (timestamps d)
  /\ length (protocols d) = length (timestamps d).

Definition all_aligned (self : PortScanDetector) : Prop :=
  forall ip d, ip_tracking self !! ip = Some d -> aligned d.

(** Every retained timestamp lies in [[now - window, now]]. *)
Definition within_window (window now : Z) (d : IpData) : Prop :=
  forall t, t ∈ timestamps d -> now - window * 1000000 <= t <= now.

(** The retained timestamps of a source after a call. *)
Definition retained (self : PortScanDetector) (now : Z) (packet : Packet)
  : list Z :=
  let feat := extract_port_scan_features now packet in
  timestamps (tracked (fst (detect_port_scan self now packet)) (f_srcip feat)).

(** The entry of the observed source after a call. *)
Definition observed (self : PortScanDetector) (feat : Features) : IpData :=
  clean_ip_data (window_size self) (f_timestamp feat)
    (record_observation feat (tracked self (f_srcip feat))).

(** The state invariant as the specification words it: aligned deques
    and every retained timestamp inside the window that ends at the
    newest observation. *)
Definition state_invariant_after (self : PortScanDetector) (now : Z)
    (packet : Packet) : Prop :=
  let feat := extract_port_scan_features now packet in
  let self' := fst (detect_port_scan self now packet) in
  all_aligned self'
  /\ within_window (window_size self) (f_timestamp feat)
       (tracked self' (f_srcip feat)).


(** The filter that keeps the timestamps not older than the cutoff. *)
Definition in_window (window now : Z) (ts : list Z) : list Z :=
  List.filter (fun t => negb (t <? now - window * 1000000)) ts.



End WindowVocabulary.

Section SignatureVocabulary.
Import PortScan.

(** The number of adjacent pairs of a list whose gap is at most 2. *)
Definition small_gaps (l : list Z) : nat :=
  length (List.filter (fun ab => snd ab - fst ab <=? 2) (combine l (tail l))).

(** The sequential-scan trigger as the specification words it: at least
    five ports, and the pairs with a small gap are more than 60% of the
    consecutive pairs of the sorted ports. *)
Definition sequential_as_specified (port_list : list Z) : Prop :=
  (5 <= length port_list)%nat
  /\ (0.6 < Py.Qnat (small_gaps (Py.sorted port_list))
            / Py.Qnat (length port_list - 1))%Q.

(** The stealth check (pattern 5) and the UDP check (pattern 6) fire. *)
Definition stealth_fires (d : IpData) : bool :=
  (3 <? count_in stealth_flags (flag_labels d))%nat.

Definition udp_fires (d : IpData) : bool :=
  (10 <? udp_count d)%nat && (8 <? size (ports d))%nat.

End SignatureVocabulary.

Section VerticalVocabulary.
Import PortScan.

(** The features of a sequence of calls. *)
Definition features_of (calls : list (Z * Packet)) : list Features :=
  map (fun c => extract_port_scan_features (fst c) (snd c)) calls.

(** An entry extended by a sequence of observations of which none is
    evicted. *)
Definition accumulate (d : IpData) (fs : list Features) : IpData :=
  {| ports := ports d ∪ list_to_set (map f_dst_port fs);
     timestamps := timestamps d ++ map f_timestamp fs;
     connection_attempts := connection_attempts d;
     flag_labels := flag_labels d ++ map f_flags fs;
     protocols := protocols d ++ map f_protocol fs |}.

(** Signature 1 as the specification words it. *)
Definition vertical_scan_as_specified (r : ScanResult) : Prop :=
  attack_type r = Some "VERTICAL_SCAN"
  /\ (r_confidence r
      == Qmin 0.95 (0.5 + (Py.Qnat (unique_ports_accessed r) / 10) * 0.45))%Q
  /\ r_severity r = HIGH.

End VerticalVocabulary.

Section FusionVocabulary.
Import Sentinel.

(** The behavioural run inside [analyze_packet]: the detector is called
    on the packet stamped with its timestamp. *)
Definition behavioural_run (self : CyberSentinelMod) (now : Z)
    (packet : PortScan.Packet) : CyberSentinelMod * ScanRes :=
  detect_port_scan self now
    (stamp (default now (PortScan.timestamp packet)) packet).

(** The classifier verdict is absent, benign, or below the 0.3
    threshold. *)
Definition classifier_silent (upper : string -> string) (ml_res : MlResult)
  : Prop :=
  match ml_res with
  | MlUnavailable => True
  | MlPrediction idx pred_class conf =>
    is_benign upper (pred_of idx pred_class) = true \/ (conf < 0.3)%Q
  end.

(** An engine whose detector has seen nine probes of nine ports within
    one second, so that the next probe triggers the vertical-scan
    signature. *)
Definition engine_under_scan : CyberSentinelMod :=
  {| model_path := "models/CICIDS2017_5class_model.h5";
     port_scan_detector :=
       Some (feed PortScan.default_detector
               (map (fun p => (0, probe "10.0.0.7" p
                                    (Some (PortScan.FlagsInt 16)) None 0))
                    [80; 443; 8080; 22; 3306; 5432; 6379; 9200; 27017])) |}.

Definition tenth_probe : PortScan.Packet :=
  probe "10.0.0.7" 11211 (Some (PortScan.FlagsInt 16)) None 0.

End FusionVocabulary.

Section MatcherVocabulary.
Import AttackCategories.

(** The weight of a key when the rule carries it. *)
Definition weight {A : Type} (key : option A) (w : Q) : Q :=
  match key with Some _ => w | None => 0%Q end.

(** The sum of the weights the matcher can award for the keys a rule
    carries: tcp_flags 0.30, connection_rate 0.25, protocol 0.20,
    dst_port 0.15, unique_ports 0.10. *)
Definition awardable (r : DetectionRules) : Q :=
  (weight (tcp_flags r) 0.3 + weight (connection_rate r) 0.25
   + weight (protocol r) 0.2 + weight (dst_port r) 0.15
   + weight (unique_ports r) 0.1)%Q.

(** [rules.get("confidence_threshold", 0.7)]. *)
Definition threshold_of (r : DetectionRules) : Q :=
  default 0.7%Q (confidence_threshold r).

(** Every subcategory of the shipped registry with its identifier. *)
Definition shipped_subcategories : list (string * Subcategory) :=
  concat (map snd CATEGORIES).

(** The detector states that [enable_attack_detection] and
    [disable_attack_detection] can produce from the initial one. *)
Inductive reachable : AutomaticDetector -> Prop :=
| reach_new : reachable new_detector
| reach_enable self ids :
    reachable self -> reachable (enable_attack_detection self ids)
| reach_disable self ids :
    reachable self -> reachable (disable_attack_detection self ids).

End MatcherVocabulary.

Section ServerVocabulary.
Import ModelServer.

(** A feedback request as the specification words it: a decoded JSON
    object containing the key ["label"]. *)
Definition labelled (payload : JVal) : Prop :=
  exists items, payload = JObj items /\ is_Some (get "label" items).

(** The bounded queue as the specification words it: once the buffer
    holds [capacity] samples, a feedback request is answered
    [{"error": "queue full"}] and the buffer is left as it is. *)
Definition bounded_feedback_queue (capacity : nat) : Prop :=
  forall (Engine Stats Res : Type)
         (get_statistics : Engine -> option JVal -> option Stats)
         (analyze_packet : Engine -> JVal -> Engine * (Res + string))
         (py_str : JVal -> string)
         (self : ModelServer Engine) (now : string) (payload : JVal),
    labelled payload ->
    (capacity <= length (update_buffer self))%nat ->
    _process_request Engine Stats Res get_statistics analyze_packet py_str
      self now payload
    = (self, Some (Error "queue full")).

(** A labelled sample without a command. *)
Definition labelled_sample : JVal :=
  JObj [("srcip", JStr "10.0.0.7"); ("dst_port", JInt 22);
        ("label", JStr "DoS")].

(** A server over a trivial engine whose buffer already holds [n]
    samples. *)
Definition loaded_server (n : nat) : ModelServer unit :=
  {| ids_engine := tt; update_buffer := replicate n labelled_sample;
     retrain_interval := 300; retrain_batch := 50 |}.

End ServerVocabulary.

Section DedupVocabulary.
Import App.

(** An alert and its packet, and a fresh state with the default window
    of 5 seconds. *)
Definition dos_alert : ResultDict :=
  {| threat_detected := true; attack_type := Some "DoS";
     confidence := Some 0.9%Q; severity := Some "HIGH";
     model_used := Some "CICIDS2017_5class_model"; detection_method := None;
     recommended_action := None |}.

Definition dos_packet : PacketDict :=
  {| srcip := Some "10.0.0.7"; dstip := Some "10.0.1.10";
     protocol := Some "tcp"; src_port := Some 54321; dst_port := Some 80;
     timestamp := None |}.

Definition fresh_globals : Globals :=
  {| threat_rate_limiter := ∅; THREAT_RATE_LIMIT_SECONDS := 5;
     threat_detections := [] |}.

(** The alert key as the specification has it: the pair of the attack
    type and the source address of the alert. *)
Definition alert_pair (packet_data : PacketDict) (result : ResultDict)
  : string * string :=
  (default "Unknown" (attack_type result),
   default "unknown" (srcip packet_data)).

(** A source address without an underscore, as every IP address is. *)
Definition no_underscore (s : string) : Prop := Py.contains "_" s = false.

(** Deduplication per pair as the specification words it: from a state
    without recorded emissions, an emission for one pair does not
    suppress a threat result for another pair. *)
Definition deduplicated_per_pair (g : Globals) : Prop :=
  forall now now_iso p1 r1 t2 iso2 p2 r2,
    threat_detected r1 = true -> threat_detected r2 = true ->
    alert_pair p2 r2 <> alert_pair p1 r1 ->
    is_Some
      (snd (add_threat_detection
              (fst (add_threat_detection g now now_iso p1 (Some r1)))
              t2 iso2 p2 (Some r2))).

(** Two alerts of different pairs whose keys coincide. *)
Definition port_scan_alert : ResultDict :=
  {| threat_detected := true; attack_type := Some "PORT_SCAN";
     confidence := Some 0.9%Q; severity := Some "HIGH";
     model_used := Some "PortScanDetector (backup)";
     detection_method := None; recommended_action := None |}.

Definition port_alert : ResultDict :=
  {| threat_detected := true; attack_type := Some "PORT";
     confidence := Some 0.9%Q; severity := Some "HIGH";
     model_used := Some "CICIDS2017_5class_model";
     detection_method := None; recommended_action := None |}.

Definition packet_from (source : string) : PacketDict :=
  {| srcip := Some source; dstip := Some "10.0.1.10";
     protocol := Some "tcp"; src_port := Some 54321; dst_port := Some 80;
     timestamp := None |}.

End DedupVocabulary.

Section ReportVocabulary.
Import PortScan.

(** The attack types a report can carry when a scan is detected. *)
Definition reported_types : list string :=
  ["VERTICAL_SCAN"; "RAPID_SCAN"; "SEQUENTIAL_SCAN"; "SYN_SCAN"; "FIN_SCAN";
   "NULL_SCAN"; "XMAS_SCAN"; "UDP_SCAN"].

(** The severities of a finding. *)
Definition alarming (s : Severity) : Prop :=
  s = MEDIUM \/ s = HIGH \/ s = CRITICAL.

(** The shape of the local variables between two pattern checks. *)
Definition verdict_shape (v : Verdict) : Prop :=
  (confidence v <= 0.98)%Q
  /\ if scan_detected v
     then (exists s, scan_type v = Some s /\ s ∈ reported_types)
          /\ (0.79 < confidence v)%Q
          /\ alarming (severity v)
     else scan_type v = None /\ confidence v = 0.0%Q.

End ReportVocabulary.

Section FlagVocabulary.
Import PortScan.

(** The facts about the label of the six low bits [low] of an integer
    flags value, as one boolean. *)
Definition label_facts (low : Z) : bool :=
  let label := _parse_tcp_flags (FlagsInt low) in
  Bool.eqb (String.eqb label "NULL") (low =? 0)
  && Bool.eqb (String.eqb label "F") (low =? 1)
  && Bool.eqb (String.eqb label "S") (low =? 2)
  && Bool.eqb (String.eqb label "XMAS") (Z.land low 41 =? 41)
  && Bool.eqb (Py.in_list label stealth_flags)
       ((low =? 0) || (low =? 1) || (Z.land low 41 =? 41)).

End FlagVocabulary.

Section OutcomeVocabulary.
Import Sentinel.

(** A result of [analyze_packet] is consistent: a threat carries a
    label, a severity of MEDIUM or more, an attribution and a
    recommendation; a non-threat is BENIGN with severity NONE and no
    recommendation. *)
Definition consistent_outcome (f : Final) : Prop :=
  if threat_detected f
  then alarming (severity f)
       /\ is_Some (model_used f)
       /\ is_Some (recommendation f)
       /\ exists s, attack_type f = Some s /\ attack_label f = Some s
  else attack_type f = Some "BENIGN"
       /\ severity f = NONE
       /\ recommendation f = None.

(** The detector of the engine, when present, has a positive port
    threshold. *)
Definition positive_threshold (self : CyberSentinelMod) : Prop :=
  forall det,
    port_scan_detector self = Some det -> 0 < PortScan.threshold_ports det.

(** The detector of the engine, when present, has a port threshold in
    the given range. *)
Definition detector_threshold (self : CyberSentinelMod) (lo hi : Z) : Prop :=
  forall det,
    port_scan_detector self = Some det ->
    lo <= PortScan.threshold_ports det <= hi.

(** The number of connections retained for the packet's source. *)
Definition retained_connections (self : CyberSentinelMod)
    (packet : PortScan.Packet) : nat :=
  default 0%nat
    (det ← port_scan_detector self;
     ip ← PortScan.srcip packet;
     d ← PortScan.ip_tracking det !! ip;
     Some (length (PortScan.timestamps d))).

End OutcomeVocabulary.

Section BackupVocabulary.
Import Sentinel.

(** An engine whose detector has seen 51 connections to port 22 from one
    source, one per second. *)
Definition engine_under_brute_force : CyberSentinelMod :=
  {| model_path := "models/CICIDS2017_5class_model.h5";
     port_scan_detector :=
       Some (feed PortScan.default_detector
               (map (fun s => (Z.of_nat s * 1000000,
                               probe "10.0.0.7" 22
                                 (Some (PortScan.FlagsInt 16)) None
                                 (Z.of_nat s)))
                    (seq 0 51))) |}.

(** The next connection, one second later. *)
Definition next_login : PortScan.Packet :=
  probe "10.0.0.7" 22 (Some (PortScan.FlagsInt 16)) None 51.

End BackupVocabulary.


Section RegistryVocabulary.
Import AttackCategories.

(** The identifier names a subcategory of the registry. *)
Definition registered (subcategory_id : string) : bool :=
  match get_subcategory_info subcategory_id with
  | Some _ => true
  | None => false
  end.

(** The three containers of a detector agree with each other and with
    the registry: an enabled identifier is registered and carries the
    registry's rules and automatic response; any other identifier has no
    entry in either table. *)
Definition in_sync (self : AutomaticDetector) : Prop :=
  forall id,
    (id ∈ enabled_attacks self ->
     exists i,
       get_subcategory_info id = Some i
       /\ rule_table self !! id = Some (detection_rules (info i))
       /\ response_actions self !! id = Some (auto_response (info i)))
    /\ (id ∉ enabled_attacks self ->
        rule_table self !! id = None /\ response_actions self !! id = None).

(** The bits that a list of flag names requires. *)
Definition mask_of (required_flags : list string) : Z :=
  fold_right
    (fun flag m => Z.lor (default 0 (Py.dict_get flag flag_map)) m)
    0 required_flags.

(** The list is one known flag name. *)
Definition single_known (required_flags : list string) : option Z :=
  match required_flags with
  | [flag] => Py.dict_get flag flag_map
  | _ => None
  end.

End RegistryVocabulary.


Section QueueVocabulary.
Import ModelServer.

(** A feedback sample: a labelled object without a truthy command. *)
Definition feedback_sample (payload : JVal) : Prop :=
  labelled payload /\ command_of payload = None.

(** The server after a sequence of requests, the responses being
    discarded. *)
Definition serve_all (Engine Stats Res : Type)
    (get_statistics : Engine -> option JVal -> option Stats)
    (analyze_packet : Engine -> JVal -> Engine * (Res + string))
    (py_str : JVal -> string)
    (self : ModelServer Engine) (now : string) (payloads : list JVal)
  : ModelServer Engine :=
  fold_left
    (fun s p =>
       fst (_process_request Engine Stats Res get_statistics analyze_packet
              py_str s now p))
    payloads self.

(** A labelled sample that also carries a command. *)
Definition labelled_ping : JVal :=
  JObj [("command", JStr "ping"); ("srcip", JStr "10.0.0.7");
        ("label", JStr "DoS")].

End QueueVocabulary.


(** * Properties *)

(** ** Comparisons *)

Lemma Qltb_lt (a b : Q) : Py.Qltb a b = true <-> (a < b)%Q.
Proof.
  unfold Py.Qltb. rewrite Qlt_alt.
  destruct (a ?= b)%Q; split; congruence.
Qed.

Lemma Qltb_ge (a b : Q) : Py.Qltb a b = false <-> (b <= a)%Q.
Proof.
  rewrite <- Bool.not_true_iff_false, Qltb_lt. split.
  - apply Qnot_lt_le.
  - intros H1 H2. exact (Qlt_not_le _ _ H2 H1).
Qed.

Lemma Qleb_le (a b : Q) : Py.Qleb a b = true <-> (a <= b)%Q.
Proof. apply Qle_bool_iff. Qed.

(** ** The sliding window of [PortScanDetector] *)

Section Window.
Import PortScan.

Lemma pop_old_aligned cutoff ts fl pr :
  length fl = length ts -> length pr = length ts ->
  length (snd (fst (pop_old cutoff ts fl pr)))
    = length (fst (fst (pop_old cutoff ts fl pr)))
  /\ length (snd (pop_old cutoff ts fl pr))
    = length (fst (fst (pop_old cutoff ts fl pr))).
Proof.
  revert fl pr. induction ts as [|t ts IH]; intros fl pr Hf Hp; simpl.
  - auto.
  - destruct (t <? cutoff); simpl; [|auto].
    apply IH.
    + destruct fl; simpl in *; lia.
    + destruct pr; simpl in *; lia.
Qed.

Lemma pop_old_sorted cutoff ts fl pr :
  Sorted Z.le ts ->
  fst (fst (pop_old cutoff ts fl pr))
    = List.filter (fun t => negb (t <? cutoff)) ts.
Proof.
  intros Hs. apply Sorted_StronglySorted in Hs; [|intros x y z; lia].
  revert fl pr. induction Hs as [|t ts Hs IH Hall]; intros fl pr; simpl.
  - reflexivity.
  - destruct (t <? cutoff) eqn:E; simpl.
    + apply IH.
    + f_equal. symmetry. apply forallb_filter_id.
      apply forallb_forall. intros x Hx.
      rewrite Forall_forall in Hall.
      apply list_elem_of_In, Hall in Hx. lia.
Qed.

Lemma clean_timestamps window now d :
  timestamps (clean_ip_data window now d)
    = fst (fst (pop_old (now - window * 1000000) (timestamps d)
                  (flag_labels d) (protocols d))).
Proof.
  unfold clean_ip_data.
  destruct (pop_old _ _ _ _) as [[ts fl] pr]. reflexivity.
Qed.

Lemma clean_aligned window now d :
  aligned d -> aligned (clean_ip_data window now d).
Proof.
  intros [Hf Hp]. unfold aligned, clean_ip_data.
  pose proof (pop_old_aligned (now - window * 1000000) _ _ _ Hf Hp) as H.
  destruct (pop_old _ _ _ _) as [[ts fl] pr]. exact H.
Qed.

Lemma record_aligned feat d : aligned d -> aligned (record_observation feat d).
Proof.
  intros [Hf Hp]. unfold aligned, record_observation; simpl.
  rewrite !length_app; simpl. lia.
Qed.

Lemma new_ip_data_aligned : aligned new_ip_data.
Proof. split; reflexivity. Qed.

Lemma tracked_aligned self ip : all_aligned self -> aligned (tracked self ip).
Proof.
  intros H. unfold tracked.
  destruct (ip_tracking self !! ip) as [d|] eqn:E; simpl.
  - eapply H, E.
  - apply new_ip_data_aligned.
Qed.

Lemma detect_tracking self now packet :
  let feat := extract_port_scan_features now packet in
  ip_tracking (fst (detect_port_scan self now packet))
    = <[f_srcip feat := observed self feat]> (ip_tracking self).
Proof.
  intros feat. unfold detect_port_scan, _clean_old_entries, observed.
  fold feat. simpl. unfold tracked at 1. simpl.
  rewrite lookup_insert_eq. simpl.
  rewrite insert_insert_eq. reflexivity.
Qed.

Lemma detect_tracked self now packet :
  let feat := extract_port_scan_features now packet in
  tracked (fst (detect_port_scan self now packet)) (f_srcip feat)
    = observed self feat.
Proof.
  intros feat. unfold tracked at 1.
  rewrite (detect_tracking self now packet). fold feat.
  rewrite lookup_insert_eq. reflexivity.
Qed.

Lemma detect_window_size self now packet :
  window_size (fst (detect_port_scan self now packet)) = window_size self.
Proof. reflexivity. Qed.

Create HintDb aligned.
#[local] Hint Resolve clean_aligned record_aligned tracked_aligned
  new_ip_data_aligned : aligned.

Lemma detect_all_aligned self now packet :
  all_aligned self -> all_aligned (fst (detect_port_scan self now packet)).
Proof.
  intros H ip d. rewrite detect_tracking.
  set (feat := extract_port_scan_features now packet).
  destruct (decide (f_srcip feat = ip)) as [->|Hne].
  - rewrite lookup_insert_eq. intros [= <-].
    unfold observed. auto with aligned.
  - rewrite lookup_insert_ne by exact Hne. apply H.
Qed.

Lemma init_all_aligned w p c : all_aligned (init w p c).
Proof. intros ip d. simpl. rewrite lookup_empty. discriminate. Qed.

Lemma feed_all_aligned self calls :
  all_aligned self -> all_aligned (feed self calls).
Proof.
  revert self. induction calls as [|p ps IH]; intros self H; simpl.
  - exact H.
  - apply IH, detect_all_aligned, H.
Qed.

Lemma observed_sorted self feat :
  Sorted Z.le (timestamps (tracked self (f_srcip feat))) ->
  (forall t, t ∈ timestamps (tracked self (f_srcip feat)) -> t <= f_timestamp feat) ->
  timestamps (observed self feat)
    = in_window (window_size self) (f_timestamp feat)
        (timestamps (tracked self (f_srcip feat)) ++ [f_timestamp feat]).
Proof.
  intros Hs Hle. unfold observed, in_window. rewrite clean_timestamps.
  apply pop_old_sorted. simpl.
  apply StronglySorted_Sorted.
  apply Sorted_StronglySorted in Hs; [|intros x y z; lia].
  induction Hs as [|t ts Hs IH Hall]; simpl.
  - repeat constructor.
  - constructor.
    + apply IH. intros x Hx. apply Hle. right. exact Hx.
    + apply Forall_app. split; [exact Hall|].
      constructor; [|constructor]. apply Hle. left.
Qed.

End Window.

(** Name the entry of the observed source after a call. *)
Ltac tracked_after self now packet E :=
  pose proof (detect_tracked self now packet) as E; cbv zeta in E.

Section WindowTheorems.
Import PortScan.

Lemma in_window_bounds window now ts t :
  (forall x, x ∈ ts -> x <= now) ->
  t ∈ in_window window now ts -> now - window * 1000000 <= t <= now.
Proof.
  intros Hle Ht. unfold in_window in Ht.
  apply list_elem_of_In, filter_In in Ht. destruct Ht as [Hin Hc].
  apply list_elem_of_In, Hle in Hin. lia.
Qed.

Lemma in_window_sorted window now ts :
  Sorted Z.le ts -> Sorted Z.le (in_window window now ts).
Proof.
  intros Hs. apply StronglySorted_Sorted.
  apply Sorted_StronglySorted in Hs; [|intros x y z; lia].
  unfold in_window. induction Hs as [|t ts Hs IH Hall]; simpl.
  - constructor.
  - destruct (negb _); [|exact IH]. constructor; [exact IH|].
    rewrite Forall_forall in *. intros x Hx.
    apply Hall, list_elem_of_In.
    apply list_elem_of_In, filter_In in Hx. tauto.
Qed.

Lemma snoc_sorted ts t :
  Sorted Z.le ts -> (forall x, x ∈ ts -> x <= t) -> Sorted Z.le (ts ++ [t]).
Proof.
  intros Hs Hle. apply StronglySorted_Sorted.
  apply Sorted_StronglySorted in Hs; [|intros x y z; lia].
  induction Hs as [|a l Hs IH Hall]; simpl.
  - repeat constructor.
  - constructor.
    + apply IH. intros x Hx. apply Hle. right. exact Hx.
    + apply Forall_app. split; [exact Hall|].
      constructor; [|constructor]. apply Hle. left.
Qed.

Lemma snoc_bounded (ts : list Z) t :
  (forall x, x ∈ ts -> x <= t) -> forall x, x ∈ ts ++ [t] -> x <= t.
Proof.
  intros Hle x Hx. apply elem_of_app in Hx. destruct Hx as [Hx|Hx].
  - apply Hle, Hx.
  - apply list_elem_of_singleton in Hx. lia.
Qed.

(** C10 (amended).  Every call to [detect_port_scan] keeps the
    timestamp, flag-label and protocol-label sequences of every tracked
    source at equal length.  If moreover the retained timestamps of the
    observed source are in non-decreasing order and none of them is
    newer than the new observation, then after the call they are still
    in order and each lies within [now - window_size, now], where [now]
    is the timestamp of the new observation. *)
Theorem detect_port_scan_state_invariant self now packet :
  let feat := extract_port_scan_features now packet in
  let d := tracked self (f_srcip feat) in
  let self' := fst (detect_port_scan self now packet) in
  all_aligned self ->
  all_aligned self'
  /\ (Sorted Z.le (timestamps d) ->
      (forall t, t ∈ timestamps d -> t <= f_timestamp feat) ->
      Sorted Z.le (timestamps (tracked self' (f_srcip feat)))
      /\ within_window (window_size self) (f_timestamp feat)
           (tracked self' (f_srcip feat))).
Proof.
  intros feat d self' Hal. split.
  - apply detect_all_aligned, Hal.
  - intros Hs Hle. subst self' d.
    tracked_after self now packet E. fold feat in E. rewrite E. unfold within_window.
    rewrite (observed_sorted self feat Hs Hle). split.
    + apply in_window_sorted, snoc_sorted; assumption.
    + intros t Ht. eapply in_window_bounds; [|exact Ht].
      apply snoc_bounded, Hle.
Qed.

End WindowTheorems.

Section WindowExamples.
Import PortScan.

(** C10, as stated, fails when observations arrive out of timestamp
    order: after observations at seconds 150 and 0, an observation at
    second 200 pops nothing (the front, 150, is inside the window), so
    the timestamp 0 is retained although it is older than 200 - 60. *)
Lemma state_invariant_counterexample :
  let self :=
    feed default_detector
      [(0, probe "10.0.0.7" 80 (Some (FlagsInt 16)) None 150);
       (0, probe "10.0.0.7" 443 (Some (FlagsInt 16)) None 0)] in
  all_aligned self
  /\ ~ state_invariant_after self 0
         (probe "10.0.0.7" 22 (Some (FlagsInt 16)) None 200).
Proof.
  split.
  - apply feed_all_aligned, init_all_aligned.
  - intros [_ H]. specialize (H 0).
    match type of H with
    | _ ∈ ?l -> _ =>
      assert (E : l = [150000000; 0; 200000000]) by (vm_compute; reflexivity);
      rewrite E in H
    end.
    assert (Hin : 0 ∈ [150000000; 0; 200000000]) by (right; left).
    apply H in Hin. vm_compute in Hin. destruct Hin as [Hlo _].
    apply Hlo. reflexivity.
Qed.

Lemma detect_port_scan_state_invariant_witness :
  let self :=
    feed default_detector
      [(0, probe "10.0.0.7" 80 (Some (FlagsInt 16)) None 0);
       (0, probe "10.0.0.7" 443 (Some (FlagsInt 16)) None 30)] in
  let packet := probe "10.0.0.7" 22 (Some (FlagsInt 16)) None 70 in
  all_aligned (fst (detect_port_scan self 0 packet))
  /\ within_window 60 70000000
       (tracked (fst (detect_port_scan self 0 packet)) "10.0.0.7").
Proof.
  intros self packet.
  destruct (detect_port_scan_state_invariant self 0 packet) as [H1 H2].
  - apply feed_all_aligned, init_all_aligned.
  - split; [exact H1|]. apply H2.
    + vm_compute. repeat constructor; discriminate.
    + intros t Ht. vm_compute in Ht.
      apply elem_of_cons in Ht as [->|Ht];
        [|apply elem_of_cons in Ht as [->|Ht]; [|inversion Ht]];
        vm_compute; discriminate.
Defined.

End WindowExamples.

Section Eviction.
Import PortScan.

Lemma pattern1_returns threshold d v :
  threshold <> 0 -> exists v', pattern1 threshold d v = Some v'.
Proof.
  intros H. unfold pattern1.
  destruct (threshold <=? _); [|eauto].
  destruct (threshold =? 0) eqn:E; [lia|eauto].
Qed.

Lemma tracked_clean self ip ts :
  tracked (_clean_old_entries self ip ts) ip
    = clean_ip_data (window_size self) ts (tracked self ip).
Proof.
  unfold _clean_old_entries, tracked at 1. simpl.
  rewrite lookup_insert_eq. reflexivity.
Qed.

Lemma tracked_insert self ip x :
  tracked (with_tracking self (<[ip := x]> (ip_tracking self))) ip = x.
Proof.
  unfold with_tracking, tracked. simpl.
  rewrite lookup_insert_eq. reflexivity.
Qed.

Lemma detect_report self now packet :
  let feat := extract_port_scan_features now packet in
  snd (detect_port_scan self now packet)
    = (v ← pattern1 (threshold_ports self) (observed self feat) verdict0;
       Some (build_result feat (observed self feat)
               (patterns_2_7 (observed self feat) v))).
Proof.
  intros feat. unfold detect_port_scan. cbv zeta. cbn [snd]. fold feat.
  rewrite tracked_clean, tracked_insert. reflexivity.
Qed.







End Eviction.

(** ** The signatures of [detect_port_scan] *)

Section Sequential.
Import PortScan.

Lemma fold_count (P : nat -> bool) (l : list nat) (c : nat) :
  fold_left (fun count i => if P i then S count else count) l c
    = (c + length (List.filter P l))%nat.
Proof.
  revert c. induction l as [|i l IH]; intros c; simpl.
  - lia.
  - rewrite IH. destruct (P i); simpl; lia.
Qed.

Lemma filter_map_S (P : nat -> bool) (l : list nat) :
  length (List.filter P (map S l))
    = length (List.filter (fun i => P (S i)) l).
Proof.
  induction l as [|i l IH]; simpl; [reflexivity|].
  destruct (P (S i)); simpl; rewrite IH; reflexivity.
Qed.

(** The index loop of the source counts the adjacent pairs with a small
    gap. *)
Lemma sequential_count_small_gaps (l : list Z) :
  sequential_count l = small_gaps l.
Proof.
  unfold sequential_count. rewrite fold_count. simpl.
  induction l as [|a l IH]; [reflexivity|].
  destruct l as [|b l]; [reflexivity|].
  replace (length (a :: b :: l) - 1)%nat with (S (length (b :: l) - 1))
    by (simpl; lia).
  rewrite <- cons_seq, <- seq_shift.
  unfold small_gaps in *.
  change (combine (a :: b :: l) (tail (a :: b :: l)))
    with ((a, b) :: combine (b :: l) (tail (b :: l))).
  cbn [List.filter fst snd].
  change (nth 1 (a :: b :: l) 0) with b.
  change (nth 0 (a :: b :: l) 0) with a.
  destruct (b - a <=? 2); cbn [length]; rewrite <- IH, filter_map_S;
    reflexivity.
Qed.

Lemma sorted_length (l : list Z) : length (Py.sorted l) = length l.
Proof. apply Permutation_length, merge_sort_Permutation. Qed.

Lemma detect_sequential_spec (port_list : list Z) :
  _detect_sequential_ports port_list = true
  <-> (5 <= length port_list)%nat
      /\ (0.6 < Py.Qnat (small_gaps (Py.sorted port_list))
                / Py.Qnat (length port_list))%Q.
Proof.
  unfold _detect_sequential_ports.
  rewrite sequential_count_small_gaps, sorted_length.
  destruct (length port_list <? 5)%nat eqn:E.
  - apply Nat.ltb_lt in E. split; [discriminate|]. intros [H _]. lia.
  - apply Nat.ltb_ge in E. rewrite Qltb_lt. tauto.
Qed.

(** C6 (amended).  For every tracked source, the sequential-scan check
    fires exactly when the source has at least 5 unique ports and, after
    sorting them, the number of adjacent pairs with a gap of at most 2,
    divided by the number of unique ports, exceeds 0.6; when it fires,
    the finding becomes SEQUENTIAL_SCAN with confidence
    [max(confidence, 0.92)] and severity HIGH, and otherwise the finding
    is left as it was. *)
Theorem sequential_scan_signature (d : IpData) (v : Verdict) :
  let port_list := elements (ports d) in
  let sorted_ports := Py.sorted port_list in
  let fires := _detect_sequential_ports port_list in
  Sorted Z.le sorted_ports
  /\ sorted_ports ≡ₚ port_list
  /\ (fires = true
      <-> (5 <= size (ports d))%nat
          /\ (0.6 < Py.Qnat (small_gaps sorted_ports)
                    / Py.Qnat (size (ports d)))%Q)
  /\ (fires = true ->
      scan_detected (pattern3 d v) = true
      /\ scan_type (pattern3 d v) = Some "SEQUENTIAL_SCAN"
      /\ confidence (pattern3 d v) = Qmax (confidence v) 0.92
      /\ severity (pattern3 d v) = HIGH)
  /\ (fires = false -> pattern3 d v = v).
Proof.
  intros port_list sorted_ports fires.
  split; [apply Sorted_merge_sort; apply _|].
  split; [apply merge_sort_Permutation|].
  split; [apply detect_sequential_spec|].
  unfold pattern3. fold port_list fires.
  split; intros ->; [repeat split|reflexivity].
Qed.

(** C6, as stated, fails on the ports 1, 2, 3, 4, 100: three of the four
    consecutive pairs have a small gap (75%), yet the check divides by
    the five ports (60%, not more) and does not fire; five probes of these
    ports, ten seconds apart, are reported as no threat. *)
Lemma sequential_scan_counterexample :
  let port_list := elements ({[1; 2; 3; 4; 100]} : gset Z) in
  let calls :=
    map (fun p => (0, probe "10.0.0.7" (fst p) (Some (FlagsInt 16)) None (snd p)))
        [(1, 0); (2, 10); (3, 20); (4, 30)] in
  sequential_as_specified port_list
  /\ _detect_sequential_ports port_list = false
  /\ (threat_detected <$>
        snd (detect_port_scan (feed default_detector calls) 0
               (probe "10.0.0.7" 100 (Some (FlagsInt 16)) None 40)))
     = Some false.
Proof.
  split; [|split].
  - split; vm_compute; [lia|reflexivity].
  - vm_compute. reflexivity.
  - vm_compute. reflexivity.
Qed.

End Sequential.

Section Stealth.
Import PortScan.

Lemma pattern5_fires d v :
  stealth_fires d = true ->
  pattern5 d v
    = {| scan_detected := true;
         scan_type := Some (_identify_stealth_scan_type (flag_labels d));
         confidence := Qmax (confidence v) 0.98;
         severity := CRITICAL;
         details :=
           details v ++ [DStealth (_identify_stealth_scan_type (flag_labels d))] |}.
Proof. unfold stealth_fires, pattern5. intros ->. reflexivity. Qed.

Lemma pattern6_cases d v :
  pattern6 d v
    = if udp_fires d then
        {| scan_detected := true; scan_type := Some "UDP_SCAN";
           confidence := Qmax (confidence v) 0.89; severity := MEDIUM;
           details := details v ++ [DUdpScan (udp_count d)] |}
      else v.
Proof. reflexivity. Qed.

Lemma pattern7_keeps d v :
  scan_detected (pattern7 d v) = scan_detected v
  /\ scan_type (pattern7 d v) = scan_type v
  /\ confidence (pattern7 d v) = confidence v
  /\ severity (pattern7 d v)
     = if (15 <? well_known (ports d))%nat then CRITICAL else severity v.
Proof. unfold pattern7. destruct (15 <? _)%nat; simpl; auto. Qed.

(** C3 (amended).  With a non-zero port threshold (a threshold of 0
    makes the call raise before any check), on every snapshot on which
    the stealth check fires, [detect_port_scan] reports a threat with
    confidence at least 0.98.
    If the later UDP check does not fire, the attack type is the stealth
    subtype and the severity is CRITICAL.  If the UDP check fires too, it
    overwrites the finding: the attack type is UDP_SCAN and the severity
    is MEDIUM, unless more than 15 well-known ports were touched, which
    sets CRITICAL. *)
Theorem stealth_scan_precedence self now packet :
  let feat := extract_port_scan_features now packet in
  let d := tracked (fst (detect_port_scan self now packet)) (f_srcip feat) in
  threshold_ports self <> 0 ->
  stealth_fires d = true ->
  exists r,
    snd (detect_port_scan self now packet) = Some r
    /\ threat_detected r = true
    /\ (0.98 <= r_confidence r)%Q
    /\ (udp_fires d = false ->
        attack_type r = Some (_identify_stealth_scan_type (flag_labels d))
        /\ r_severity r = CRITICAL)
    /\ (udp_fires d = true ->
        attack_type r = Some "UDP_SCAN"
        /\ r_severity r
           = if (15 <? well_known (ports d))%nat then CRITICAL else MEDIUM).
Proof.
  intros feat d Hthr Hst.
  assert (Ed : d = observed self feat).
  { subst d. tracked_after self now packet E. exact E. }
  destruct (pattern1_returns (threshold_ports self) d verdict0 Hthr) as [v1 Hv1].
  pose proof (detect_report self now packet) as E. cbv zeta in E.
  fold feat in E. rewrite <- Ed, Hv1 in E. simpl in E.
  eexists. split; [exact E|].
  unfold patterns_2_7.
  set (x := pattern4 d (pattern3 d (pattern2 d v1))).
  destruct (pattern7_keeps d (pattern6 d (pattern5 d x)))
    as (K1 & K2 & K3 & K4).
  unfold build_result. simpl. rewrite K1, K2, K3, K4.
  rewrite pattern6_cases, (pattern5_fires d x Hst).
  destruct (udp_fires d); simpl.
  - split; [reflexivity|]. split.
    + eapply Qle_trans; [|apply Q.le_max_l]. apply Q.le_max_r.
    + split; [discriminate|]. intros _. split; reflexivity.
  - split; [reflexivity|]. split.
    + apply Q.le_max_r.
    + split; [|discriminate]. intros _. split; [reflexivity|].
      destruct (15 <? _)%nat; reflexivity.
Qed.

(** C3, as stated, fails on eleven UDP probes that carry no flags: each
    is labelled NULL, so the stealth check fires (11 > 3), and the UDP
    check (11 > 10 probes, 11 > 8 ports) then overwrites the finding with
    UDP_SCAN and severity MEDIUM. *)
Lemma stealth_scan_counterexample :
  let calls :=
    map (fun p => (0, probe "10.0.0.7" (fst p) None (Some "udp") (snd p)))
        [(53, 0); (123, 10); (161, 20); (500, 30); (1900, 40); (5353, 45);
         (4500, 46); (69, 47); (137, 48); (514, 49)] in
  let packet := probe "10.0.0.7" 520 None (Some "udp") 50 in
  let run := detect_port_scan (feed default_detector calls) 0 packet in
  stealth_fires (tracked (fst run) "10.0.0.7") = true
  /\ ((fun r => (attack_type r, r_severity r)) <$> snd run)
     = Some (Some "UDP_SCAN", MEDIUM).
Proof. split; vm_compute; reflexivity. Qed.

Lemma stealth_scan_precedence_witness :
  let calls :=
    map (fun p => (0, probe "10.0.0.7" (fst p) (Some (FlagsInt 1)) None (snd p)))
        [(22, 0); (80, 10); (443, 20)] in
  let packet := probe "10.0.0.7" 8080 (Some (FlagsInt 1)) None 30 in
  exists r,
    snd (detect_port_scan (feed default_detector calls) 0 packet) = Some r
    /\ attack_type r = Some "FIN_SCAN"
    /\ r_severity r = CRITICAL.
Proof.
  intros calls packet.
  destruct (stealth_scan_precedence (feed default_detector calls) 0 packet)
    as (r & Hr & _ & _ & Hno & _).
  - vm_compute. discriminate.
  - vm_compute. reflexivity.
  - exists r. split; [exact Hr|].
    destruct Hno as [Ht Hs]; [vm_compute; reflexivity|].
    split; [|exact Hs]. rewrite Ht. vm_compute. reflexivity.
Defined.

End Stealth.

Section Vertical.
Import PortScan.

Lemma pop_old_noop cutoff ts fl pr :
  (forall t, head ts = Some t -> cutoff <= t) ->
  pop_old cutoff ts fl pr = (ts, fl, pr).
Proof.
  destruct ts as [|t ts]; simpl; [reflexivity|].
  intros H. specialize (H t eq_refl).
  destruct (t <? cutoff) eqn:E; [lia|reflexivity].
Qed.

Lemma feed_cons self c calls :
  feed self (c :: calls)
    = feed (fst (detect_port_scan self (fst c) (snd c))) calls.
Proof. reflexivity. Qed.

Lemma feed_snoc self calls c :
  feed self (calls ++ [c])
    = fst (detect_port_scan (feed self calls) (fst c) (snd c)).
Proof. unfold feed. rewrite fold_left_app. reflexivity. Qed.

Lemma feed_window_size self calls :
  window_size (feed self calls) = window_size self.
Proof.
  revert self. induction calls as [|c calls IH]; intros self; [reflexivity|].
  rewrite feed_cons, IH. reflexivity.
Qed.

Lemma feed_threshold_ports self calls :
  threshold_ports (feed self calls) = threshold_ports self.
Proof.
  revert self. induction calls as [|c calls IH]; intros self; [reflexivity|].
  rewrite feed_cons, IH. reflexivity.
Qed.

Lemma accumulate_nil d : accumulate d [] = d.
Proof.
  destruct d. unfold accumulate. simpl.
  rewrite !app_nil_r. f_equal. apply (right_id_L ∅ (∪)).
Qed.

Lemma accumulate_cons d f fs :
  accumulate (record_observation f d) fs = accumulate d (f :: fs).
Proof.
  unfold accumulate, record_observation. simpl.
  rewrite <- !app_assoc. simpl. f_equal.
  rewrite <- (assoc_L (∪)). reflexivity.
Qed.

(** While the oldest retained timestamp stays inside the window of every
    new observation, feeding only appends. *)
Lemma feed_accumulates calls : forall self ip,
  (forall f, f ∈ features_of calls -> f_srcip f = ip) ->
  (forall t0 f,
     head (timestamps (tracked self ip) ++ map f_timestamp (features_of calls))
       = Some t0 ->
     f ∈ features_of calls ->
     f_timestamp f - window_size self * 1000000 <= t0) ->
  tracked (feed self calls) ip
    = accumulate (tracked self ip) (features_of calls).
Proof.
  induction calls as [|c calls IH]; intros self ip Hip Hw.
  - simpl. rewrite accumulate_nil. reflexivity.
  - rewrite feed_cons.
    set (feat := extract_port_scan_features (fst c) (snd c)).
    assert (Hc : f_srcip feat = ip) by (apply Hip; left).
    assert (E : tracked (fst (detect_port_scan self (fst c) (snd c))) ip
                = record_observation feat (tracked self ip)).
    { tracked_after self (fst c) (snd c) E. fold feat in E. rewrite Hc in E. rewrite E.
      unfold observed, clean_ip_data. rewrite Hc.
      rewrite pop_old_noop; [destruct (tracked self ip); reflexivity|].
      intros t Ht. simpl in Ht. eapply Hw; [|left].
      simpl. fold feat.
      destruct (timestamps (tracked self ip)); simpl in *; exact Ht. }
    rewrite IH.
    + rewrite E. apply accumulate_cons.
    + intros f Hf. apply Hip. right. exact Hf.
    + intros t0 f Ht Hf. rewrite detect_window_size.
      eapply Hw; [|right; exact Hf].
      rewrite E in Ht. simpl in Ht. rewrite <- app_assoc in Ht. exact Ht.
Qed.

End Vertical.

Section VerticalTheorem.
Import PortScan.

Lemma span_le_one (z : Z) :
  z <= 1000000 -> (inject_Z z / 1000000 <= 1)%Q.
Proof.
  intros H. unfold Qle, Qdiv, Qmult, Qinv, inject_Z. simpl. lia.
Qed.

Lemma last_elem_of (l : list Z) : l <> [] -> List.last l 0 ∈ l.
Proof.
  induction l as [|a l IH]; [congruence|]. intros _.
  destruct l as [|b l]; [left|]. right. apply IH. congruence.
Qed.

Lemma hd_elem_of (l : list Z) : l <> [] -> hd 0 l ∈ l.
Proof. destruct l; [congruence|]. intros _. left. Qed.

Lemma ratio_at_most_six (g : nat) :
  (g <= 6)%nat -> Py.Qltb 0.6 (Py.Qnat g / Py.Qnat 10) = false.
Proof.
  intros H. do 7 (destruct g as [|g]; [vm_compute; reflexivity|]). lia.
Qed.

Lemma syn_ratio_at_most_seven (c : nat) :
  (c <= 7)%nat ->
  (5 <? c)%nat && (0 <? 10)%nat && Py.Qltb 0.7 (Py.Qnat c / Py.Qnat 10) = false.
Proof.
  intros H. do 8 (destruct c as [|c]; [vm_compute; reflexivity|]). lia.
Qed.

Lemma sorted_elements_list_to_set (l : list Z) :
  NoDup l -> Py.sorted (elements (list_to_set l : gset Z)) = Py.sorted l.
Proof.
  intros H. unfold Py.sorted.
  apply (Sorted_unique Z.le); try (apply Sorted_merge_sort; apply _).
  rewrite !merge_sort_Permutation. apply elements_list_to_set, H.
Qed.

(** Once the confidence is 0.98 on a detected scan, the checks 3 to 7
    leave both as they are. *)
Lemma checks_keep_top_confidence d v :
  (confidence v == 0.98)%Q -> scan_detected v = true ->
  scan_detected (pattern7 d (pattern6 d (pattern5 d (pattern4 d (pattern3 d v)))))
    = true
  /\ (confidence
        (pattern7 d (pattern6 d (pattern5 d (pattern4 d (pattern3 d v)))))
      == 0.98)%Q.
Proof.
  intros Hc Hd.
  assert (K : forall (c : Q) (x : Q),
             (c == 0.98)%Q -> (x <= 0.98)%Q -> (Qmax c x == 0.98)%Q).
  { intros c x Hcc Hx. rewrite Q.max_l; [exact Hcc|]. rewrite Hcc. exact Hx. }
  assert (H3 : scan_detected (pattern3 d v) = true
               /\ (confidence (pattern3 d v) == 0.98)%Q).
  { unfold pattern3. destruct (_detect_sequential_ports _); [|auto].
    cbn [scan_detected confidence]. split; [reflexivity|].
    apply K; [exact Hc|discriminate]. }
  destruct H3 as [Hd3 Hc3]. revert Hd3 Hc3. generalize (pattern3 d v).
  intros v3 Hd3 Hc3.
  assert (H4 : scan_detected (pattern4 d v3) = true
               /\ (confidence (pattern4 d v3) == 0.98)%Q).
  { unfold pattern4. destruct (_ && _); [|auto].
    cbn [scan_detected confidence]. split; [reflexivity|].
    apply K; [exact Hc3|discriminate]. }
  destruct H4 as [Hd4 Hc4]. revert Hd4 Hc4. generalize (pattern4 d v3).
  intros v4 Hd4 Hc4.
  assert (H5 : scan_detected (pattern5 d v4) = true
               /\ (confidence (pattern5 d v4) == 0.98)%Q).
  { unfold pattern5. destruct (3 <? _)%nat; [|auto].
    cbn [scan_detected confidence]. split; [reflexivity|].
    apply K; [exact Hc4|discriminate]. }
  destruct H5 as [Hd5 Hc5]. revert Hd5 Hc5. generalize (pattern5 d v4).
  intros v5 Hd5 Hc5.
  assert (H6 : scan_detected (pattern6 d v5) = true
               /\ (confidence (pattern6 d v5) == 0.98)%Q).
  { unfold pattern6. destruct (_ && _); [|auto].
    cbn [scan_detected confidence]. split; [reflexivity|].
    apply K; [exact Hc5|discriminate]. }
  destruct H6 as [Hd6 Hc6]. revert Hd6 Hc6. generalize (pattern6 d v5).
  intros v6 Hd6 Hc6.
  unfold pattern7. destruct (15 <? _)%nat; [|auto].
  cbn [scan_detected confidence]. auto.
Qed.

(** C9 (amended).  Feeding a fresh detector (threshold 10, window of at
    least one second) ten observations from one source to ten distinct
    destination ports, all within one second of each other, makes the
    tenth call report a threat.  The rapid-scan check always fires on
    such a burst (10 connections over a span floored at one second), so
    the confidence is [max(min(0.95, 0.5 + (10/10)*0.45), min(0.98, 0.6
    + (10/10)*0.38)) = 0.98], hence at least 0.95, whatever the later
    checks do.  The attack type is VERTICAL_SCAN and the severity HIGH
    provided that none of the later type-setting checks fires: at most 6
    adjacent gaps of the sorted ports are 2 or less, at most 7 flag
    labels are SYN-only and at most 3 are stealth labels. *)
Theorem vertical_scan_signature (w tc : Z) (calls : list (Z * Packet))
    (call : Z * Packet) (ip : string) :
  let feats := features_of (calls ++ [call]) in
  1 <= w ->
  length feats = 10%nat ->
  (forall f, f ∈ feats -> f_srcip f = ip) ->
  NoDup (map f_dst_port feats) ->
  (forall t t', t ∈ map f_timestamp feats -> t' ∈ map f_timestamp feats ->
                t - t' <= 1000000) ->
  exists r,
    snd (detect_port_scan (feed (init w 10 tc) calls) (fst call) (snd call))
      = Some r
    /\ threat_detected r = true
    /\ (r_confidence r == 0.98)%Q
    /\ (0.95 <= r_confidence r)%Q
    /\ ((small_gaps (Py.sorted (map f_dst_port feats)) <= 6)%nat ->
        (count_in ["S"; "SYN"] (map f_flags feats) <= 7)%nat ->
        (count_in stealth_flags (map f_flags feats) <= 3)%nat ->
        attack_type r = Some "VERTICAL_SCAN" /\ r_severity r = HIGH).
Proof.
  intros feats Hw Hlen Hip Hnd Hsec.
  set (self := feed (init w 10 tc) calls).
  set (feat := extract_port_scan_features (fst call) (snd call)).
  set (d := accumulate new_ip_data feats).
  assert (Hfeat : f_srcip feat = ip).
  { apply Hip. unfold feats, features_of. rewrite map_app.
    apply elem_of_app. right. left. }
  assert (Hd : observed self feat = d).
  { tracked_after self (fst call) (snd call) E. fold feat in E. rewrite <- E, Hfeat.
    unfold self. rewrite <- feed_snoc.
    rewrite (feed_accumulates (calls ++ [call]) (init w 10 tc) ip Hip);
      [reflexivity|].
    intros t0 f Ht Hf. fold feats in Ht. simpl in Ht.
    assert (f_timestamp f - t0 <= 1000000); [|simpl; lia].
    apply Hsec.
    - apply list_elem_of_fmap. exists f. split; [reflexivity|exact Hf].
    - apply head_Some_elem_of. exact Ht. }
  assert (Hports : ports d = list_to_set (map f_dst_port feats)).
  { unfold d, accumulate. simpl. apply (left_id_L ∅ (∪)). }
  assert (Hsize : size (ports d) = 10%nat).
  { rewrite Hports, size_list_to_set by exact Hnd.
    rewrite length_map. exact Hlen. }
  assert (Hts : timestamps d = map f_timestamp feats) by reflexivity.
  assert (Hfl : flag_labels d = map f_flags feats) by reflexivity.
  assert (Hlts : length (timestamps d) = 10%nat)
    by (rewrite Hts, length_map; exact Hlen).
  assert (Hlfl : length (flag_labels d) = 10%nat)
    by (rewrite Hfl, length_map; exact Hlen).
  assert (Hlpr : length (protocols d) = 10%nat)
    by (unfold d; simpl; rewrite length_map; exact Hlen).
  assert (Htw : (Qmax (time_window_of d) 1 == 1)%Q).
  { apply Q.max_r. unfold time_window_of. rewrite Hlts. simpl.
    assert (Hne : timestamps d <> []) by (intros E; rewrite E in Hlts; discriminate).
    apply span_le_one. rewrite Hts in *.
    apply Hsec; [apply last_elem_of|apply hd_elem_of]; exact Hne. }
  assert (Hrate : (rate_of d == 10)%Q).
  { unfold rate_of. rewrite Htw, Hlts. reflexivity. }
  pose proof (detect_report self (fst call) (snd call)) as E.
  cbv zeta in E. fold feat in E. rewrite Hd in E.
  replace (threshold_ports self) with 10 in E
    by (unfold self; rewrite feed_threshold_ports; reflexivity).
  unfold pattern1 in E. rewrite Hsize in E. simpl in E.
  eexists. split; [exact E|].
  unfold patterns_2_7.
  match goal with
  | |- context [pattern2 d ?v] => set (v1 := v)
  end.
  assert (H2 : pattern2 d v1
               = {| scan_detected := true; scan_type := Some "VERTICAL_SCAN";
                    confidence :=
                      Qmax (confidence v1)
                        (Qmin 0.98 (0.6 + (rate_of d / 10) * 0.38));
                    severity := HIGH;
                    details := details v1 ++ [DHighRate (rate_of d)] |}).
  { unfold pattern2.
    assert (Hf : Py.Qltb 5.0 (rate_of d) = true).
    { apply Qltb_lt. rewrite Hrate. reflexivity. }
    rewrite Hf. reflexivity. }
  rewrite H2. set (v2 := {| scan_detected := true |}).
  assert (Hc : (confidence v2 == 0.98)%Q).
  { unfold v2, v1. simpl. rewrite Hrate. vm_compute. reflexivity. }
  destruct (checks_keep_top_confidence d v2 Hc eq_refl) as [Hdet Hconf].
  unfold build_result.
  cbn [threat_detected r_confidence attack_type r_severity].
  split; [exact Hdet|]. split; [exact Hconf|].
  split; [rewrite Hconf; discriminate|].
  intros Hseq Hsyn Hst.
  assert (H3 : pattern3 d v2 = v2).
  { unfold pattern3.
    assert (Hf : _detect_sequential_ports (elements (ports d)) = false);
      [|rewrite Hf; reflexivity].
    apply Bool.not_true_iff_false. rewrite detect_sequential_spec.
    intros [_ Hq]. apply Qltb_lt in Hq.
    replace (length (elements (ports d))) with 10%nat in Hq
      by (symmetry; exact Hsize).
    rewrite Hports, sorted_elements_list_to_set in Hq by exact Hnd.
    rewrite ratio_at_most_six in Hq by exact Hseq. discriminate. }
  rewrite H3.
  assert (H4 : pattern4 d v2 = v2).
  { unfold pattern4. rewrite Hlfl, Hfl.
    rewrite syn_ratio_at_most_seven by exact Hsyn. reflexivity. }
  rewrite H4.
  assert (H5 : pattern5 d v2 = v2).
  { unfold pattern5. rewrite Hfl.
    destruct (3 <? _)%nat eqn:E5; [|reflexivity].
    apply Nat.ltb_lt in E5. lia. }
  rewrite H5.
  assert (H6 : pattern6 d v2 = v2).
  { unfold pattern6.
    destruct (10 <? udp_count d)%nat eqn:E6; [|reflexivity].
    apply Nat.ltb_lt in E6. unfold udp_count in E6.
    pose proof (filter_length_le (fun p => String.eqb p "udp") (protocols d)).
    lia. }
  rewrite H6.
  assert (H7 : pattern7 d v2 = v2).
  { unfold pattern7.
    destruct (15 <? well_known (ports d))%nat eqn:E7; [|reflexivity].
    apply Nat.ltb_lt in E7. unfold well_known in E7.
    pose proof (filter_length_le (fun p => p <=? 1023) (elements (ports d))) as Hle.
    replace (length (elements (ports d))) with 10%nat in Hle
      by (symmetry; exact Hsize).
    lia. }
  rewrite H7. split; reflexivity.
Qed.

End VerticalTheorem.

Section VerticalExamples.
Import PortScan.

(** C9, as stated, fails on ten probes of ten distinct ports within one
    second that carry no flags: every probe is labelled NULL, the stealth
    check fires and the report is NULL_SCAN with severity CRITICAL and
    confidence 0.98.  (With ACK-only probes the type stays VERTICAL_SCAN,
    but the rapid-scan check still raises the confidence to 0.98.) *)
Lemma vertical_scan_counterexample :
  let calls :=
    map (fun p => (0, probe "10.0.0.7" p None None 0))
        [80; 443; 8080; 22; 3306; 5432; 6379; 9200; 27017] in
  let packet := probe "10.0.0.7" 11211 None None 0 in
  exists r,
    snd (detect_port_scan (feed default_detector calls) 0 packet) = Some r
    /\ attack_type r = Some "NULL_SCAN"
    /\ r_severity r = CRITICAL
    /\ (r_confidence r == 0.98)%Q
    /\ ~ vertical_scan_as_specified r.
Proof.
  eexists. split; [vm_compute; reflexivity|].
  split; [reflexivity|]. split; [reflexivity|]. split; [reflexivity|].
  intros [H _]. discriminate H.
Qed.

Lemma vertical_scan_signature_witness :
  let calls :=
    map (fun p => (0, probe "10.0.0.7" p (Some (FlagsInt 16)) None 0))
        [80; 443; 8080; 22; 3306; 5432; 6379; 9200; 27017] in
  let call := (0, probe "10.0.0.7" 11211 (Some (FlagsInt 16)) None 0) in
  exists r,
    snd (detect_port_scan (feed (init 60 10 20) calls) (fst call) (snd call))
      = Some r
    /\ attack_type r = Some "VERTICAL_SCAN"
    /\ (r_confidence r == 0.98)%Q
    /\ r_severity r = HIGH.
Proof.
  intros calls call.
  destruct (vertical_scan_signature 60 20 calls call "10.0.0.7")
    as (r & Hr & _ & Hc & _ & Hts).
  - lia.
  - reflexivity.
  - apply Forall_forall. vm_compute. repeat constructor.
  - apply (bool_decide_unpack _). vm_compute. reflexivity.
  - intros t t' Ht. revert t'. apply Forall_forall.
    revert t Ht. apply Forall_forall.
    apply (bool_decide_unpack _). vm_compute. reflexivity.
  - destruct Hts as [Ht Hs]; [vm_compute; lia..|].
    exists r. auto.
Defined.

End VerticalExamples.

(** ** Fusion: [CyberSentinelMod.analyze_packet] *)

Section Fusion.
Import Sentinel.

Lemma string_of_uint_truthy d :
  Py.truthy (NilZero.string_of_uint d) = true.
Proof. destruct d; reflexivity. Qed.

Lemma str_of_int_truthy n : Py.truthy (Py.str_of_int n) = true.
Proof.
  unfold Py.str_of_int, NilZero.string_of_int.
  destruct (Z.to_int n); [apply string_of_uint_truthy|reflexivity].
Qed.

Lemma pred_of_truthy idx pred_class :
  Py.truthy (pred_of idx pred_class) = true.
Proof.
  unfold pred_of. destruct pred_class as [s|]; [|apply str_of_int_truthy].
  destruct (Py.truthy s) eqn:E; [exact E|apply str_of_int_truthy].
Qed.

Lemma or_zero_eq x : (or_zero x == x)%Q.
Proof.
  unfold or_zero. destruct (Qeq_bool x 0) eqn:E; [|reflexivity].
  apply Qeq_bool_eq in E. rewrite E. reflexivity.
Qed.

Lemma or_zero_id x : (0.3 <= x)%Q -> or_zero x = x.
Proof.
  intros H. unfold or_zero. destruct (Qeq_bool x 0) eqn:E; [|reflexivity].
  apply Qeq_bool_eq in E. rewrite E in H.
  apply Qle_not_lt in H. exfalso. apply H. reflexivity.
Qed.

(** The detector state and the behavioural report of [analyze_packet] do
    not depend on the classifier's answer. *)
Lemma analyze_packet_runs_detector upper self now ml_res packet :
  fst (analyze_packet upper self now ml_res packet)
    = fst (behavioural_run self now packet)
  /\ port_scan_result (snd (analyze_packet upper self now ml_res packet))
     = snd (behavioural_run self now packet).
Proof.
  unfold analyze_packet, behavioural_run.
  destruct (detect_port_scan _ _ _) as [self' scan_res].
  destruct ml_res as [|idx pc conf]; simpl.
  - split; [reflexivity|].
    unfold backup_rules.
    destruct (scan_threat scan_res); [reflexivity|].
    destruct (heuristic_classify _ _) as [h|]; simpl;
      [destruct (Py.Qltb _ _)|]; reflexivity.
  - destruct (negb _ && _); simpl; [split; reflexivity|].
    split; [reflexivity|].
    unfold backup_rules.
    destruct (scan_threat scan_res); [reflexivity|].
    destruct (heuristic_classify _ _) as [h|]; simpl;
      [destruct (Py.Qltb _ _)|]; reflexivity.
Qed.

(** C1.  If the classifier produced a verdict whose label is not a benign
    alias and whose confidence is at least 0.3, [analyze_packet] returns
    a threat with the classifier's label as attack type, the classifier's
    confidence, the severity of the fixed label table (MEDIUM for an
    unmapped label) and the classifier's model name in [model_used],
    whatever the behavioural detector reports on the same packet; the
    detector is run all the same.  The label is compared with the
    aliases and looked up in the table after upper-casing, whatever
    function [upper] is. *)
Theorem classifier_verdict_wins upper self now idx pred_class conf packet :
  let pred := pred_of idx pred_class in
  let out := analyze_packet upper self now (MlPrediction idx pred_class conf) packet in
  is_benign upper pred = false ->
  (0.3 <= conf)%Q ->
  threat_detected (snd out) = true
  /\ attack_type (snd out) = Some pred
  /\ attack_label (snd out) = Some pred
  /\ confidence (snd out) = conf
  /\ severity (snd out)
     = default MEDIUM (Py.dict_get (upper pred) severity_map)
  /\ model_used (snd out) = Some (model_name self)
  /\ port_scan_result (snd out) = snd (behavioural_run self now packet)
  /\ fst out = fst (behavioural_run self now packet).
Proof.
  intros pred out Hb Hc.
  destruct (analyze_packet_runs_detector upper self now
              (MlPrediction idx pred_class conf) packet) as [Hst Hres].
  fold out in Hst, Hres.
  assert (E : snd out
              = assign (snd out) true (Some pred) (Some pred) conf
                  (default MEDIUM (Py.dict_get (upper pred) severity_map))
                  (recommendation (snd out)) (Some (model_name self)) None).
  { subst out. unfold analyze_packet.
    destruct (detect_port_scan _ _ _) as [self' scan_res].
    fold pred. rewrite Hb, (or_zero_id conf Hc).
    apply Qleb_le in Hc. rewrite Hc. simpl.
    unfold _get_severity_from_attack_type, pred.
    rewrite pred_of_truthy. reflexivity. }
  rewrite E. simpl. repeat split; try reflexivity; assumption.
Qed.

(** C2.  If the classifier verdict is absent, benign or below 0.3 and the
    behavioural detector reports a finding, [analyze_packet] returns a
    threat carrying that finding's attack type, confidence, severity and
    recommended action, attributed to the port-scan detector; the
    detector is run whatever the classifier answers. *)
Theorem behavioural_fallback upper self now ml_res packet r :
  let out := analyze_packet upper self now ml_res packet in
  classifier_silent upper ml_res ->
  snd (behavioural_run self now packet) = ScanReport r ->
  PortScan.threat_detected r = true ->
  threat_detected (snd out) = true
  /\ attack_type (snd out) = PortScan.attack_type r
  /\ attack_label (snd out) = PortScan.attack_type r
  /\ (confidence (snd out) == PortScan.r_confidence r)%Q
  /\ severity (snd out) = PortScan.r_severity r
  /\ recommendation (snd out) = PortScan.recommended_action r
  /\ model_used (snd out) = Some "PortScanDetector (backup)"
  /\ fst out = fst (behavioural_run self now packet).
Proof.
  intros out Hsilent Hscan Hthreat.
  destruct (analyze_packet_runs_detector upper self now ml_res packet) as [Hst _].
  fold out in Hst.
  assert (E : exists h f,
             snd out
             = backup_rules ml_res (snd (behavioural_run self now packet)) h f).
  { subst out. unfold analyze_packet, behavioural_run.
    destruct (detect_port_scan _ _ _) as [self' scan_res].
    destruct ml_res as [|idx pc conf].
    - eexists. eexists. reflexivity.
    - assert (Hno : negb (is_benign upper (pred_of idx pc))
                    && Py.Qleb 0.3 (or_zero conf) = false).
      { destruct Hsilent as [Hb|Hlt]; [rewrite Hb; reflexivity|].
        apply Bool.andb_false_iff. right.
        apply Bool.not_true_iff_false. rewrite Qleb_le, or_zero_eq.
        apply Qlt_not_le, Hlt. }
      rewrite Hno. eexists. eexists. reflexivity. }
  destruct E as (h & f & E). rewrite E, Hscan.
  unfold backup_rules. cbn [scan_threat]. rewrite Hthreat.
  simpl.
  repeat split; try reflexivity; [apply or_zero_eq|exact Hst].
Qed.

End Fusion.

Section FusionExamples.
Import Sentinel.

(** Fusion precedence: a non-benign verdict at confidence 0.5 wins over a
    simultaneous vertical-scan finding. *)
Lemma classifier_verdict_wins_witness :
  let out :=
    analyze_packet Py.upper engine_under_scan 0 (MlPrediction 1 (Some "DoS") 0.5)
      tenth_probe in
  (exists r,
     port_scan_result (snd out) = ScanReport r
     /\ PortScan.threat_detected r = true
     /\ PortScan.attack_type r = Some "VERTICAL_SCAN")
  /\ threat_detected (snd out) = true
  /\ attack_type (snd out) = Some "DoS"
  /\ severity (snd out) = HIGH
  /\ model_used (snd out) = Some "CICIDS2017_5class_model".
Proof.
  intros out.
  destruct (classifier_verdict_wins Py.upper engine_under_scan 0 1 (Some "DoS") 0.5
              tenth_probe) as (H1 & H2 & _ & _ & H5 & H6 & H7 & _).
  - reflexivity.
  - vm_compute. discriminate.
  - fold out in H1, H2, H5, H6, H7. split.
    + eexists. split; [rewrite H7; vm_compute; reflexivity|].
      split; reflexivity.
    + split; [exact H1|]. split; [exact H2|].
      split; [rewrite H5; reflexivity|]. rewrite H6. reflexivity.
Defined.

(** Fusion fallback: with a benign verdict, the vertical-scan finding is
    returned with behavioural attribution. *)
Lemma behavioural_fallback_witness :
  let out :=
    analyze_packet Py.upper engine_under_scan 0 (MlPrediction 0 (Some "BENIGN") 0.99)
      tenth_probe in
  threat_detected (snd out) = true
  /\ attack_type (snd out) = Some "VERTICAL_SCAN"
  /\ severity (snd out) = HIGH
  /\ model_used (snd out) = Some "PortScanDetector (backup)".
Proof.
  intros out.
  assert (Hrun : exists r,
             snd (behavioural_run engine_under_scan 0 tenth_probe) = ScanReport r
             /\ PortScan.threat_detected r = true
             /\ PortScan.attack_type r = Some "VERTICAL_SCAN"
             /\ PortScan.r_severity r = HIGH).
  { eexists. split; [vm_compute; reflexivity|]. repeat split. }
  destruct Hrun as (r & Hr & Ht & Ha & Hs).
  destruct (behavioural_fallback Py.upper engine_under_scan 0
              (MlPrediction 0 (Some "BENIGN") 0.99) tenth_probe r)
    as (H1 & H2 & _ & _ & H5 & _ & H7 & _).
  - left. reflexivity.
  - exact Hr.
  - exact Ht.
  - fold out in H1, H2, H5, H7.
    split; [exact H1|]. split; [rewrite H2; exact Ha|].
    split; [rewrite H5; exact Hs|exact H7].
Defined.

End FusionExamples.

(** ** The rule matcher: [AutomaticDetector] *)

Section Matcher.
Import AttackCategories.

Lemma score_le_awardable packet_data r :
  (fst (score_rules packet_data r) <= awardable r)%Q.
Proof.
  unfold score_rules, awardable, award, weight.
  destruct (tcp_flags r), (connection_rate r), (protocol r),
    (dst_port r) as [[?|?]|], (unique_ports r);
    repeat match goal with
           | |- context [if ?b then _ else _] => destruct b
           end;
    vm_compute; discriminate.
Qed.

Lemma registry_awardable id r :
  get_detection_rules id = Some r -> (awardable r < threshold_of r)%Q.
Proof.
  unfold get_detection_rules, CATEGORIES.
  cbn [find_subcategory Py.dict_get].
  repeat (destruct (String.eqb id _);
          [intros [= <-]; vm_compute; reflexivity|]).
  discriminate.
Qed.

Lemma score_below_threshold packet_data id r :
  get_detection_rules id = Some r ->
  Py.Qleb (threshold_of r) (fst (score_rules packet_data r)) = false.
Proof.
  intros H. apply Bool.not_true_iff_false. rewrite Qleb_le.
  apply Qlt_not_le. eapply Qle_lt_trans; [apply score_le_awardable|].
  eapply registry_awardable, H.
Qed.

Lemma enable_one_table self x id r :
  (forall i q, rule_table self !! i = Some q -> get_detection_rules i = Some q) ->
  rule_table (enable_one self x) !! id = Some r ->
  get_detection_rules id = Some r.
Proof.
  intros Hinv. unfold enable_one.
  destruct (get_detection_rules x) as [q|] eqn:Ex; [|apply Hinv].
  destruct (get_subcategory_info x); [|apply Hinv].
  simpl. destruct (decide (x = id)) as [->|Hne].
  - rewrite lookup_insert_eq. intros [= <-]. exact Ex.
  - rewrite lookup_insert_ne by exact Hne. apply Hinv.
Qed.

Lemma disable_one_table self x id r :
  (forall i q, rule_table self !! i = Some q -> get_detection_rules i = Some q) ->
  rule_table (disable_one self x) !! id = Some r ->
  get_detection_rules id = Some r.
Proof.
  intros Hinv. unfold disable_one. simpl.
  intros H. apply lookup_delete_Some in H. apply Hinv, H.
Qed.

(** Every rule dictionary of a reachable detector is the registry's. *)
Lemma reachable_table self :
  reachable self ->
  forall id r, rule_table self !! id = Some r -> get_detection_rules id = Some r.
Proof.
  induction 1 as [|self ids _ IH|self ids _ IH].
  - intros id r. simpl. rewrite lookup_empty. discriminate.
  - unfold enable_attack_detection. revert self IH.
    induction ids as [|x ids IHids]; intros self IH; [exact IH|].
    simpl. apply IHids. intros id r. apply enable_one_table, IH.
  - unfold disable_attack_detection. revert self IH.
    induction ids as [|x ids IHids]; intros self IH; [exact IH|].
    simpl. apply IHids. intros id r. apply disable_one_table, IH.
Qed.

Lemma check_with_registry_rules self packet_data id r :
  rule_table self !! id = Some r ->
  get_detection_rules id = Some r ->
  _check_attack_rules self packet_data id = Some None.
Proof.
  intros Ht Hr. unfold _check_attack_rules. rewrite Ht. simpl.
  destruct (get_subcategory_info id); [|reflexivity].
  pose proof (score_below_threshold packet_data id r Hr) as Hs.
  unfold threshold_of in Hs.
  destruct (score_rules packet_data r) as [conf matched]. simpl in Hs.
  rewrite Hs. reflexivity.
Qed.

Lemma no_detection_fold self packet_data (l : list string) :
  (forall id d, _check_attack_rules self packet_data id <> Some (Some d)) ->
  fold_left
    (fun detections attack_type =>
       match _check_attack_rules self packet_data attack_type with
       | Some (Some detection) => detections ++ [detection]
       | _ => detections
       end) l [] = [].
Proof.
  intros H. induction l as [|x l IH]; [reflexivity|]. simpl.
  destruct (_check_attack_rules self packet_data x) as [[d|]|] eqn:E;
    [exfalso; eapply H, E|exact IH|exact IH].
Qed.

(** C5.  For every packet and every subcategory of the shipped registry,
    the weights the matcher can award sum to strictly less than the
    rule's confidence threshold; so in every detector state that enabling
    and disabling can produce, [_check_attack_rules] returns [None] for
    every enabled attack type and [analyze_packet] returns the empty
    list. *)
Theorem rule_matcher_never_fires self packet_data :
  reachable self ->
  Forall
    (fun e =>
       (fst (score_rules packet_data (detection_rules (snd e)))
        <= awardable (detection_rules (snd e)))%Q
       /\ (awardable (detection_rules (snd e))
           < threshold_of (detection_rules (snd e)))%Q)
    shipped_subcategories
  /\ (forall id, is_Some (rule_table self !! id) ->
                 _check_attack_rules self packet_data id = Some None)
  /\ analyze_packet self packet_data = [].
Proof.
  intros Hreach.
  assert (Hcheck : forall id, is_Some (rule_table self !! id) ->
                     _check_attack_rules self packet_data id = Some None).
  { intros id [r Hr]. eapply check_with_registry_rules; [exact Hr|].
    eapply reachable_table; eassumption. }
  split; [|split; [exact Hcheck|]].
  - unfold shipped_subcategories, CATEGORIES. cbn [map snd concat app].
    repeat (constructor;
            [split; [apply score_le_awardable|vm_compute; reflexivity]|]).
    constructor.
  - apply no_detection_fold. intros id d Hd.
    destruct (rule_table self !! id) as [r|] eqn:E.
    + rewrite Hcheck in Hd by (rewrite E; eauto). discriminate.
    + unfold _check_attack_rules in Hd. rewrite E in Hd. discriminate.
Qed.

Lemma rule_matcher_never_fires_witness :
  let self :=
    enable_attack_detection new_detector
      ["SYN_SCAN"; "SSH_BRUTE_FORCE"; "HTTP_FLOOD"] in
  let packet_data :=
    {| pkt_flags := Some 2; pkt_protocol := Some "tcp";
       pkt_dst_port := Some 22 |} in
  _check_attack_rules self packet_data "SYN_SCAN" = Some None
  /\ _check_attack_rules self packet_data "SSH_BRUTE_FORCE" = Some None
  /\ analyze_packet self packet_data = [].
Proof.
  intros self packet_data.
  destruct (rule_matcher_never_fires self packet_data) as (_ & H2 & H3).
  - apply reach_enable, reach_new.
  - split; [|split; [|exact H3]]; apply H2; vm_compute; eauto.
Defined.

End Matcher.

(** ** The feedback buffer of [ModelServer] *)

Section Feedback.
Import ModelServer.

Lemma label_key_present items :
  is_Some (get "label" items) ->
  existsb (fun kv => String.eqb (fst kv) "label") items = true.
Proof.
  unfold get. induction items as [|[k v] items IH].
  - intros [x Hx]. discriminate.
  - cbn [Py.dict_get existsb fst]. rewrite (String.eqb_sym k "label").
    destruct (String.eqb "label" k); [reflexivity|exact IH].
Qed.

(** C4 (amended).  For every feedback request (a decoded JSON object
    that contains the key ["label"] and carries no truthy ["command"]),
    the server appends the sample to its buffer and responds
    [{"status": "queued"}], whatever the length of the buffer: the buffer
    has no capacity, no [{"error": "queue full"}] response exists on this
    path, and no submission is dropped. *)
Theorem feedback_always_queued (Engine Stats Res : Type)
    (get_statistics : Engine -> option JVal -> option Stats)
    (analyze_packet : Engine -> JVal -> Engine * (Res + string))
    (py_str : JVal -> string)
    (self : ModelServer Engine) (now : string) (payload : JVal) :
  let out :=
    _process_request Engine Stats Res get_statistics analyze_packet py_str
      self now payload in
  labelled payload ->
  command_of payload = None ->
  snd out = Some (Status "queued" None)
  /\ update_buffer (fst out) = update_buffer self ++ [payload]
  /\ length (update_buffer (fst out)) = S (length (update_buffer self))
  /\ ids_engine (fst out) = ids_engine self.
Proof.
  intros out (items & -> & Hlabel) Hcmd. subst out.
  unfold _process_request. rewrite Hcmd.
  cbn [has_label]. rewrite (label_key_present items Hlabel). simpl.
  rewrite length_app. simpl. repeat split. lia.
Qed.

(** C4, as stated, fails for every capacity: a server whose buffer
    already holds that many samples still queues the next one. *)
Lemma bounded_feedback_queue_counterexample :
  ~ exists capacity, bounded_feedback_queue capacity.
Proof.
  intros [capacity H].
  specialize (H unit unit unit (fun _ _ => Some tt) (fun e _ => (e, inl tt))
                (fun _ => "") (loaded_server capacity) "" labelled_sample).
  assert (Hl : labelled labelled_sample).
  { eexists. split; [reflexivity|]. simpl. eauto. }
  assert (Hc : (capacity <= length (update_buffer (loaded_server capacity)))%nat).
  { simpl. rewrite length_replicate. lia. }
  specialize (H Hl Hc). apply (f_equal snd) in H. discriminate H.
Qed.

Lemma feedback_always_queued_witness :
  let out :=
    _process_request unit unit unit (fun _ _ => Some tt) (fun e _ => (e, inl tt))
      (fun _ => "") (loaded_server 1000) "2026-01-01T00:00:00" labelled_sample in
  snd out = Some (Status "queued" None)
  /\ length (update_buffer (fst out)) = 1001%nat.
Proof.
  intros out.
  destruct (feedback_always_queued unit unit unit (fun _ _ => Some tt)
              (fun e _ => (e, inl tt)) (fun _ => "") (loaded_server 1000)
              "2026-01-01T00:00:00" labelled_sample) as (H1 & _ & H3 & _).
  - eexists. split; [reflexivity|]. simpl. eauto.
  - reflexivity.
  - split; [exact H1|]. fold out in H3. rewrite H3.
    vm_compute. reflexivity.
Defined.

End Feedback.

(** ** Alert deduplication: [add_threat_detection] *)

Section Dedup.
Import App.

Lemma purge_keeps_now limit now key (m : gmap string Q) :
  0 <= limit -> purge limit now (<[key := now]> m) !! key = Some now.
Proof.
  intros H. unfold purge. apply map_lookup_filter_Some. split.
  - apply lookup_insert_eq.
  - simpl. apply Qltb_ge.
    assert (E : (now - now == 0)%Q) by ring. rewrite E.
    unfold Qle. simpl. lia.
Qed.

Lemma suppressed_when_recent g now now_iso packet_data result last :
  threat_detected result = true ->
  threat_rate_limiter g !! rate_key_of packet_data result = Some last ->
  (now - last < inject_Z (THREAT_RATE_LIMIT_SECONDS g))%Q ->
  add_threat_detection g now now_iso packet_data (Some result) = (g, None).
Proof.
  intros Ht Hl Hlt. unfold add_threat_detection, rate_limited.
  rewrite Ht, Hl. apply Qltb_lt in Hlt. rewrite Hlt. reflexivity.
Qed.

Lemma emitted_otherwise g now now_iso packet_data result :
  threat_detected result = true ->
  0 <= THREAT_RATE_LIMIT_SECONDS g ->
  rate_limited g (rate_key_of packet_data result) now = false ->
  let out := add_threat_detection g now now_iso packet_data (Some result) in
  is_Some (snd out)
  /\ threat_rate_limiter (fst out) !! rate_key_of packet_data result = Some now
  /\ THREAT_RATE_LIMIT_SECONDS (fst out) = THREAT_RATE_LIMIT_SECONDS g.
Proof.
  intros Ht Hlim Hr out. subst out. unfold add_threat_detection.
  rewrite Ht, Hr. simpl. split; [eauto|]. split; [|reflexivity].
  apply purge_keeps_now, Hlim.
Qed.

Lemma not_rate_limited g key now :
  (threat_rate_limiter g !! key = None
   \/ exists last,
        threat_rate_limiter g !! key = Some last
        /\ (inject_Z (THREAT_RATE_LIMIT_SECONDS g) <= now - last)%Q) ->
  rate_limited g key now = false.
Proof.
  unfold rate_limited. intros [->|(last & -> & H)]; [reflexivity|].
  apply Qltb_ge, H.
Qed.

Lemma key_of_pair packet_data result :
  rate_key_of packet_data result
  = fst (alert_pair packet_data result) +:+ "_"
      +:+ snd (alert_pair packet_data result).
Proof. reflexivity. Qed.

Lemma append_cons (c : ascii) (a s : string) :
  String c a +:+ s = String c (a +:+ s).
Proof. reflexivity. Qed.

Lemma append_nil (s : string) : "" +:+ s = s.
Proof. reflexivity. Qed.

Lemma contains_after_prefix (a s : string) :
  Py.contains "_" (a +:+ String "_" s) = true.
Proof.
  induction a as [|c a IH].
  - rewrite append_nil. destruct s; reflexivity.
  - rewrite append_cons. cbn [Py.contains]. rewrite IH.
    apply Bool.orb_true_r.
Qed.

(** The key determines the pair when the sources have no underscore. *)
Lemma key_injective (a1 a2 s1 s2 : string) :
  no_underscore s1 -> no_underscore s2 ->
  a1 +:+ "_" +:+ s1 = a2 +:+ "_" +:+ s2 -> a1 = a2 /\ s1 = s2.
Proof.
  unfold no_underscore. intros H1 H2.
  rewrite !(append_cons "_" "" _), !append_nil. revert a2.
  induction a1 as [|c a1 IH]; intros [|c2 a2] E;
    rewrite ?append_cons, ?append_nil in E.
  - injection E as ->. split; reflexivity.
  - injection E as _ Es. subst s1.
    rewrite contains_after_prefix in H1. discriminate.
  - injection E as _ Es. subst s2.
    rewrite contains_after_prefix in H2. discriminate.
  - injection E as <- E. destruct (IH a2 E) as [-> ->]. split; reflexivity.
Qed.

(** An emission leaves the rate-limit test of every other key as it
    is, at the time of the emission and later. *)
Lemma emission_frame g now now_iso packet_data result key' t :
  0 <= THREAT_RATE_LIMIT_SECONDS g ->
  key' <> rate_key_of packet_data result ->
  (now <= t)%Q ->
  rate_limited
    (fst (add_threat_detection g now now_iso packet_data (Some result)))
    key' t
  = rate_limited g key' t.
Proof.
  intros Hlim Hne Ht. unfold add_threat_detection.
  destruct (threat_detected result); [|reflexivity].
  destruct (rate_limited g (rate_key_of packet_data result) now);
    [reflexivity|].
  cbn [fst]. unfold rate_limited at 1.
  cbn [threat_rate_limiter THREAT_RATE_LIMIT_SECONDS]. unfold purge.
  destruct (filter _ _ !! key') as [v|] eqn:E.
  - apply map_lookup_filter_Some in E as [E _].
    rewrite lookup_insert_ne in E by congruence.
    unfold rate_limited. rewrite E. reflexivity.
  - apply map_lookup_filter_None in E.
    rewrite lookup_insert_ne in E by congruence.
    unfold rate_limited.
    destruct (threat_rate_limiter g !! key') as [v|] eqn:Ev; [|reflexivity].
    destruct E as [E|E]; [discriminate|].
    specialize (E v eq_refl). cbn [snd] in E.
    apply Bool.not_false_iff_true, Qltb_lt in E.
    symmetry. apply Qltb_ge.
    assert (H2 : (inject_Z (THREAT_RATE_LIMIT_SECONDS g)
                  <= inject_Z (THREAT_RATE_LIMIT_SECONDS g * 2))%Q).
    { rewrite <- Zle_Qle. lia. }
    lra.
Qed.

(** C8 (amended).  The key of an alert is the string
    [attack_type + "_" + source]: alerts of the same (attack type,
    source) pair have the same key, and when the source addresses have
    no underscore (as every IP address) alerts of different pairs have
    different keys.  With a non-negative rate-limit window, a threat
    result whose key has a recorded emission less than the window old is
    suppressed and the whole state, the key's timestamp included, is left
    unchanged; otherwise the current time is recorded for the key and
    the alert is emitted.  Hence, after an emission at [now], a threat
    result of the same pair at a time less than the window later is
    suppressed, and one at a time at least the window later is emitted
    again; and a result whose key is different is tested, at [now] and
    later, as if the emission had not happened. *)
Theorem alert_deduplication g now now_iso packet_data result :
  let key := rate_key_of packet_data result in
  let limit := inject_Z (THREAT_RATE_LIMIT_SECONDS g) in
  let out := add_threat_detection g now now_iso packet_data (Some result) in
  threat_detected result = true ->
  0 <= THREAT_RATE_LIMIT_SECONDS g ->
  (forall packet' result',
     (alert_pair packet' result' = alert_pair packet_data result ->
      rate_key_of packet' result' = key)
     /\ (no_underscore (snd (alert_pair packet' result')) ->
         no_underscore (snd (alert_pair packet_data result)) ->
         rate_key_of packet' result' = key ->
         alert_pair packet' result' = alert_pair packet_data result)
     /\ (rate_key_of packet' result' <> key ->
         forall t, (now <= t)%Q ->
           rate_limited (fst out) (rate_key_of packet' result') t
           = rate_limited g (rate_key_of packet' result') t))
  /\ (forall last,
        threat_rate_limiter g !! key = Some last -> (now - last < limit)%Q ->
        out = (g, None))
  /\ ((threat_rate_limiter g !! key = None
       \/ exists last,
            threat_rate_limiter g !! key = Some last
            /\ (limit <= now - last)%Q) ->
      is_Some (snd out)
      /\ threat_rate_limiter (fst out) !! key = Some now
      /\ (forall packet' result' t2 iso2,
            alert_pair packet' result' = alert_pair packet_data result ->
            threat_detected result' = true ->
            (t2 - now < limit)%Q ->
            add_threat_detection (fst out) t2 iso2 packet' (Some result')
            = (fst out, None))
      /\ (forall packet' result' t3 iso3,
            alert_pair packet' result' = alert_pair packet_data result ->
            threat_detected result' = true ->
            (limit <= t3 - now)%Q ->
            let again :=
              add_threat_detection (fst out) t3 iso3 packet' (Some result') in
            is_Some (snd again)
            /\ threat_rate_limiter (fst again) !! key = Some t3)).
Proof.
  intros key limit out Ht Hlim.
  assert (Hsame : forall packet' result',
             alert_pair packet' result' = alert_pair packet_data result ->
             rate_key_of packet' result' = key).
  { intros packet' result' E. subst key. rewrite !key_of_pair, E.
    reflexivity. }
  split; [|split].
  - intros packet' result'. split; [apply Hsame|]. split.
    + intros H1 H2 E. subst key. rewrite !key_of_pair in E.
      destruct (key_injective _ _ _ _ H1 H2 E) as [Ea Es].
      destruct (alert_pair packet' result'), (alert_pair packet_data result).
      cbn in Ea, Es. subst. reflexivity.
    + intros Hne t Hle. apply emission_frame; assumption.
  - intros last Hl Hlt. eapply suppressed_when_recent; eassumption.
  - intros Hfree. apply not_rate_limited in Hfree.
    destruct (emitted_otherwise g now now_iso packet_data result Ht Hlim Hfree)
      as (He & Hk & Hw).
    fold out key in He, Hk, Hw.
    split; [exact He|]. split; [exact Hk|]. split.
    + intros packet' result' t2 iso2 Hp Ht' H2.
      eapply suppressed_when_recent; [exact Ht'| |].
      * rewrite (Hsame _ _ Hp). exact Hk.
      * rewrite Hw. exact H2.
    + intros packet' result' t3 iso3 Hp Ht' H3 again.
      destruct (emitted_otherwise (fst out) t3 iso3 packet' result' Ht')
        as (He3 & Hk3 & _).
      * rewrite Hw. exact Hlim.
      * apply not_rate_limited. right. exists now.
        rewrite (Hsame _ _ Hp). split; [exact Hk|].
        rewrite Hw. exact H3.
      * rewrite (Hsame _ _ Hp) in Hk3. split; [exact He3|exact Hk3].
Qed.

(** C8, as stated, fails for pairs whose concatenations coincide: after
    an alert for (PORT_SCAN, 10.0.0.7), a threat result for the pair
    (PORT, SCAN_10.0.0.7), for which nothing was ever emitted, is
    suppressed. *)
Lemma alert_deduplication_counterexample :
  ~ deduplicated_per_pair fresh_globals
  /\ alert_pair (packet_from "SCAN_10.0.0.7") port_alert
     <> alert_pair (packet_from "10.0.0.7") port_scan_alert
  /\ snd (add_threat_detection
            (fst (add_threat_detection fresh_globals 100 "t0"
                    (packet_from "10.0.0.7") (Some port_scan_alert)))
            101 "t1" (packet_from "SCAN_10.0.0.7") (Some port_alert))
     = None.
Proof.
  assert (Hne : alert_pair (packet_from "SCAN_10.0.0.7") port_alert
                <> alert_pair (packet_from "10.0.0.7") port_scan_alert)
    by discriminate.
  split; [|split; [exact Hne|vm_compute; reflexivity]].
  intros H.
  specialize (H 100%Q "t0" (packet_from "10.0.0.7") port_scan_alert
                101%Q "t1" (packet_from "SCAN_10.0.0.7") port_alert
                eq_refl eq_refl Hne).
  vm_compute in H. destruct H as [x Hx]. discriminate Hx.
Qed.

Lemma alert_deduplication_witness :
  let first := add_threat_detection fresh_globals 100 "t0" dos_packet (Some dos_alert) in
  is_Some (snd first)
  /\ add_threat_detection (fst first) 103 "t1" dos_packet (Some dos_alert)
     = (fst first, None)
  /\ is_Some (snd (add_threat_detection (fst first) 105 "t2" dos_packet
                     (Some dos_alert))).
Proof.
  intros first.
  destruct (alert_deduplication fresh_globals 100 "t0" dos_packet dos_alert)
    as (_ & _ & H).
  - reflexivity.
  - simpl. lia.
  - destruct H as (H1 & _ & H3 & H4); [left; apply lookup_empty|].
    split; [exact H1|]. split.
    + apply (H3 dos_packet dos_alert); reflexivity.
    + apply (H4 dos_packet dos_alert 105%Q "t2"); [reflexivity..|].
      vm_compute. discriminate.
Defined.

End Dedup.

(** * Further properties *)

(** ** Reports of [detect_port_scan] *)

Ltac list_mem :=
  repeat first [apply list_elem_of_here | apply list_elem_of_further].

Ltac split_minmax :=
  repeat match goal with
         | |- context [Qmax ?a ?b] =>
           let H1 := fresh in let H2 := fresh in
           destruct (Q.max_spec a b) as [[H1 H2]|[H1 H2]]; rewrite !H2 in *
         | |- context [Qmin ?a ?b] =>
           let H1 := fresh in let H2 := fresh in
           destruct (Q.min_spec a b) as [[H1 H2]|[H1 H2]]; rewrite !H2 in *
         end.

Section Reports.
Import PortScan.

Lemma reported_type_truthy s : s ∈ reported_types -> Py.truthy s = true.
Proof.
  unfold reported_types. rewrite !elem_of_cons, elem_of_nil.
  intros H. repeat (destruct H as [->|H]; [reflexivity|]). destruct H.
Qed.

(** The formula of pattern 1 saturates: with a positive threshold its
    value is 0.95 whenever the pattern fires. *)
Lemma vertical_confidence (threshold : Z) (unique_ports : nat) :
  0 < threshold -> threshold <= Z.of_nat unique_ports ->
  (Qmin 0.95 (0.5 + (Py.Qnat unique_ports / inject_Z threshold) * 0.45)
   == 0.95)%Q.
Proof.
  intros Hpos Hle. apply Q.min_l.
  assert (H : (1 <= Py.Qnat unique_ports / inject_Z threshold)%Q).
  { apply Qle_shift_div_l.
    - change 0%Q with (inject_Z 0). rewrite <- Zlt_Qlt. exact Hpos.
    - rewrite Qmult_1_l. unfold Py.Qnat. rewrite <- Zle_Qle. exact Hle. }
  lra.
Qed.

Lemma stealth_subtype (fl : list string) :
  (0 < count_in stealth_flags fl)%nat ->
  _identify_stealth_scan_type fl ∈ ["FIN_SCAN"; "NULL_SCAN"; "XMAS_SCAN"].
Proof.
  unfold _identify_stealth_scan_type.
  destruct (Py.in_list "F" fl || Py.in_list "FIN" fl) eqn:E1;
    [intros _; list_mem|].
  destruct (Py.in_list "NULL" fl) eqn:E2; [intros _; list_mem|].
  destruct (existsb _ fl) eqn:E3; [intros _; list_mem|].
  intros H. exfalso.
  apply Bool.orb_false_iff in E1 as [E1 E1'].
  induction fl as [|f fl IH]; [unfold count_in in H; simpl in H; lia|].
  unfold Py.in_list in *. cbn [existsb] in E1, E1', E2, E3.
  apply Bool.orb_false_iff in E1 as [A1 B1].
  apply Bool.orb_false_iff in E1' as [A2 B2].
  apply Bool.orb_false_iff in E2 as [A3 B3].
  apply Bool.orb_false_iff in E3 as [A4 B4].
  apply Bool.orb_false_iff in A4 as [A4 A5].
  unfold count_in in H. cbn [List.filter] in H.
  destruct (Py.in_list f stealth_flags) eqn:Ef.
  - unfold Py.in_list, stealth_flags in Ef. cbn [existsb] in Ef.
    rewrite (String.eqb_sym f "F"), A1 in Ef.
    rewrite (String.eqb_sym f "FIN"), A2 in Ef.
    rewrite (String.eqb_sym f "NULL"), A3 in Ef.
    cbn [orb] in Ef.
    apply Bool.orb_true_iff in Ef as [Ef|Ef].
    + apply String.eqb_eq in Ef. subst f. discriminate A5.
    + apply Bool.orb_true_iff in Ef as [Ef|Ef]; [|discriminate].
      apply String.eqb_eq in Ef. subst f. discriminate A4.
  - apply IH; assumption.
Qed.

Lemma verdict0_shape : verdict_shape verdict0.
Proof. split; [discriminate|split; reflexivity]. Qed.

Lemma pattern1_shape threshold d v v' :
  0 < threshold -> verdict_shape v -> pattern1 threshold d v = Some v' ->
  verdict_shape v'.
Proof.
  intros Hpos Hv. unfold pattern1.
  destruct (threshold <=? _) eqn:E; [|intros [= <-]; exact Hv].
  destruct (threshold =? 0); [discriminate|]. intros [= <-].
  apply Z.leb_le in E.
  pose proof (vertical_confidence threshold (size (ports d)) Hpos E) as Hc.
  unfold verdict_shape. cbn [scan_detected scan_type confidence severity].
  rewrite Hc. split; [lra|]. split; [eexists; split; [reflexivity|list_mem]|].
  split; [lra|right; left; reflexivity].
Qed.

Lemma shape_confidence v : verdict_shape v -> (0 <= confidence v <= 0.98)%Q.
Proof.
  intros [Hle H]. split; [|exact Hle].
  destruct (scan_detected v).
  - destruct H as (_ & H & _). lra.
  - destruct H as [_ ->]. discriminate.
Qed.

Lemma pattern2_shape d v : verdict_shape v -> verdict_shape (pattern2 d v).
Proof.
  intros Hv. pose proof (shape_confidence v Hv) as [_ Hle]. unfold pattern2.
  destruct (Py.Qltb 5.0 (rate_of d)) eqn:E; [|exact Hv].
  apply Qltb_lt in E.
  unfold verdict_shape. cbn [scan_detected scan_type confidence severity].
  assert (Hin : (0.79 < Qmin 0.98 (0.6 + rate_of d / 10 * 0.38) <= 0.98)%Q).
  { unfold Qdiv. change (/ 10)%Q with (1 # 10)%Q. split_minmax; lra. }
  split; [split_minmax; lra|]. split; [|split; [split_minmax; lra|right; left; reflexivity]].
  destruct Hv as [_ Hv]. destruct (scan_detected v).
  - destruct Hv as ((s & -> & Hs) & _). rewrite (reported_type_truthy s Hs).
    eauto.
  - destruct Hv as [-> _]. eexists. split; [reflexivity|list_mem].
Qed.

Lemma fired_shape v (s : string) (c : Q) (sev : Severity) ds :
  verdict_shape v -> s ∈ reported_types -> (0.79 < c <= 0.98)%Q ->
  alarming sev ->
  verdict_shape
    {| scan_detected := true; scan_type := Some s;
       confidence := Qmax (confidence v) c; severity := sev; details := ds |}.
Proof.
  intros Hv Hs Hc Hsev. pose proof (shape_confidence v Hv) as [_ Hle].
  unfold verdict_shape. cbn [scan_detected scan_type confidence severity].
  split; [split_minmax; lra|]. split; [eauto|]. split; [split_minmax; lra|exact Hsev].
Qed.

Lemma pattern3_shape d v : verdict_shape v -> verdict_shape (pattern3 d v).
Proof.
  intros Hv. unfold pattern3. destruct (_detect_sequential_ports _); [|exact Hv].
  apply fired_shape; [exact Hv|list_mem|lra|right; left; reflexivity].
Qed.

Lemma pattern4_shape d v : verdict_shape v -> verdict_shape (pattern4 d v).
Proof.
  intros Hv. unfold pattern4. destruct (_ && _); [|exact Hv].
  apply fired_shape; [exact Hv|list_mem|lra|right; left; reflexivity].
Qed.

Lemma pattern5_shape d v : verdict_shape v -> verdict_shape (pattern5 d v).
Proof.
  intros Hv. unfold pattern5. destruct (3 <? _)%nat eqn:E; [|exact Hv].
  apply Nat.ltb_lt in E.
  apply fired_shape; [exact Hv| |lra|right; right; reflexivity].
  assert (H : _identify_stealth_scan_type (flag_labels d)
              ∈ ["FIN_SCAN"; "NULL_SCAN"; "XMAS_SCAN"])
    by (apply stealth_subtype; lia).
  unfold reported_types. rewrite !elem_of_cons in *. tauto.
Qed.

Lemma pattern6_shape d v : verdict_shape v -> verdict_shape (pattern6 d v).
Proof.
  intros Hv. unfold pattern6. destruct (_ && _); [|exact Hv].
  apply fired_shape; [exact Hv|list_mem|lra|left; reflexivity].
Qed.

Lemma pattern7_shape d v : verdict_shape v -> verdict_shape (pattern7 d v).
Proof.
  intros Hv. unfold pattern7. destruct (15 <? _)%nat; [|exact Hv].
  destruct Hv as [Hle Hv]. split; [exact Hle|].
  cbn [scan_detected scan_type confidence severity].
  destruct (scan_detected v); [|exact Hv].
  destruct Hv as (H1 & H2 & _). split; [exact H1|].
  split; [exact H2|right; right; reflexivity].
Qed.

Lemma patterns_shape threshold d v :
  0 < threshold -> pattern1 threshold d verdict0 = Some v ->
  verdict_shape (patterns_2_7 d v).
Proof.
  intros Hpos H1. unfold patterns_2_7.
  apply pattern7_shape, pattern6_shape, pattern5_shape, pattern4_shape,
    pattern3_shape, pattern2_shape.
  eapply pattern1_shape; [exact Hpos|apply verdict0_shape|exact H1].
Qed.

End Reports.

Section ReportTheorems.
Import PortScan.

Lemma reported_type_action s :
  s ∈ reported_types -> is_Some (Py.dict_get s mitigation_actions).
Proof.
  unfold reported_types. rewrite !elem_of_cons, elem_of_nil.
  intros H. repeat (destruct H as [->|H]; [vm_compute; eauto|]). destruct H.
Qed.

Lemma detect_returns self now packet :
  threshold_ports self <> 0 ->
  let feat := extract_port_scan_features now packet in
  let d := tracked (fst (detect_port_scan self now packet)) (f_srcip feat) in
  exists v,
    pattern1 (threshold_ports self) d verdict0 = Some v
    /\ snd (detect_port_scan self now packet)
       = Some (build_result feat d (patterns_2_7 d v)).
Proof.
  intros Hthr feat d.
  assert (Ed : d = observed self feat).
  { subst d. tracked_after self now packet E. exact E. }
  destruct (pattern1_returns (threshold_ports self) d verdict0 Hthr) as [v Hv].
  exists v. split; [exact Hv|].
  pose proof (detect_report self now packet) as E. cbv zeta in E.
  fold feat in E. rewrite <- Ed, Hv in E. exact E.
Qed.

(** X1.  With a positive port threshold every call returns a report, and
    the report names its finding consistently: without a detection the
    attack type is "Normal" and no action is recommended; with a
    detection the attack type is one of the eight scan types that the
    checks assign (never "STEALTH_SCAN" or "HORIZONTAL_SCAN") and the
    recommended action is that type's entry of the mitigation table,
    never the default text. *)
Theorem report_attack_types self now packet :
  0 < threshold_ports self ->
  exists r,
    snd (detect_port_scan self now packet) = Some r
    /\ if threat_detected r
       then exists s a,
              attack_type r = Some s /\ s ∈ reported_types
              /\ Py.dict_get s mitigation_actions = Some a
              /\ recommended_action r = Some a
       else attack_type r = Some "Normal" /\ recommended_action r = None.
Proof.
  intros Hpos.
  destruct (detect_returns self now packet) as (v & Hv & Hr); [lia|].
  eexists. split; [exact Hr|].
  pose proof (patterns_shape _ _ _ Hpos Hv) as [_ Hs].
  unfold build_result. cbn [threat_detected attack_type recommended_action].
  destruct (scan_detected (patterns_2_7 _ v)); [|split; reflexivity].
  destruct Hs as ((s & Hs & Hin) & _).
  destruct (reported_type_action s Hin) as [a Ha].
  exists s, a. rewrite Hs. split; [reflexivity|]. split; [exact Hin|].
  split; [exact Ha|].
  change (Some (default "Block source IP and investigate further."
                  (Py.dict_get s mitigation_actions)) = Some a).
  rewrite Ha. reflexivity.
Qed.

(** X2.  With a positive port threshold every report's confidence is at
    most 0.98; it is exactly 0 with severity NONE when nothing is
    detected, and above 0.79 with severity MEDIUM, HIGH or CRITICAL when
    a scan is detected. *)
Theorem report_confidence_bounds self now packet :
  0 < threshold_ports self ->
  exists r,
    snd (detect_port_scan self now packet) = Some r
    /\ (r_confidence r <= 0.98)%Q
    /\ if threat_detected r
       then (0.79 < r_confidence r)%Q /\ alarming (r_severity r)
       else r_confidence r = 0.0%Q /\ r_severity r = NONE.
Proof.
  intros Hpos.
  destruct (detect_returns self now packet) as (v & Hv & Hr); [lia|].
  eexists. split; [exact Hr|].
  pose proof (patterns_shape _ _ _ Hpos Hv) as [Hle Hs].
  unfold build_result. cbn [threat_detected r_confidence r_severity].
  split; [exact Hle|].
  destruct (scan_detected (patterns_2_7 _ v)).
  - destruct Hs as (_ & H1 & H2). split; assumption.
  - destruct Hs as [_ H]. split; [exact H|reflexivity].
Qed.

Lemma report_attack_types_witness :
  let self :=
    feed default_detector
      (map (fun p => (0, probe "10.0.0.7" p (Some (FlagsInt 2)) None 0))
           [21; 22; 23; 25; 80; 110; 143]) in
  exists r,
    snd (detect_port_scan self 0 (probe "10.0.0.7" 443 (Some (FlagsInt 2)) None 0))
      = Some r
    /\ attack_type r = Some "SYN_SCAN"
    /\ is_Some (recommended_action r).
Proof.
  intros self.
  destruct (report_attack_types self 0
              (probe "10.0.0.7" 443 (Some (FlagsInt 2)) None 0))
    as (r & Hr & H); [vm_compute; reflexivity|].
  exists r. split; [exact Hr|].
  assert (E : snd (detect_port_scan self 0
                     (probe "10.0.0.7" 443 (Some (FlagsInt 2)) None 0))
              = Some r) by exact Hr.
  vm_compute in E. injection E as <-. split; [reflexivity|eauto].
Defined.

Lemma report_confidence_bounds_witness :
  exists r,
    snd (detect_port_scan default_detector 0
           (probe "10.0.0.7" 443 (Some (FlagsInt 16)) None 0)) = Some r
    /\ threat_detected r = false
    /\ r_confidence r = 0.0%Q
    /\ r_severity r = NONE.
Proof.
  destruct (report_confidence_bounds default_detector 0
              (probe "10.0.0.7" 443 (Some (FlagsInt 16)) None 0))
    as (r & Hr & _ & H); [reflexivity|].
  exists r. split; [exact Hr|].
  assert (Ht : threat_detected r = false).
  { vm_compute in Hr. injection Hr as <-. reflexivity. }
  rewrite Ht in H. tauto.
Defined.

End ReportTheorems.

(** ** What the tracker keeps *)

Section Tracker.
Import PortScan.

Lemma clean_ports window now d : ports (clean_ip_data window now d) = ports d.
Proof.
  unfold clean_ip_data. destruct (pop_old _ _ _ _) as [[ts fl] pr]. reflexivity.
Qed.

Lemma observed_ports self feat :
  ports (observed self feat)
    = ports (tracked self (f_srcip feat)) ∪ {[f_dst_port feat]}.
Proof. unfold observed. rewrite clean_ports. reflexivity. Qed.

Lemma detect_other_source self now packet ip :
  ip <> f_srcip (extract_port_scan_features now packet) ->
  tracked (fst (detect_port_scan self now packet)) ip = tracked self ip.
Proof.
  intros Hne. unfold tracked at 1.
  rewrite (detect_tracking self now packet).
  rewrite lookup_insert_ne by congruence. reflexivity.
Qed.

Lemma detect_ports_mono self now packet ip :
  ports (tracked self ip)
    ⊆ ports (tracked (fst (detect_port_scan self now packet)) ip).
Proof.
  set (feat := extract_port_scan_features now packet).
  destruct (decide (ip = f_srcip feat)) as [->|Hne].
  - tracked_after self now packet E. fold feat in E. rewrite E.
    rewrite observed_ports. apply union_subseteq_l.
  - rewrite detect_other_source by exact Hne. reflexivity.
Qed.

Lemma feed_ports_mono calls : forall self ip,
  ports (tracked self ip) ⊆ ports (tracked (feed self calls) ip).
Proof.
  induction calls as [|c calls IH]; intros self ip; [reflexivity|].
  rewrite feed_cons. etrans; [apply detect_ports_mono|apply IH].
Qed.

Lemma pattern_keeps_detected d v :
  scan_detected v = true ->
  scan_detected (pattern2 d v) = true
  /\ scan_detected (pattern3 d v) = true
  /\ scan_detected (pattern4 d v) = true
  /\ scan_detected (pattern5 d v) = true
  /\ scan_detected (pattern6 d v) = true
  /\ scan_detected (pattern7 d v) = true.
Proof.
  intros H. unfold pattern2, pattern3, pattern4, pattern5, pattern6, pattern7.
  repeat split;
    match goal with
    | |- context [if ?b then _ else _] => destruct b
    end; simpl; auto.
Qed.

Lemma pattern_raises_confidence d v :
  (confidence v <= confidence (pattern2 d v))%Q
  /\ (confidence v <= confidence (pattern3 d v))%Q
  /\ (confidence v <= confidence (pattern4 d v))%Q
  /\ (confidence v <= confidence (pattern5 d v))%Q
  /\ (confidence v <= confidence (pattern6 d v))%Q
  /\ (confidence v <= confidence (pattern7 d v))%Q.
Proof.
  unfold pattern2, pattern3, pattern4, pattern5, pattern6, pattern7.
  repeat split;
    match goal with
    | |- context [if ?b then _ else _] => destruct b
    end; simpl; try apply Q.le_max_l; apply Qle_refl.
Qed.

(** Patterns 2 to 7 never withdraw a detection and never lower the
    confidence. *)
Lemma patterns_monotone d v :
  (scan_detected v = true -> scan_detected (patterns_2_7 d v) = true)
  /\ (confidence v <= confidence (patterns_2_7 d v))%Q.
Proof.
  unfold patterns_2_7.
  set (v2 := pattern2 d v). set (v3 := pattern3 d v2).
  set (v4 := pattern4 d v3). set (v5 := pattern5 d v4).
  set (v6 := pattern6 d v5).
  split.
  - intros H.
    destruct (pattern_keeps_detected d v H) as (B2 & _). fold v2 in B2.
    destruct (pattern_keeps_detected d v2 B2) as (_ & B3 & _). fold v3 in B3.
    destruct (pattern_keeps_detected d v3 B3) as (_ & _ & B4 & _).
    fold v4 in B4.
    destruct (pattern_keeps_detected d v4 B4) as (_ & _ & _ & B5 & _).
    fold v5 in B5.
    destruct (pattern_keeps_detected d v5 B5) as (_ & _ & _ & _ & B6 & _).
    fold v6 in B6.
    apply (pattern_keeps_detected d v6 B6).
  - destruct (pattern_raises_confidence d v) as (A2 & _).
    destruct (pattern_raises_confidence d v2) as (_ & A3 & _).
    destruct (pattern_raises_confidence d v3) as (_ & _ & A4 & _).
    destruct (pattern_raises_confidence d v4) as (_ & _ & _ & A5 & _).
    destruct (pattern_raises_confidence d v5) as (_ & _ & _ & _ & A6 & _).
    destruct (pattern_raises_confidence d v6) as (_ & _ & _ & _ & _ & A7).
    fold v2 in A2. fold v3 in A3. fold v4 in A4. fold v5 in A5. fold v6 in A6.
    lra.
Qed.

Lemma pattern1_fires threshold d :
  0 < threshold -> threshold <= Z.of_nat (size (ports d)) ->
  exists v,
    pattern1 threshold d verdict0 = Some v
    /\ scan_detected v = true /\ (confidence v == 0.95)%Q.
Proof.
  intros Hpos Hle. unfold pattern1.
  apply Z.leb_le in Hle as Hb. rewrite Hb.
  destruct (threshold =? 0) eqn:E; [lia|].
  eexists. split; [reflexivity|]. split; [reflexivity|].
  apply vertical_confidence; assumption.
Qed.

(** X3.  The port set of a source only grows: once a source has touched
    at least [threshold_ports] distinct ports (threshold positive), every
    later observation from it, after any further traffic and however
    long after, is reported as a threat with confidence at least 0.95. *)
Theorem vertical_scan_is_sticky self ip calls now packet :
  0 < threshold_ports self ->
  threshold_ports self <= Z.of_nat (size (ports (tracked self ip))) ->
  f_srcip (extract_port_scan_features now packet) = ip ->
  exists r,
    snd (detect_port_scan (feed self calls) now packet) = Some r
    /\ threat_detected r = true
    /\ (0.95 <= r_confidence r)%Q
    /\ (size (ports (tracked self ip)) <= unique_ports_accessed r)%nat.
Proof.
  intros Hpos Hthr Hip.
  set (self' := feed self calls).
  set (feat := extract_port_scan_features now packet) in *.
  set (d := tracked (fst (detect_port_scan self' now packet)) (f_srcip feat)).
  assert (Hsub : ports (tracked self ip) ⊆ ports d).
  { subst d. rewrite Hip. etrans; [apply (feed_ports_mono calls)|].
    apply detect_ports_mono. }
  apply subseteq_size in Hsub.
  assert (Ht : threshold_ports self' = threshold_ports self)
    by apply feed_threshold_ports.
  destruct (detect_returns self' now packet) as (v & Hv & Hr); [lia|].
  fold feat d in Hv, Hr.
  destruct (pattern1_fires (threshold_ports self') d) as (v' & Hv' & Hd & Hc);
    [lia|lia|].
  rewrite Hv in Hv'. injection Hv' as <-.
  destruct (patterns_monotone d v) as [Hk Hm].
  eexists. split; [exact Hr|]. unfold build_result.
  cbn [threat_detected r_confidence unique_ports_accessed].
  split; [apply Hk, Hd|]. split; [|exact Hsub].
  rewrite <- Hc. exact Hm.
Qed.

Lemma vertical_scan_is_sticky_witness :
  let self :=
    feed default_detector
      (map (fun p => (0, probe "10.0.0.7" p (Some (FlagsInt 16)) None 0))
           [80; 443; 8080; 22; 3306; 5432; 6379; 9200; 27017; 11211]) in
  exists r,
    snd (detect_port_scan self 0
           (probe "10.0.0.7" 80 (Some (FlagsInt 16)) None 86400)) = Some r
    /\ threat_detected r = true
    /\ total_connections r = 1%nat.
Proof.
  intros self.
  destruct (vertical_scan_is_sticky self "10.0.0.7" [] 0
              (probe "10.0.0.7" 80 (Some (FlagsInt 16)) None 86400))
    as (r & Hr & Ht & _).
  - reflexivity.
  - vm_compute. discriminate.
  - reflexivity.
  - exists r. split; [exact Hr|]. split; [exact Ht|].
    change (feed self []) with self in Hr.
    vm_compute in Hr. injection Hr as <-. reflexivity.
Defined.

(** X4.  A call only touches the entry of the packet's source: the
    entries of all other sources and the detector's settings are left as
    they were. *)
Theorem detect_port_scan_isolation self now packet ip :
  let self' := fst (detect_port_scan self now packet) in
  ip <> f_srcip (extract_port_scan_features now packet) ->
  ip_tracking self' !! ip = ip_tracking self !! ip
  /\ window_size self' = window_size self
  /\ threshold_ports self' = threshold_ports self
  /\ threshold_connections self' = threshold_connections self.
Proof.
  intros self' Hne. subst self'. split; [|repeat split].
  rewrite (detect_tracking self now packet).
  apply lookup_insert_ne. congruence.
Qed.

Lemma detect_port_scan_isolation_witness :
  let self :=
    feed default_detector [(0, probe "10.0.0.8" 22 (Some (FlagsInt 2)) None 0)] in
  ip_tracking
    (fst (detect_port_scan self 0 (probe "10.0.0.7" 80 None None 5)))
    !! "10.0.0.8"
  = ip_tracking self !! "10.0.0.8".
Proof.
  intros self.
  apply (detect_port_scan_isolation self 0 (probe "10.0.0.7" 80 None None 5)).
  discriminate.
Defined.

Lemma pop_old_snoc cutoff ts t fl pr :
  cutoff <= t ->
  exists older,
    older `suffix_of` ts
    /\ fst (fst (pop_old cutoff (ts ++ [t]) fl pr)) = older ++ [t].
Proof.
  intros Hle. revert fl pr. induction ts as [|a ts IH]; intros fl pr.
  - exists []. split; [reflexivity|]. simpl.
    destruct (t <? cutoff) eqn:E; [lia|reflexivity].
  - simpl. destruct (a <? cutoff).
    + destruct (IH (tail fl) (tail pr)) as (older & Hs & E).
      exists older. split; [apply suffix_cons_r, Hs|exact E].
    + exists (a :: ts). split; reflexivity.
Qed.

(** X5.  With a non-negative window the new observation itself is never
    evicted: the retained timestamps are a suffix of the previously
    retained ones followed by the new timestamp, so a snapshot counts at
    least one connection. *)
Theorem newest_observation_retained self now packet :
  let feat := extract_port_scan_features now packet in
  0 <= window_size self ->
  exists older,
    older `suffix_of` timestamps (tracked self (f_srcip feat))
    /\ retained self now packet = older ++ [f_timestamp feat].
Proof.
  intros feat Hw. unfold retained. fold feat.
  tracked_after self now packet E. fold feat in E. rewrite E.
  unfold observed. rewrite clean_timestamps.
  apply pop_old_snoc. lia.
Qed.

Lemma newest_observation_retained_witness :
  let self :=
    feed default_detector [(0, probe "10.0.0.7" 22 None None 500)] in
  exists older,
    retained self 0 (probe "10.0.0.7" 80 None None 0) = older ++ [0].
Proof.
  intros self.
  destruct (newest_observation_retained self 0
              (probe "10.0.0.7" 80 None None 0)) as (older & _ & H).
  - vm_compute. discriminate.
  - exists older. exact H.
Defined.

End Tracker.

(** ** Escalation, errors, rates and statistics *)

Section Metrics.
Import PortScan.

Lemma well_known_le_size (ps : gset Z) : (well_known ps <= size ps)%nat.
Proof. unfold well_known. apply filter_length_le. Qed.

(** X6.  With a port threshold between 1 and 16 (10 by default), a
    source that has touched more than 15 well-known ports is always
    reported as a threat of severity CRITICAL, whatever its flags,
    protocols and rates. *)
Theorem well_known_escalation self now packet :
  let feat := extract_port_scan_features now packet in
  let d := tracked (fst (detect_port_scan self now packet)) (f_srcip feat) in
  0 < threshold_ports self <= 16 ->
  (15 < well_known (ports d))%nat ->
  exists r,
    snd (detect_port_scan self now packet) = Some r
    /\ threat_detected r = true
    /\ r_severity r = CRITICAL.
Proof.
  intros feat d Hthr Hwk.
  pose proof (well_known_le_size (ports d)) as Hsz.
  destruct (detect_returns self now packet) as (v & Hv & Hr); [lia|].
  fold feat d in Hv, Hr.
  destruct (pattern1_fires (threshold_ports self) d) as (v' & Hv' & Hd & _);
    [lia|lia|].
  rewrite Hv in Hv'. injection Hv' as <-.
  destruct (patterns_monotone d v) as [Hk _].
  eexists. split; [exact Hr|]. unfold build_result.
  cbn [threat_detected r_severity]. rewrite (Hk Hd).
  split; [reflexivity|]. unfold patterns_2_7.
  destruct (pattern7_keeps d
              (pattern6 d (pattern5 d (pattern4 d (pattern3 d (pattern2 d v))))))
    as (_ & _ & _ & K).
  rewrite K. apply Nat.ltb_lt in Hwk. rewrite Hwk. reflexivity.
Qed.

Lemma well_known_escalation_witness :
  let self :=
    feed default_detector
      (map (fun p => (0, probe "10.0.0.7" (Z.of_nat p) (Some (FlagsInt 16))
                           (Some "udp") (Z.of_nat p * 100)))
           (seq 1 15)) in
  exists r,
    snd (detect_port_scan self 0
           (probe "10.0.0.7" 1000 (Some (FlagsInt 16)) (Some "udp") 1600))
      = Some r
    /\ threat_detected r = true
    /\ r_severity r = CRITICAL.
Proof.
  intros self.
  apply (well_known_escalation self 0
           (probe "10.0.0.7" 1000 (Some (FlagsInt 16)) (Some "udp") 1600)).
  - vm_compute. split; [reflexivity|discriminate].
  - vm_compute. lia.
Defined.

(** X7.  With [threshold_ports = 0] every call raises (the division
    [unique_ports / threshold_ports] is reached on every packet), yet the
    observation has already been recorded: its port is in the source's
    port set. *)
Theorem zero_threshold_raises self now packet :
  let feat := extract_port_scan_features now packet in
  threshold_ports self = 0 ->
  snd (detect_port_scan self now packet) = None
  /\ f_dst_port feat
     ∈ ports (tracked (fst (detect_port_scan self now packet)) (f_srcip feat)).
Proof.
  intros feat Hz. split.
  - pose proof (detect_report self now packet) as E. cbv zeta in E.
    fold feat in E. rewrite E, Hz. unfold pattern1.
    destruct (Z.leb_spec 0 (Z.of_nat (size (ports (observed self feat)))));
      [reflexivity|lia].
  - tracked_after self now packet E. fold feat in E. rewrite E.
    rewrite observed_ports. apply elem_of_union_r, elem_of_singleton.
    reflexivity.
Qed.

Lemma zero_threshold_raises_witness :
  snd (detect_port_scan (init 60 0 20) 0 (probe "10.0.0.7" 80 None None 0))
  = None.
Proof.
  apply (zero_threshold_raises (init 60 0 20) 0
           (probe "10.0.0.7" 80 None None 0)).
  reflexivity.
Defined.

Lemma Qnat_nonneg n : (0 <= Py.Qnat n)%Q.
Proof.
  unfold Py.Qnat. change 0%Q with (inject_Z 0). rewrite <- Zle_Qle. lia.
Qed.

Lemma rate_bounds d :
  (0 <= rate_of d <= Py.Qnat (length (timestamps d)))%Q.
Proof.
  unfold rate_of. pose proof (Qnat_nonneg (length (timestamps d))) as Hn.
  assert (Hm : (1 <= Qmax (time_window_of d) 1)%Q) by apply Q.le_max_r.
  set (n := Py.Qnat _) in *. set (m := Qmax _ _) in *. split.
  - apply Qle_shift_div_l; lra.
  - apply Qle_shift_div_r; [lra|]. nra.
Qed.

(** X8.  The connection rate of a report is never negative and never
    exceeds the number of retained connections (the span is floored at
    one second); so the rapid-scan threshold of more than 5 per second
    needs at least 6 retained connections. *)
Theorem connection_rate_bounds self now packet :
  threshold_ports self <> 0 ->
  exists r,
    snd (detect_port_scan self now packet) = Some r
    /\ (0 <= connection_rate r <= Py.Qnat (total_connections r))%Q
    /\ ((5 < connection_rate r)%Q -> (6 <= total_connections r)%nat).
Proof.
  intros Hthr.
  destruct (detect_returns self now packet) as (v & _ & Hr); [exact Hthr|].
  eexists. split; [exact Hr|]. unfold build_result.
  cbn [connection_rate total_connections].
  set (d := tracked _ _).
  pose proof (rate_bounds d) as [H0 H1]. split; [split; assumption|].
  intros H5.
  assert (H : (5 < Py.Qnat (length (timestamps d)))%Q) by lra.
  unfold Py.Qnat in H. change 5%Q with (inject_Z 5) in H.
  rewrite <- Zlt_Qlt in H. lia.
Qed.

Lemma connection_rate_bounds_witness :
  exists r,
    snd (detect_port_scan default_detector 0 (probe "10.0.0.7" 80 None None 0))
      = Some r
    /\ (connection_rate r <= Py.Qnat (total_connections r))%Q.
Proof.
  destruct (connection_rate_bounds default_detector 0
              (probe "10.0.0.7" 80 None None 0)) as (r & Hr & [_ H] & _).
  - discriminate.
  - exists r. split; assumption.
Defined.

Lemma Sorted_take (n : nat) (l : list Z) :
  Sorted Z.le l -> Sorted Z.le (take n l).
Proof.
  revert n. induction l as [|a l IH]; intros [|n] H; simpl; try constructor.
  - apply IH. inversion H; assumption.
  - inversion H as [|? ? _ Hd]; subst.
    destruct l as [|b l], n as [|n]; simpl; constructor.
    inversion Hd; assumption.
Qed.

Lemma sorted_take_below_drop (n : nat) (l : list Z) :
  StronglySorted Z.le l ->
  forall p q, p ∈ take n l -> q ∈ drop n l -> p <= q.
Proof.
  intros Hs. revert n. induction Hs as [|a l Hs IH Hall]; intros n p q Hp Hq.
  - destruct n; cbn in Hp; inversion Hp.
  - destruct n as [|n]; cbn [take drop] in Hp, Hq; [inversion Hp|].
    apply elem_of_cons in Hp as [->|Hp].
    + rewrite Forall_forall in Hall. apply Hall.
      eapply elem_of_sublist; [exact Hq|apply sublist_drop].
    + eapply IH; eassumption.
Qed.

(** X9.  After a call that returns a report, [get_statistics] for the
    packet's (non-empty) source address agrees with that report on the
    number of unique ports and of retained connections (and on the span,
    which it gives as 0 where the report gives 1 for a single
    connection), and lists the source's lowest ports in ascending order:
    min(20, unique ports) of them, all of them ports the source has
    touched, and none above a port of the source that is not listed. *)
Theorem statistics_match_report self now packet :
  let feat := extract_port_scan_features now packet in
  let self' := fst (detect_port_scan self now packet) in
  threshold_ports self <> 0 ->
  Py.truthy (f_srcip feat) = true ->
  exists r active_window ports_accessed,
    snd (detect_port_scan self now packet) = Some r
    /\ get_statistics self' (Some (f_srcip feat))
       = IpStats (f_srcip feat) (unique_ports_accessed r)
           (total_connections r) active_window ports_accessed
    /\ active_window
       = (if (1 <? total_connections r)%nat then time_window r else 0.0%Q)
    /\ Sorted Z.le ports_accessed
    /\ length ports_accessed = Nat.min 20 (unique_ports_accessed r)
    /\ (forall p, p ∈ ports_accessed ->
                  p ∈ ports (tracked self' (f_srcip feat)))
    /\ (forall p q,
          p ∈ ports_accessed ->
          q ∈ ports (tracked self' (f_srcip feat)) ->
          q ∉ ports_accessed ->
          p <= q).
Proof.
  intros feat self' Hthr Hip.
  destruct (detect_returns self now packet) as (v & _ & Hr); [exact Hthr|].
  fold feat self' in Hr.
  assert (Hl : ip_tracking self' !! f_srcip feat
               = Some (tracked self' (f_srcip feat))).
  { unfold tracked, self'. rewrite (detect_tracking self now packet).
    fold feat. rewrite lookup_insert_eq. reflexivity. }
  set (d := tracked self' (f_srcip feat)) in *.
  eexists. eexists. eexists. split; [exact Hr|]. split.
  - unfold get_statistics. rewrite Hip, Hl. reflexivity.
  - split.
    { unfold build_result, time_window_of.
      cbn [total_connections time_window].
      destruct (1 <? length (timestamps d))%nat; reflexivity. }
    split; [apply Sorted_take, Sorted_merge_sort; apply _|]. split.
    + rewrite length_take. unfold build_result.
      cbn [unique_ports_accessed]. rewrite sorted_length. reflexivity.
    + split.
      * intros p Hp. apply elem_of_elements.
        eapply elem_of_sublist in Hp; [|apply sublist_take].
        unfold Py.sorted in Hp. rewrite merge_sort_Permutation in Hp.
        exact Hp.
      * intros p q Hp Hq Hnot.
        assert (Hs : StronglySorted Z.le (Py.sorted (elements (ports d)))).
        { apply Sorted_StronglySorted; [intros x y z; lia|].
          apply Sorted_merge_sort; apply _. }
        apply (sorted_take_below_drop 20 _ Hs p q Hp).
        assert (Hin : q ∈ Py.sorted (elements (ports d))).
        { unfold Py.sorted. rewrite merge_sort_Permutation.
          apply elem_of_elements, Hq. }
        rewrite <- (take_drop 20 (Py.sorted (elements (ports d)))) in Hin.
        apply elem_of_app in Hin as [Hin|Hin]; [destruct (Hnot Hin)|exact Hin].
Qed.

Lemma statistics_match_report_witness :
  let self :=
    feed default_detector
      [(0, probe "10.0.0.7" 443 None None 0);
       (0, probe "10.0.0.7" 22 None None 1)] in
  exists w,
    get_statistics
      (fst (detect_port_scan self 0 (probe "10.0.0.7" 80 None None 2)))
      (Some "10.0.0.7")
    = IpStats "10.0.0.7" 3 3 w [22; 80; 443].
Proof.
  intros self.
  destruct (statistics_match_report self 0 (probe "10.0.0.7" 80 None None 2))
    as (r & w & pa & Hr & Hs & _).
  - discriminate.
  - reflexivity.
  - eexists. vm_compute. reflexivity.
Defined.

End Metrics.

(** ** Flag labels *)

Section Flags.
Import PortScan.

Lemma land_low_bits (n bit : Z) :
  Z.land 63 bit = bit -> Z.land (Z.land n 63) bit = Z.land n bit.
Proof. intros H. rewrite <- Z.land_assoc, H. reflexivity. Qed.

Lemma flag_names_low_bits (n : Z) :
  List.filter (fun e => negb (Z.land (Z.land n 63) (fst e) =? 0)) flag_map
  = List.filter (fun e => negb (Z.land n (fst e) =? 0)) flag_map.
Proof.
  unfold flag_map. cbn [List.filter fst].
  rewrite !land_low_bits by reflexivity. reflexivity.
Qed.

Lemma low_bits_range (n : Z) : 0 <= Z.land n 63 < 64.
Proof.
  change 63 with (Z.ones 6). rewrite Z.land_ones by lia.
  apply Z.mod_pos_bound. reflexivity.
Qed.

Lemma low_bits_zero (n : Z) :
  Z.land n 63 = 0 ->
  List.filter (fun e => negb (Z.land n (fst e) =? 0)) flag_map = [].
Proof.
  intros H. rewrite <- flag_names_low_bits, H. reflexivity.
Qed.

Lemma parse_low_bits (n : Z) :
  _parse_tcp_flags (FlagsInt n) = _parse_tcp_flags (FlagsInt (Z.land n 63)).
Proof.
  unfold _parse_tcp_flags. rewrite flag_names_low_bits.
  destruct (Z.eqb_spec n 0) as [->|Hn]; [reflexivity|].
  destruct (Z.eqb_spec (Z.land n 63) 0) as [Hz|Hz]; [|reflexivity].
  rewrite (low_bits_zero n Hz). reflexivity.
Qed.

Lemma label_facts_all (low : Z) : 0 <= low < 64 -> label_facts low = true.
Proof.
  intros H.
  assert (Hall : forallb (fun k => label_facts (Z.of_nat k)) (seq 0 64) = true)
    by (vm_compute; reflexivity).
  rewrite forallb_forall in Hall.
  specialize (Hall (Z.to_nat low)). rewrite Z2Nat.id in Hall by lia.
  apply Hall, in_seq. lia.
Qed.

(** X10.  The label of an integer flags value depends only on its six
    low bits (FIN, SYN, RST, PSH, ACK, URG): it is "NULL" exactly when
    none of them is set (so a value with only ECE or CWR set is labelled
    NULL), "F" exactly when only FIN is set, "S" exactly when only SYN is
    set, and "XMAS" exactly when FIN, PSH and URG are all set; it is one
    of the stealth labels exactly in the NULL, F and XMAS cases. *)
Theorem parse_tcp_flags_labels (n : Z) :
  let label := _parse_tcp_flags (FlagsInt n) in
  let low := Z.land n 63 in
  label = _parse_tcp_flags (FlagsInt low)
  /\ (label = "NULL" <-> low = 0)
  /\ (label = "F" <-> low = 1)
  /\ (label = "S" <-> low = 2)
  /\ (label = "XMAS" <-> Z.land low 41 = 41)
  /\ (Py.in_list label stealth_flags = true
      <-> low = 0 \/ low = 1 \/ Z.land low 41 = 41).
Proof.
  intros label low. split; [apply parse_low_bits|].
  pose proof (label_facts_all (Z.land n 63) (low_bits_range n)) as H.
  unfold label_facts in H. rewrite <- parse_low_bits in H.
  fold label low in H.
  apply Bool.andb_true_iff in H as [H E5].
  apply Bool.andb_true_iff in H as [H E4].
  apply Bool.andb_true_iff in H as [H E3].
  apply Bool.andb_true_iff in H as [E1 E2].
  apply Bool.eqb_prop in E1, E2, E3, E4, E5.
  split; [rewrite <- String.eqb_eq, <- Z.eqb_eq, E1; reflexivity|].
  split; [rewrite <- String.eqb_eq, <- Z.eqb_eq, E2; reflexivity|].
  split; [rewrite <- String.eqb_eq, <- Z.eqb_eq, E3; reflexivity|].
  split; [rewrite <- String.eqb_eq, <- Z.eqb_eq, E4; reflexivity|].
  rewrite E5, !Bool.orb_true_iff, !Z.eqb_eq. tauto.
Qed.

End Flags.

(** ** The feeder: flag encoding and rate limiting *)

Section Feeder.
Import PacketCapture.

(** X11.  The feeder's encoding composed with the detector's labelling:
    a captured flag string is labelled "S" exactly when S is its only
    letter among F, S, R, P, A, U; "F" exactly when F is the only one;
    "NULL" exactly when it has none of them; and "XMAS" exactly when it
    has F, P and U. *)
Theorem captured_flags_labels (flags_str : string) :
  let label := PortScan._parse_tcp_flags
                 (PortScan.FlagsInt (_tcp_flags_to_int flags_str)) in
  let has c := Py.contains c flags_str in
  (label = "S"
   <-> has "S" && negb (has "F" || has "R" || has "P" || has "A" || has "U")
       = true)
  /\ (label = "F"
      <-> has "F" && negb (has "S" || has "R" || has "P" || has "A" || has "U")
          = true)
  /\ (label = "NULL"
      <-> has "F" || has "S" || has "R" || has "P" || has "A" || has "U" = false)
  /\ (label = "XMAS" <-> has "F" && has "P" && has "U" = true).
Proof.
  intros label has. subst label. unfold _tcp_flags_to_int, flag_map.
  cbn [fold_left fst snd]. fold (has "F") (has "S") (has "R") (has "P")
    (has "A") (has "U").
  destruct (has "F"), (has "S"), (has "R"), (has "P"), (has "A"), (has "U");
    vm_compute; repeat split; congruence.
Qed.

Lemma pop_stale_length now ts : (length (pop_stale now ts) <= length ts)%nat.
Proof.
  induction ts as [|t ts IH]; simpl; [lia|].
  destruct (1000000 <? now - t); simpl; lia.
Qed.

Lemma pop_stale_sorted now ts :
  Sorted Z.le ts ->
  pop_stale now ts = List.filter (fun t => negb (1000000 <? now - t)) ts.
Proof.
  intros Hs. apply Sorted_StronglySorted in Hs; [|intros x y z; lia].
  induction Hs as [|t ts Hs IH Hall]; simpl; [reflexivity|].
  destruct (1000000 <? now - t) eqn:E; simpl; [exact IH|].
  f_equal. symmetry. apply forallb_filter_id, forallb_forall.
  intros x Hx. rewrite Forall_forall in Hall.
  apply list_elem_of_In, Hall in Hx. lia.
Qed.

(** X12.  The capture rate limiter never holds more than
    [max_packets_per_second] timestamps.  When the held timestamps are in
    non-decreasing order, a packet is accepted exactly when fewer than
    [max_packets_per_second] held timestamps are at most one second old,
    and then its timestamp is appended; otherwise only the stale
    timestamps are dropped. *)
Theorem rate_limit_window self now :
  let out := _rate_limit self now in
  let fresh :=
    List.filter (fun t => negb (1000000 <? now - t)) (packet_timestamps self) in
  (length (packet_timestamps self) <= max_packets_per_second self)%nat ->
  (length (packet_timestamps (fst out)) <= max_packets_per_second self)%nat
  /\ max_packets_per_second (fst out) = max_packets_per_second self
  /\ (Sorted Z.le (packet_timestamps self) ->
      (snd out = true <-> (length fresh < max_packets_per_second self)%nat)
      /\ packet_timestamps (fst out)
         = if snd out then fresh ++ [now] else fresh).
Proof.
  intros out fresh Hlen. subst out. unfold _rate_limit. split; [|split].
  - pose proof (pop_stale_length now (packet_timestamps self)) as Hp.
    destruct (max_packets_per_second self <=? _)%nat eqn:E;
      cbn [fst packet_timestamps].
    + lia.
    + apply Nat.leb_gt in E. rewrite length_app. cbn [length]. lia.
  - destruct (max_packets_per_second self <=? _)%nat; reflexivity.
  - intros Hs. rewrite (pop_stale_sorted now _ Hs). fold fresh.
    destruct (max_packets_per_second self <=? length fresh)%nat eqn:E; simpl.
    + apply Nat.leb_le in E. repeat split; try discriminate; try lia.
    + apply Nat.leb_gt in E. repeat split; try lia; auto.
Qed.

Lemma rate_limit_window_witness :
  let self := {| max_packets_per_second := 2;
                 packet_timestamps := [0; 900000] |} in
  snd (_rate_limit self 1000000) = false
  /\ snd (_rate_limit self 1000001) = true.
Proof.
  intros self.
  assert (Hs : Sorted Z.le (packet_timestamps self))
    by (repeat constructor; discriminate).
  split.
  - destruct (rate_limit_window self 1000000) as (_ & _ & H).
    + simpl. lia.
    + destruct (H Hs) as [H' _].
      apply Bool.not_true_iff_false. rewrite H'. vm_compute. lia.
  - destruct (rate_limit_window self 1000001) as (_ & _ & H).
    + simpl. lia.
    + destruct (H Hs) as [H' _]. apply H'. vm_compute. lia.
Defined.

End Feeder.

(** ** Outcomes of [CyberSentinelMod.analyze_packet] *)

Section Outcomes.
Import Sentinel.

(** The shape of a report of the port-scan detector. *)
Lemma scan_report_shape det now packet r :
  0 < PortScan.threshold_ports det ->
  snd (PortScan.detect_port_scan det now packet) = Some r ->
  PortScan.threat_detected r = true ->
  alarming (PortScan.r_severity r)
  /\ is_Some (PortScan.attack_type r)
  /\ is_Some (PortScan.recommended_action r).
Proof.
  intros Hpos Hr Ht.
  destruct (detect_returns det now packet) as (v & Hv & Hr'); [lia|].
  rewrite Hr in Hr'. injection Hr' as ->.
  pose proof (patterns_shape _ _ _ Hpos Hv) as [_ Hs].
  set (w := PortScan.patterns_2_7 _ v) in *.
  unfold PortScan.build_result in Ht. cbn [PortScan.threat_detected] in Ht.
  rewrite Ht in Hs. destruct Hs as ((s & Hs & _) & _ & Hsev).
  unfold PortScan.build_result.
  cbn [PortScan.attack_type PortScan.r_severity PortScan.recommended_action].
  rewrite Ht, Hs. split; [exact Hsev|]. split; eauto.
Qed.

Lemma sentinel_scan_shape self now packet r :
  positive_threshold self ->
  scan_threat (snd (detect_port_scan self now packet)) = Some r ->
  alarming (PortScan.r_severity r)
  /\ is_Some (PortScan.attack_type r)
  /\ is_Some (PortScan.recommended_action r).
Proof.
  intros Hthr. unfold detect_port_scan.
  destruct (port_scan_detector self) as [det|] eqn:Ed; [|discriminate].
  destruct (PortScan.detect_port_scan det now packet) as [det' o] eqn:E.
  destruct o as [r'|]; [|discriminate]. simpl.
  destruct (PortScan.threat_detected r') eqn:Ht; [|discriminate].
  intros [= <-]. eapply scan_report_shape; [|rewrite E; reflexivity|exact Ht].
  exact (Hthr _ Ed).
Qed.

(** What a heuristic verdict says about the tracked entry. *)
Lemma heuristic_state self packet h :
  heuristic_classify self packet = Some h ->
  exists det ip d,
    port_scan_detector self = Some det
    /\ PortScan.srcip packet = Some ip
    /\ PortScan.ip_tracking det !! ip = Some d
    /\ ((Py.Qltb 50 (PortScan.rate_of d) = true
         /\ heuristic h = "DOS_ATTACK" /\ h_severity h = CRITICAL)
        \/ ((20 < length (PortScan.timestamps d))%nat
            /\ (size (PortScan.ports d) < 5)%nat
            /\ heuristic h = "BRUTE_FORCE" /\ h_severity h = HIGH
            /\ h_confidence h
               = Qmin 0.95 (Py.Qnat (length (PortScan.timestamps d)) / 100))
        \/ ((10 < PortScan.well_known (PortScan.ports d))%nat
            /\ heuristic h = "SERVICE_SCAN" /\ h_severity h = HIGH)).
Proof.
  unfold heuristic_classify. intros H.
  destruct (port_scan_detector self) as [det|]; [|discriminate].
  destruct (PortScan.srcip packet) as [ip|]; [|discriminate].
  cbn [mbind option_bind] in H.
  destruct (negb (Py.truthy ip)); [discriminate|].
  destruct (PortScan.ip_tracking det !! ip) as [d|] eqn:Ed; [|discriminate].
  cbn [mbind option_bind] in H.
  exists det, ip, d. repeat split; try reflexivity; try exact Ed.
  fold (PortScan.rate_of d) in H.
  destruct (Py.Qltb 50 (PortScan.rate_of d)) eqn:E1.
  { injection H as <-. left. repeat split. }
  destruct ((20 <? _)%nat && _) eqn:E2.
  { injection H as <-. right. left.
    apply andb_prop in E2 as [Ea Eb].
    apply Nat.ltb_lt in Ea. apply Nat.ltb_lt in Eb. repeat split; assumption. }
  destruct (10 <? _)%nat eqn:E3; [|discriminate].
  injection H as <-. right. right. apply Nat.ltb_lt in E3. repeat split.
  exact E3.
Qed.

Lemma heuristic_severity self packet h :
  heuristic_classify self packet = Some h -> alarming (h_severity h).
Proof.
  intros H. destruct (heuristic_state _ _ _ H) as (det & ip & d & _ & _ & _ & C).
  unfold alarming.
  destruct C as [(_ & _ & ->)|[(_ & _ & _ & -> & _)|(_ & _ & ->)]]; tauto.
Qed.

(** The severity of a label that is not a benign alias. *)
Lemma ml_severity_alarming upper pred :
  Py.truthy pred = true -> is_benign upper pred = false ->
  alarming (_get_severity_from_attack_type upper pred).
Proof.
  unfold _get_severity_from_attack_type, is_benign. intros -> Hb.
  cbn [negb]. unfold Py.in_list, benign_aliases in Hb. cbn [existsb] in Hb.
  revert Hb. generalize (upper pred). intros u Hb.
  apply Bool.orb_false_iff in Hb as [H1 Hb].
  apply Bool.orb_false_iff in Hb as [H2 _].
  unfold severity_map. cbn [Py.dict_get]. rewrite H1, H2.
  unfold alarming.
  repeat match goal with
         | |- context [String.eqb u ?k] => destruct (String.eqb u k)
         end; cbn [default]; tauto.
Qed.

Lemma backup_rules_consistent ml scan h f :
  (forall r, scan_threat scan = Some r ->
     alarming (PortScan.r_severity r)
     /\ is_Some (PortScan.attack_type r)
     /\ is_Some (PortScan.recommended_action r)) ->
  (forall x, h = Some x -> alarming (h_severity x)) ->
  threat_detected f = false ->
  recommendation f = None ->
  (ml_available ml = true -> consistent_outcome f) ->
  consistent_outcome (backup_rules ml scan h f).
Proof.
  intros Hscan Hh Hf Hrec Hml. unfold backup_rules.
  destruct (scan_threat scan) as [r|].
  { destruct (Hscan r eq_refl) as (Hs & [s Ht] & Ha).
    unfold consistent_outcome. cbn. rewrite Ht. repeat split; eauto. }
  assert (Hdef : consistent_outcome
                   (assign f (threat_detected f) (Some "BENIGN")
                      (attack_label f) (confidence f) NONE (recommendation f)
                      (model_used f) (Some "Normal"))).
  { unfold consistent_outcome. cbn. rewrite Hf. repeat split. exact Hrec. }
  destruct h as [x|].
  - destruct (Py.Qltb 0.5 (h_confidence x)).
    + unfold consistent_outcome. cbn. repeat split; eauto.
    + destruct (ml_available ml); [apply Hml; reflexivity|exact Hdef].
  - destruct (ml_available ml); [apply Hml; reflexivity|exact Hdef].
Qed.

(** X13.  Whatever the classifier answers, the result of
    [analyze_packet] is consistent when the detector's port threshold is
    positive: a threat carries one label as attack type and attack label,
    a severity of MEDIUM, HIGH or CRITICAL, an attribution and a
    recommendation; a non-threat is BENIGN with severity NONE and no
    recommendation. *)
Theorem analyze_packet_consistent upper self now ml_res packet :
  positive_threshold self ->
  consistent_outcome (snd (analyze_packet upper self now ml_res packet)).
Proof.
  intros Hthr. unfold analyze_packet.
  set (packet' := stamp _ packet).
  destruct (detect_port_scan self now packet') as [self' scan_res] eqn:Ed.
  assert (Hscan : forall r, scan_threat scan_res = Some r ->
            alarming (PortScan.r_severity r)
            /\ is_Some (PortScan.attack_type r)
            /\ is_Some (PortScan.recommended_action r)).
  { intros r Hr. apply (sentinel_scan_shape self now packet' r Hthr).
    rewrite Ed. exact Hr. }
  assert (Hh : forall x, heuristic_classify self' packet' = Some x ->
                         alarming (h_severity x)).
  { intros x Hx. exact (heuristic_severity _ _ _ Hx). }
  destruct ml_res as [|idx pc conf]; cbn [snd].
  - apply backup_rules_consistent; try assumption; try reflexivity.
    discriminate.
  - destruct (negb (is_benign upper (pred_of idx pc))) eqn:Eb; cbn [andb].
    + destruct (Py.Qleb 0.3 (or_zero conf)); cbn [snd].
      * unfold consistent_outcome. cbn.
        apply Bool.negb_true_iff in Eb. repeat split; eauto.
        apply ml_severity_alarming; [apply pred_of_truthy|exact Eb].
      * apply backup_rules_consistent; try assumption; try reflexivity.
        intros _. unfold consistent_outcome. cbn. repeat split.
    + cbn [snd].
      apply backup_rules_consistent; try assumption; try reflexivity.
      intros _. unfold consistent_outcome. cbn. repeat split.
Qed.

Lemma analyze_packet_consistent_witness :
  consistent_outcome
    (snd (analyze_packet Py.upper engine_under_scan 0 MlUnavailable tenth_probe)).
Proof.
  apply analyze_packet_consistent.
  intros det H. vm_compute in H. injection H as <-. vm_compute. reflexivity.
Defined.

Lemma detected_through d v :
  PortScan.scan_detected (PortScan.pattern2 d v) = true ->
  PortScan.scan_detected (PortScan.patterns_2_7 d v) = true.
Proof.
  intros H2. unfold PortScan.patterns_2_7.
  destruct (pattern_keeps_detected d _ H2) as (_ & H3 & _).
  destruct (pattern_keeps_detected d _ H3) as (_ & _ & H4 & _).
  destruct (pattern_keeps_detected d _ H4) as (_ & _ & _ & H5 & _).
  destruct (pattern_keeps_detected d _ H5) as (_ & _ & _ & _ & H6 & _).
  destruct (pattern_keeps_detected d _ H6) as (_ & _ & _ & _ & _ & H7).
  exact H7.
Qed.

Lemma silent_no_verdict upper idx pc conf :
  classifier_silent upper (MlPrediction idx pc conf) ->
  negb (is_benign upper (pred_of idx pc)) && Py.Qleb 0.3 (or_zero conf) = false.
Proof.
  intros [Hb|Hlt]; [rewrite Hb; reflexivity|].
  apply Bool.andb_false_iff. right.
  apply Bool.not_true_iff_false. rewrite Qleb_le, or_zero_eq.
  apply Qlt_not_le, Hlt.
Qed.

(** With a port threshold between 1 and 11, a heuristic verdict that is
    not accompanied by a finding of the detector is BRUTE_FORCE. *)
Lemma scan_preempts_heuristic self now packet self' scan_res h :
  detector_threshold self 1 11 ->
  detect_port_scan self now packet = (self', scan_res) ->
  heuristic_classify self' packet = Some h ->
  scan_threat scan_res = None ->
  heuristic h = "BRUTE_FORCE"
  /\ h_severity h = HIGH
  /\ (20 < retained_connections self' packet)%nat
  /\ h_confidence h
     = Qmin 0.95 (Py.Qnat (retained_connections self' packet) / 100).
Proof.
  intros Hthr Hd Hh Hs. unfold detect_port_scan in Hd.
  destruct (port_scan_detector self) as [det|] eqn:Edet.
  2:{ injection Hd as <- <-. unfold heuristic_classify in Hh.
      rewrite Edet in Hh. discriminate. }
  specialize (Hthr det Edet).
  destruct (detect_returns det now packet) as (v & Hv & Hr); [lia|].
  destruct (PortScan.detect_port_scan det now packet) as [det' o] eqn:E.
  cbn [fst snd] in Hv, Hr. subst o. injection Hd as <- <-.
  destruct (heuristic_state _ _ _ Hh) as (det0 & ip & d & H0 & Hip & Hd & C).
  cbn [port_scan_detector] in H0. injection H0 as <-.
  assert (Eip : PortScan.f_srcip (PortScan.extract_port_scan_features now packet)
                = ip).
  { unfold PortScan.extract_port_scan_features. cbn [PortScan.f_srcip].
    rewrite Hip. reflexivity. }
  rewrite Eip in Hv. rewrite Hip in Hs. cbn [from_option id] in Hs.
  assert (Ed : PortScan.tracked det' ip = d).
  { unfold PortScan.tracked. rewrite Hd. reflexivity. }
  rewrite Ed in Hv, Hs.
  cbn [scan_threat] in Hs.
  unfold PortScan.build_result in Hs at 1. cbn [PortScan.threat_detected] in Hs.
  destruct (PortScan.scan_detected (PortScan.patterns_2_7 d v)) eqn:Esc;
    [discriminate|].
  assert (Eret : retained_connections
                   {| model_path := model_path self;
                      port_scan_detector := Some det' |} packet
                 = length (PortScan.timestamps d)).
  { unfold retained_connections. cbn [port_scan_detector mbind option_bind].
    rewrite Hip. cbn [mbind option_bind]. rewrite Hd. reflexivity. }
  rewrite Eret.
  destruct C as [(Hrate & _)|[(Hn & _ & Hname & Hsev & Hconf)|(Hwk & _)]].
  - exfalso. rewrite (detected_through d v) in Esc; [discriminate|].
    unfold PortScan.pattern2. apply Qltb_lt in Hrate.
    assert (Hr5 : Py.Qltb 5.0 (PortScan.rate_of d) = true).
    { apply Qltb_lt. eapply Qlt_trans; [|exact Hrate]. reflexivity. }
    rewrite Hr5. reflexivity.
  - auto.
  - exfalso.
    pose proof (well_known_le_size (PortScan.ports d)) as Hle.
    destruct (pattern1_fires (PortScan.threshold_ports det) d)
      as (v' & Hv' & Hdetected & _); [lia|lia|].
    rewrite Hv in Hv'. injection Hv' as <-.
    destruct (patterns_monotone d v) as [Hm _].
    rewrite (Hm Hdetected) in Esc. discriminate.
Qed.

(** X14.  With a port threshold between 1 and 11 (the default is 10) and
    a classifier that is absent, benign or below 0.3, a threat returned
    by [analyze_packet] is attributed to the port-scan detector, or it is
    the BRUTE_FORCE heuristic with severity HIGH, a confidence above 0.5
    and at most 0.95, and more than 50 connections retained for the
    source: the DOS_ATTACK and SERVICE_SCAN heuristics never decide. *)
Theorem heuristic_backup_is_brute_force upper self now ml_res packet :
  let out := analyze_packet upper self now ml_res packet in
  detector_threshold self 1 11 ->
  classifier_silent upper ml_res ->
  threat_detected (snd out) = true ->
  model_used (snd out) = Some "PortScanDetector (backup)"
  \/ (model_used (snd out) = Some "Heuristic (backup)"
      /\ attack_type (snd out) = Some "BRUTE_FORCE"
      /\ severity (snd out) = HIGH
      /\ (0.5 < confidence (snd out) <= 0.95)%Q
      /\ (50 < retained_connections (fst out) packet)%nat).
Proof.
  intros out Hthr Hsilent. subst out. unfold analyze_packet.
  set (packet' := stamp _ packet).
  destruct (detect_port_scan self now packet') as [self' scan_res] eqn:Ed.
  set (final0 := Build_Final _ _ _ _ _ _ _ _ _ _ _ _ _ _ _).
  assert (K : forall f, threat_detected f = false ->
            threat_detected
              (backup_rules ml_res scan_res
                 (heuristic_classify self' packet') f) = true ->
            model_used (backup_rules ml_res scan_res
                          (heuristic_classify self' packet') f)
              = Some "PortScanDetector (backup)"
            \/ (model_used (backup_rules ml_res scan_res
                              (heuristic_classify self' packet') f)
                  = Some "Heuristic (backup)"
                /\ attack_type (backup_rules ml_res scan_res
                                  (heuristic_classify self' packet') f)
                   = Some "BRUTE_FORCE"
                /\ severity (backup_rules ml_res scan_res
                               (heuristic_classify self' packet') f) = HIGH
                /\ (0.5 < confidence (backup_rules ml_res scan_res
                                       (heuristic_classify self' packet') f)
                    <= 0.95)%Q
                /\ (50 < retained_connections self' packet)%nat)).
  { intros f Hf. unfold backup_rules.
    destruct (scan_threat scan_res) as [r|] eqn:Es; [left; reflexivity|].
    assert (Hdef : threat_detected
                     (assign f (threat_detected f) (Some "BENIGN")
                        (attack_label f) (confidence f) NONE
                        (recommendation f) (model_used f) (Some "Normal"))
                   = true -> False).
    { cbn. rewrite Hf. discriminate. }
    destruct (heuristic_classify self' packet') as [h|] eqn:Eh.
    2:{ destruct (ml_available ml_res); intros Ht;
          [rewrite Hf in Ht; discriminate|destruct (Hdef Ht)]. }
    destruct (Py.Qltb 0.5 (h_confidence h)) eqn:Ec.
    2:{ destruct (ml_available ml_res); intros Ht;
          [rewrite Hf in Ht; discriminate|destruct (Hdef Ht)]. }
    intros _. right. cbn.
    destruct (scan_preempts_heuristic _ _ _ _ _ _ Hthr Ed Eh Es)
      as (Hname & Hsev & _ & Hconf).
    change (retained_connections self' packet')
      with (retained_connections self' packet) in Hconf.
    apply Qltb_lt in Ec. rewrite Hname, Hsev.
    repeat split; try exact Ec.
    - rewrite Hconf. apply Q.le_min_l.
    - rewrite Hconf in Ec.
      apply Q.min_glb_lt_iff in Ec as [_ Ec].
      unfold Qdiv in Ec. change (/ 100)%Q with (1 # 100)%Q in Ec.
      assert (Hz : (inject_Z 50 < Py.Qnat (retained_connections self' packet))%Q).
      { change (inject_Z 50) with 50%Q. lra. }
      unfold Py.Qnat in Hz. rewrite <- Zlt_Qlt in Hz. lia. }
  destruct ml_res as [|idx pc conf]; cbn [fst snd].
  - apply K. reflexivity.
  - rewrite (silent_no_verdict _ _ _ _ Hsilent). cbn [fst snd].
    apply K. reflexivity.
Qed.

Lemma heuristic_backup_is_brute_force_witness :
  let out := analyze_packet Py.upper engine_under_brute_force 51000000 MlUnavailable
               next_login in
  model_used (snd out) = Some "Heuristic (backup)"
  /\ attack_type (snd out) = Some "BRUTE_FORCE".
Proof.
  intros out.
  destruct (heuristic_backup_is_brute_force Py.upper engine_under_brute_force 51000000
              MlUnavailable next_login) as [H|(Hm & Ha & _)].
  - intros det H. vm_compute in H. injection H as <-. vm_compute.
    split; discriminate.
  - exact I.
  - vm_compute. reflexivity.
  - vm_compute in H. discriminate.
  - split; assumption.
Defined.

End Outcomes.

(** ** The registry and the detector of attack_categories.py *)

Section Registry.
Import AttackCategories.

Lemma rules_of_info id :
  get_detection_rules id
  = (fun i => detection_rules (info i)) <$> get_subcategory_info id.
Proof.
  unfold get_detection_rules, get_subcategory_info.
  destruct (find_subcategory id CATEGORIES); reflexivity.
Qed.

Lemma enable_one_registered self id :
  registered id = true ->
  exists i,
    get_subcategory_info id = Some i
    /\ enable_one self id
       = {| enabled_attacks := enabled_attacks self ∪ {[id]};
            rule_table := <[id := detection_rules (info i)]> (rule_table self);
            response_actions :=
              <[id := auto_response (info i)]> (response_actions self) |}.
Proof.
  unfold registered, enable_one. rewrite rules_of_info.
  destruct (get_subcategory_info id) as [i|]; [|discriminate].
  intros _. exists i. split; reflexivity.
Qed.

Lemma enable_one_unregistered self id :
  registered id = false -> enable_one self id = self.
Proof.
  unfold registered, enable_one. rewrite rules_of_info.
  destruct (get_subcategory_info id) as [i|]; [discriminate|reflexivity].
Qed.

Lemma enable_enabled ids : forall self,
  enabled_attacks (enable_attack_detection self ids)
  = enabled_attacks self ∪ list_to_set (List.filter registered ids).
Proof.
  unfold enable_attack_detection.
  induction ids as [|id ids IH]; intros self; cbn [fold_left List.filter].
  - cbn [list_to_set]. rewrite union_empty_r_L. reflexivity.
  - rewrite IH. destruct (registered id) eqn:E.
    + destruct (enable_one_registered self id E) as (i & _ & ->).
      cbn [enabled_attacks list_to_set]. rewrite (assoc_L (∪)). reflexivity.
    + rewrite (enable_one_unregistered self id E). reflexivity.
Qed.

Lemma disable_enabled ids : forall self,
  enabled_attacks (disable_attack_detection self ids)
  = enabled_attacks self ∖ list_to_set ids.
Proof.
  unfold disable_attack_detection.
  induction ids as [|id ids IH]; intros self; cbn [fold_left list_to_set].
  - rewrite difference_empty_L. reflexivity.
  - rewrite IH. cbn [disable_one enabled_attacks].
    rewrite difference_difference_l_L. reflexivity.
Qed.

(** X15.  Enabling adds exactly the listed identifiers that the registry
    knows (unknown ones are ignored, repetitions and order do not
    matter); disabling removes exactly the listed identifiers; so
    disabling a list that was just enabled leaves what was enabled
    before and is not in the list. *)
Theorem enable_disable_sets self ids :
  enabled_attacks (enable_attack_detection self ids)
  = enabled_attacks self ∪ list_to_set (List.filter registered ids)
  /\ enabled_attacks (disable_attack_detection self ids)
     = enabled_attacks self ∖ list_to_set ids
  /\ enabled_attacks
       (disable_attack_detection (enable_attack_detection self ids) ids)
     = enabled_attacks self ∖ list_to_set ids.
Proof.
  split; [apply enable_enabled|]. split; [apply disable_enabled|].
  rewrite disable_enabled, enable_enabled. apply set_eq. intros x.
  rewrite !elem_of_difference, elem_of_union, !elem_of_list_to_set.
  rewrite list_elem_of_In, filter_In, <- list_elem_of_In. tauto.
Qed.

Lemma enable_one_sync self x : in_sync self -> in_sync (enable_one self x).
Proof.
  intros Hs. destruct (registered x) eqn:E.
  2:{ rewrite (enable_one_unregistered self x E). exact Hs. }
  destruct (enable_one_registered self x E) as (i & Hi & ->).
  intros id. cbn [enabled_attacks rule_table response_actions].
  rewrite elem_of_union, elem_of_singleton.
  destruct (decide (x = id)) as [->|Hne].
  - rewrite !lookup_insert_eq. split; [|tauto].
    intros _. exists i. repeat split. exact Hi.
  - rewrite !lookup_insert_ne by exact Hne.
    destruct (Hs id) as [H1 H2]. split; intros H.
    + apply H1. destruct H as [H|H]; [exact H|congruence].
    + apply H2. tauto.
Qed.

Lemma disable_one_sync self x : in_sync self -> in_sync (disable_one self x).
Proof.
  intros Hs id. cbn [disable_one enabled_attacks rule_table response_actions].
  rewrite elem_of_difference, elem_of_singleton.
  destruct (decide (x = id)) as [->|Hne].
  - rewrite !lookup_delete_eq. split; [tauto|]. split; reflexivity.
  - rewrite !lookup_delete_ne by exact Hne.
    destruct (Hs id) as [H1 H2]. split; intros H.
    + apply H1. tauto.
    + apply H2. intros Hin. apply H. split; [exact Hin|congruence].
Qed.

Lemma reachable_in_sync self : reachable self -> in_sync self.
Proof.
  induction 1 as [|self ids _ IH|self ids _ IH].
  - intros id. cbn [new_detector enabled_attacks rule_table response_actions].
    rewrite elem_of_empty, !lookup_empty. tauto.
  - unfold enable_attack_detection. revert self IH.
    induction ids as [|x ids IHids]; intros self IH; [exact IH|].
    cbn [fold_left]. apply IHids, enable_one_sync, IH.
  - unfold disable_attack_detection. revert self IH.
    induction ids as [|x ids IHids]; intros self IH; [exact IH|].
    cbn [fold_left]. apply IHids, disable_one_sync, IH.
Qed.

Lemma omap_all_some {A B : Type} (f : A -> option B) (l : list A) :
  (forall x, x ∈ l -> is_Some (f x)) -> length (omap f l) = length l.
Proof.
  induction l as [|a l IH]; intros H; [reflexivity|]. cbn [omap list_omap].
  destruct (H a) as [b Hb]; [list_mem|]. rewrite Hb. cbn [length].
  rewrite IH; [reflexivity|]. intros x Hx. apply H. list_mem. exact Hx.
Qed.

(** X16.  In every detector state that enabling and disabling can
    produce, the enabled set and the two tables agree: an enabled
    identifier is registered and carries the registry's detection rules
    and automatic response, any other identifier has no entry in either
    table; and [get_enabled_attacks] lists every enabled identifier, none
    skipped, each with the response that the detector would apply. *)
Theorem reachable_detector_in_sync self :
  reachable self ->
  in_sync self
  /\ length (get_enabled_attacks self) = size (enabled_attacks self)
  /\ (forall id, id ∈ enabled_attacks self ->
        exists e, e ∈ get_enabled_attacks self /\ e_id e = id)
  /\ (forall e, e ∈ get_enabled_attacks self ->
        e_id e ∈ enabled_attacks self
        /\ response_actions self !! e_id e = Some (e_auto_response e)).
Proof.
  intros Hr. pose proof (reachable_in_sync self Hr) as Hs.
  split; [exact Hs|]. unfold get_enabled_attacks. split; [|split].
  2:{ intros id Hid. destruct (Hs id) as [H1 _].
      destruct (H1 Hid) as (i & Hi & _).
      exists {| e_id := id; e_name := name (info i);
                e_category := category i; e_severity := severity (info i);
                e_auto_response := auto_response (info i) |}.
      split; [|reflexivity].
      apply list_elem_of_omap. exists id. split.
      - apply elem_of_elements, Hid.
      - rewrite Hi. reflexivity. }
  - rewrite omap_all_some; [reflexivity|].
    intros id Hid. apply elem_of_elements in Hid.
    destruct (Hs id) as [H1 _]. destruct (H1 Hid) as (i & -> & _).
    cbn. eauto.
  - intros e He. apply list_elem_of_omap in He as (id & Hid & He).
    apply elem_of_elements in Hid.
    destruct (Hs id) as [H1 _]. destruct (H1 Hid) as (i & Hi & _ & Hresp).
    rewrite Hi in He. cbn in He. injection He as <-.
    cbn [e_id e_auto_response]. split; assumption.
Qed.

Lemma reachable_detector_in_sync_witness :
  let self :=
    disable_attack_detection
      (enable_attack_detection new_detector
         ["SYN_SCAN"; "NO_SUCH_ATTACK"; "HTTP_FLOOD"])
      ["HTTP_FLOOD"] in
  length (get_enabled_attacks self) = 1%nat.
Proof.
  intros self.
  destruct (reachable_detector_in_sync self) as (_ & H & _ & _).
  - apply reach_disable, reach_enable, reach_new.
  - rewrite H. vm_compute. reflexivity.
Defined.

Lemma land_lor_covers (pf b m : Z) :
  Z.land pf (Z.lor b m) = Z.lor b m <-> Z.land pf b = b /\ Z.land pf m = m.
Proof.
  split.
  - intros H. split; apply Z.bits_inj'; intros n Hn;
      apply (f_equal (fun z => Z.testbit z n)) in H;
      rewrite Z.land_spec, Z.lor_spec in H; rewrite Z.land_spec;
      destruct (Z.testbit pf n), (Z.testbit b n), (Z.testbit m n);
      cbn in *; congruence.
  - intros [Hb Hm]. rewrite Z.land_lor_distr_r, Hb, Hm. reflexivity.
Qed.

Lemma land_pow2 (pf k : Z) :
  0 <= k -> Z.land pf (2 ^ k) = if Z.testbit pf k then 2 ^ k else 0.
Proof.
  intros Hk. apply Z.bits_inj'. intros n Hn.
  rewrite Z.land_spec, Z.pow2_bits_eqb by exact Hk.
  destruct (Z.eqb_spec k n) as [->|Hne].
  - destruct (Z.testbit pf n); [|rewrite Z.bits_0; reflexivity].
    rewrite Z.pow2_bits_true by exact Hn. reflexivity.
  - rewrite Bool.andb_false_r.
    destruct (Z.testbit pf k); [|rewrite Z.bits_0; reflexivity].
    rewrite Z.pow2_bits_false by lia. reflexivity.
Qed.

Lemma pow2_present (pf k : Z) :
  0 <= k ->
  negb (Z.land pf (2 ^ k) =? 0) = true <-> Z.land pf (2 ^ k) = 2 ^ k.
Proof.
  intros Hk. rewrite land_pow2 by exact Hk.
  assert (0 < 2 ^ k) by (apply Z.pow_pos_nonneg; lia).
  destruct (Z.testbit pf k).
  - destruct (Z.eqb_spec (2 ^ k) 0); [lia|]. cbn. tauto.
  - cbn. split; [discriminate|lia].
Qed.

(** The known flag names other than NULL stand for one bit each. *)
Lemma known_flag_bit flag bit :
  Py.dict_get flag flag_map = Some bit ->
  (flag = "NULL" /\ bit = 0) \/ (flag <> "NULL" /\ exists k, 0 <= k /\ bit = 2 ^ k).
Proof.
  unfold flag_map. cbn [Py.dict_get].
  repeat match goal with
         | |- context [String.eqb flag ?s] =>
           destruct (String.eqb_spec flag s) as [->|?];
           [intros [= <-]; right; split; [discriminate|];
            first [exists 0; split; [lia|reflexivity]
                  |exists 1; split; [lia|reflexivity]
                  |exists 2; split; [lia|reflexivity]
                  |exists 3; split; [lia|reflexivity]
                  |exists 4; split; [lia|reflexivity]
                  |exists 5; split; [lia|reflexivity]
                  |exists 6; split; [lia|reflexivity]
                  |exists 7; split; [lia|reflexivity]]
           |]
         end.
  destruct (String.eqb_spec flag "NULL") as [->|?]; [|discriminate].
  intros [= <-]. left. split; reflexivity.
Qed.

Lemma all_flags_present_mask (pf : Z) (l : list string) :
  all_flags_present pf l = true
  <-> ("NULL" ∉ l) /\ Z.land pf (mask_of l) = mask_of l.
Proof.
  unfold all_flags_present. induction l as [|flag l IH].
  - cbn. rewrite Z.land_0_r. split; [|reflexivity].
    intros _. split; [apply not_elem_of_nil|reflexivity].
  - cbn [forallb mask_of fold_right]. fold (mask_of l).
    rewrite Bool.andb_true_iff, IH, not_elem_of_cons, land_lor_covers.
    destruct (Py.dict_get flag flag_map) as [bit|] eqn:E.
    + destruct (known_flag_bit flag bit E) as [[-> ->]|(Hne & k & Hk & ->)].
      * cbn [default from_option id]. rewrite Z.land_0_r. cbn.
        split; [intros [H _]; discriminate|intros [[H _] _]; congruence].
      * cbn [default from_option id]. rewrite (pow2_present pf k Hk).
        split; [intros (? & ? & ?)|intros ((? & ?) & ? & ?)];
          repeat split; auto.
    + cbn [default from_option id]. rewrite Z.land_0_r.
      assert (flag <> "NULL") by (intros ->; discriminate E).
      split; [intros (_ & ? & ?)|intros ((_ & ?) & _ & ?)];
        repeat split; auto.
Qed.

(** X17.  [_check_tcp_flags] compares in two ways.  A list of one known
    flag name demands equality with that flag's bit, so ["SYN"] rejects a
    SYN-ACK packet and ["NULL"] accepts only a packet without flags.  Any
    other list matches exactly when it does not contain "NULL" and every
    bit it names is set in the packet, other bits being free; unknown
    names are ignored. *)
Theorem check_tcp_flags_mask (packet_flags : Z) (required_flags : list string) :
  match single_known required_flags with
  | Some bit => _check_tcp_flags packet_flags required_flags
                = (packet_flags =? bit)
  | None =>
    _check_tcp_flags packet_flags required_flags = true
    <-> ("NULL" ∉ required_flags)
        /\ Z.land packet_flags (mask_of required_flags) = mask_of required_flags
  end.
Proof.
  unfold single_known, _check_tcp_flags.
  destruct required_flags as [|flag [|flag' l]];
    try apply all_flags_present_mask.
  destruct (Py.dict_get flag flag_map) as [bit|] eqn:E; [reflexivity|].
  apply all_flags_present_mask.
Qed.

End Registry.

(** ** Requests and the retrainer of [ModelServer] *)

Section Requests.
Import ModelServer.

(** The dispatch on the command name. *)
Lemma command_cases {A : Type} (P : A -> Prop) (cmd : JVal) (a b c : A) :
  P a -> P b -> P c ->
  P (match cmd with
     | JStr "get_port_scan_stats" => a
     | JStr "ping" => b
     | _ => c
     end).
Proof.
  intros Ha Hb Hc.
  repeat match goal with
         | |- context [match ?x with _ => _ end] => is_var x; destruct x
         end; assumption.
Qed.

(** X18.  A request that carries a truthy ["command"] never changes the
    server: the engine is not run and nothing is queued, even when the
    request also carries a ["label"].  For "get_port_scan_stats" the
    call answers with the engine's statistics for the request's
    ["srcip"], or raises where the engine's [get_statistics] raises; for
    "ping" it answers with the ping status; any other answer is the
    unknown-command error. *)
Theorem command_is_read_only (Engine Stats Res : Type)
    (get_statistics : Engine -> option JVal -> option Stats)
    (analyze_packet : Engine -> JVal -> Engine * (Res + string))
    (py_str : JVal -> string)
    (self : ModelServer Engine) (now : string) (payload cmd : JVal) :
  let out :=
    _process_request Engine Stats Res get_statistics analyze_packet py_str
      self now payload in
  command_of payload = Some cmd ->
  fst out = self
  /\ exists items,
       payload = JObj items
       /\ (snd out
           = Statistics
               <$> get_statistics (ids_engine self) (get "srcip" items)
           \/ snd out = Some (Status "ok" (Some now))
           \/ snd out = Some (Error ("Unknown command: " +:+ py_str cmd)))
       /\ (cmd = JStr "get_port_scan_stats" ->
           snd out
           = Statistics
               <$> get_statistics (ids_engine self) (get "srcip" items))
       /\ (cmd = JStr "ping" -> snd out = Some (Status "ok" (Some now))).
Proof.
  intros out Hcmd. subst out. unfold _process_request. rewrite Hcmd.
  destruct payload as [| | | | | |items]; try discriminate Hcmd.
  split; [|exists items; split; [reflexivity|split]];
    [| |split; intros ->; reflexivity].
  1: apply (command_cases
              (fun o : ModelServer Engine * option (Response Stats Res) =>
                 fst o = self)); reflexivity.
  apply (command_cases
           (fun o : ModelServer Engine * option (Response Stats Res) =>
              snd o
              = Statistics
                  <$> get_statistics (ids_engine self) (get "srcip" items)
              \/ snd o = Some (Status "ok" (Some now))
              \/ snd o = Some (Error ("Unknown command: " +:+ py_str cmd)))).
  - left. reflexivity.
  - right. left. reflexivity.
  - right. right. reflexivity.
Qed.

Lemma command_is_read_only_witness :
  let out :=
    _process_request unit unit unit (fun _ _ => Some tt) (fun e _ => (e, inl tt))
      (fun _ => "") (loaded_server 3) "2026-01-01T00:00:00" labelled_ping in
  fst out = loaded_server 3.
Proof.
  intros out.
  destruct (command_is_read_only unit unit unit (fun _ _ => Some tt)
              (fun e _ => (e, inl tt)) (fun _ => "") (loaded_server 3)
              "2026-01-01T00:00:00" labelled_ping (JStr "ping")) as [H _].
  - reflexivity.
  - exact H.
Defined.

Lemma feedback_step (Engine Stats Res : Type)
    (get_statistics : Engine -> option JVal -> option Stats)
    (analyze_packet : Engine -> JVal -> Engine * (Res + string))
    (py_str : JVal -> string)
    (self : ModelServer Engine) (now : string) (payload : JVal) :
  feedback_sample payload ->
  fst (_process_request Engine Stats Res get_statistics analyze_packet py_str
         self now payload)
  = with_buffer Engine self (update_buffer self ++ [payload]).
Proof.
  intros [(items & -> & Hlabel) Hcmd].
  unfold _process_request. rewrite Hcmd.
  cbn [has_label]. rewrite (label_key_present items Hlabel). reflexivity.
Qed.

Lemma serve_all_feedback (Engine Stats Res : Type)
    (get_statistics : Engine -> option JVal -> option Stats)
    (analyze_packet : Engine -> JVal -> Engine * (Res + string))
    (py_str : JVal -> string) (now : string) (payloads : list JVal) :
  Forall feedback_sample payloads ->
  forall self : ModelServer Engine,
    serve_all Engine Stats Res get_statistics analyze_packet py_str
      self now payloads
    = with_buffer Engine self (update_buffer self ++ payloads).
Proof.
  unfold serve_all. induction 1 as [|p ps Hp _ IH]; intros self.
  - cbn [fold_left]. rewrite app_nil_r. destruct self; reflexivity.
  - cbn [fold_left]. rewrite feedback_step by exact Hp. rewrite IH.
    unfold with_buffer. cbn. rewrite <- app_assoc. reflexivity.
Qed.

(** X19.  Feedback samples reach the retrainer in the order of their
    submission and none is lost or repeated: after a sequence of feedback
    requests, one round of the retrainer takes the first
    [retrain_batch] samples of the old buffer followed by the new
    samples, the rest stays queued in the same order, and the engine is
    untouched. *)
Theorem feedback_is_delivered_in_order (Engine Stats Res : Type)
    (get_statistics : Engine -> option JVal -> option Stats)
    (analyze_packet : Engine -> JVal -> Engine * (Res + string))
    (py_str : JVal -> string)
    (self : ModelServer Engine) (now : string) (payloads : list JVal) :
  let served :=
    serve_all Engine Stats Res get_statistics analyze_packet py_str
      self now payloads in
  let out := take_batch Engine served in
  Forall feedback_sample payloads ->
  snd out ++ update_buffer (fst out) = update_buffer self ++ payloads
  /\ length (snd out)
     = Nat.min (Z.to_nat (retrain_batch self))
         (length (update_buffer self) + length payloads)
  /\ ids_engine (fst out) = ids_engine self
  /\ retrain_batch (fst out) = retrain_batch self.
Proof.
  intros served out H. subst out served.
  rewrite serve_all_feedback by exact H.
  unfold take_batch, with_buffer. cbn.
  rewrite take_drop, length_take, length_app. repeat split.
Qed.

Lemma feedback_is_delivered_in_order_witness :
  let served :=
    serve_all unit unit unit (fun _ _ => Some tt) (fun e _ => (e, inl tt))
      (fun _ => "") (loaded_server 49) "2026-01-01T00:00:00"
      [labelled_sample; labelled_sample] in
  let out := take_batch unit served in
  length (snd out) = 50%nat /\ length (update_buffer (fst out)) = 1%nat.
Proof.
  intros served out.
  destruct (feedback_is_delivered_in_order unit unit unit (fun _ _ => Some tt)
              (fun e _ => (e, inl tt)) (fun _ => "") (loaded_server 49)
              "2026-01-01T00:00:00" [labelled_sample; labelled_sample])
    as (H1 & H2 & _).
  - assert (Hs : feedback_sample labelled_sample).
    { split; [|reflexivity]. eexists. split; [reflexivity|]. cbn. eauto. }
    constructor; [exact Hs|]. constructor; [exact Hs|]. constructor.
  - fold served out in H1, H2. split.
    + rewrite H2. vm_compute. reflexivity.
    + apply (f_equal (@length JVal)) in H1.
      rewrite length_app, H2 in H1. vm_compute in H1. vm_compute. lia.
Defined.

End Requests.

(** ** The alert store and the rate-limit endpoint of app.py *)

Section Store.
Import App.

Lemma store_spec detection l :
  (length l <= 500)%nat ->
  (length (store detection l) <= 500)%nat
  /\ last (store detection l) = Some detection
  /\ store detection l
     = (if (length l <? 500)%nat then l else tail l) ++ [detection].
Proof.
  intros Hl. unfold store. rewrite length_app. cbn [length].
  destruct (500 <? length l + 1)%nat eqn:E.
  - apply Nat.ltb_lt in E. assert (Hlen : length l = 500%nat) by lia.
    destruct (Nat.ltb_spec (length l) 500); [lia|].
    destruct l as [|x l]; [discriminate|]. cbn [tail app].
    rewrite last_snoc, length_app. cbn in *. repeat split. lia.
  - apply Nat.ltb_ge in E.
    destruct (Nat.ltb_spec (length l) 500); [|lia].
    rewrite last_snoc, length_app. cbn. repeat split. lia.
Qed.

(** X20.  The alert store never holds more than 500 detections.  An
    emitted alert is appended as the newest entry; when the store is
    full, the oldest entry is dropped and every other one is kept in
    order.  A call that emits nothing leaves the whole state as it
    is. *)
Theorem detections_stay_bounded g now now_iso packet_data result :
  let out := add_threat_detection g now now_iso packet_data result in
  (length (threat_detections g) <= 500)%nat ->
  (length (threat_detections (fst out)) <= 500)%nat
  /\ match snd out with
     | Some detection =>
       last (threat_detections (fst out)) = Some detection
       /\ threat_detections (fst out)
          = (if (length (threat_detections g) <? 500)%nat
             then threat_detections g
             else tail (threat_detections g)) ++ [detection]
     | None => fst out = g
     end.
Proof.
  intros out Hl. subst out. unfold add_threat_detection.
  destruct result as [result|]; [|split; [exact Hl|reflexivity]].
  destruct (threat_detected result); [|split; [exact Hl|reflexivity]].
  destruct (rate_limited g _ now); [split; [exact Hl|reflexivity]|].
  cbn [fst snd threat_detections].
  match goal with
  | |- context [store ?d _] =>
    destruct (store_spec d (threat_detections g) Hl) as (H1 & H2 & H3)
  end.
  split; [exact H1|]. split; [exact H2|exact H3].
Qed.

Lemma detections_stay_bounded_witness :
  let out :=
    add_threat_detection fresh_globals 100 "t0" dos_packet (Some dos_alert) in
  (length (threat_detections (fst out)) <= 500)%nat.
Proof.
  intros out.
  destruct (detections_stay_bounded fresh_globals 100 "t0" dos_packet
              (Some dos_alert)) as [H _].
  - cbn. lia.
  - exact H.
Defined.

(** X21.  A request to the rate-limit endpoint keeps the window between
    1 and 60 seconds and never touches the stored detections.  A POST of
    an object whose ["seconds"] converts to an integer [n] answers with
    the success dictionary for [n] when [1 <= n <= 60] and with the
    range error otherwise; without ["seconds"] it succeeds with the
    current window; a GET reports the window and the number of limiter
    entries.  The state changes only with the success dictionary: then
    the window is the value of the response and the limiter is emptied,
    so that the next threat result is emitted whatever was emitted
    before.  A GET, a value outside 1..60 and a failing conversion leave
    the state as it is. *)
Theorem rate_limit_endpoint (int_of_str : string -> option Z) g post data :
  let out := api_rate_limit int_of_str g post data in
  1 <= THREAT_RATE_LIMIT_SECONDS g <= 60 ->
  1 <= THREAT_RATE_LIMIT_SECONDS (fst out) <= 60
  /\ threat_detections (fst out) = threat_detections g
  /\ match snd out with
     | Updated n =>
       post = true
       /\ THREAT_RATE_LIMIT_SECONDS (fst out) = n
       /\ threat_rate_limiter (fst out) = ∅
       /\ forall now now_iso packet_data result,
            threat_detected result = true ->
            is_Some (snd (add_threat_detection (fst out) now now_iso
                            packet_data (Some result)))
     | _ => fst out = g
     end
  /\ (forall items v n,
        post = true -> data = ModelServer.JObj items ->
        ModelServer.get "seconds" items = Some v ->
        py_int int_of_str v = Some n ->
        snd out = if (1 <=? n) && (n <=? 60) then Updated n else OutOfRange)
  /\ (forall items,
        post = true -> data = ModelServer.JObj items ->
        ModelServer.get "seconds" items = None ->
        snd out = Updated (THREAT_RATE_LIMIT_SECONDS g))
  /\ (post = false ->
      snd out = Current (THREAT_RATE_LIMIT_SECONDS g)
                  (size (threat_rate_limiter g))).
Proof.
  intros out Hg.
  assert (Hpin :
    (forall items v n,
        post = true -> data = ModelServer.JObj items ->
        ModelServer.get "seconds" items = Some v ->
        py_int int_of_str v = Some n ->
        snd out = if (1 <=? n) && (n <=? 60) then Updated n else OutOfRange)
    /\ (forall items,
          post = true -> data = ModelServer.JObj items ->
          ModelServer.get "seconds" items = None ->
          snd out = Updated (THREAT_RATE_LIMIT_SECONDS g))
    /\ (post = false ->
        snd out = Current (THREAT_RATE_LIMIT_SECONDS g)
                    (size (threat_rate_limiter g)))).
  { subst out. unfold api_rate_limit. split; [|split].
    - intros items v n -> -> -> ->.
      destruct ((1 <=? n) && (n <=? 60)); reflexivity.
    - intros items -> -> ->.
      assert (E : (1 <=? THREAT_RATE_LIMIT_SECONDS g)
                  && (THREAT_RATE_LIMIT_SECONDS g <=? 60) = true).
      { apply andb_true_intro. split; apply Z.leb_le; lia. }
      rewrite E. reflexivity.
    - intros ->. reflexivity. }
  cut (1 <= THREAT_RATE_LIMIT_SECONDS (fst out) <= 60
       /\ threat_detections (fst out) = threat_detections g
       /\ match snd out with
          | Updated n =>
            post = true
            /\ THREAT_RATE_LIMIT_SECONDS (fst out) = n
            /\ threat_rate_limiter (fst out) = ∅
            /\ forall now now_iso packet_data result,
                 threat_detected result = true ->
                 is_Some (snd (add_threat_detection (fst out) now now_iso
                                 packet_data (Some result)))
          | _ => fst out = g
          end).
  { intros (H1 & H2 & H3). destruct Hpin as (P1 & P2 & P3).
    repeat (split; [assumption|]). assumption. }
  clear Hpin. subst out. unfold api_rate_limit.
  destruct post; [|repeat split; apply Hg].
  destruct data as [| | | | | |items]; try (repeat split; apply Hg).
  destruct (match ModelServer.get "seconds" items with
            | Some v => py_int int_of_str v
            | None => Some (THREAT_RATE_LIMIT_SECONDS g)
            end) as [n|]; [|repeat split; apply Hg].
  destruct ((1 <=? n) && (n <=? 60)) eqn:E; [|repeat split; apply Hg].
  apply andb_prop in E as [E1 E2]. apply Z.leb_le in E1, E2.
  cbn [fst snd THREAT_RATE_LIMIT_SECONDS threat_detections threat_rate_limiter].
  repeat split; try lia.
  intros now now_iso packet_data result Ht.
  unfold add_threat_detection, rate_limited. rewrite Ht.
  cbn [threat_rate_limiter]. rewrite lookup_empty. cbn. eauto.
Qed.

Lemma rate_limit_endpoint_witness :
  let started :=
    fst (add_threat_detection fresh_globals 100 "t0" dos_packet
           (Some dos_alert)) in
  let out :=
    api_rate_limit (fun _ => None) started true
      (ModelServer.JObj [("seconds", ModelServer.JInt 30)]) in
  snd (add_threat_detection started 101 "t1" dos_packet (Some dos_alert))
  = None
  /\ snd out = Updated 30
  /\ is_Some (snd (add_threat_detection (fst out) 101 "t1" dos_packet
                     (Some dos_alert))).
Proof.
  intros started out. split; [vm_compute; reflexivity|].
  destruct (rate_limit_endpoint (fun _ => None) started true
              (ModelServer.JObj [("seconds", ModelServer.JInt 30)]))
    as (_ & _ & H & Hpost & _).
  - vm_compute. split; discriminate.
  - fold out in H, Hpost.
    assert (E : snd out = Updated 30).
    { apply (Hpost [("seconds", ModelServer.JInt 30)] (ModelServer.JInt 30) 30);
        reflexivity. }
    split; [exact E|]. rewrite E in H.
    destruct H as (_ & _ & _ & H). apply H. reflexivity.
Defined.

End Store.
